(** * Order lifecycle and authorization core of the restaurant backend

    A shallow embedding of [src/controllers/orderController.ts],
    [src/controllers/paymentController.ts], the role gate of
    [middleware/authMiddleware] and the routes that mount them, followed by
    the properties of the order state machine, of pricing and branch
    resolution and of the payment guard.

    Conventions of the embedding.
    - The handlers are [async] functions that talk to the relational store
      through the ORM client.  Every such call may reject (connection loss, a
      constraint of the schema such as a unique or foreign key, a malformed
      value); the handlers anticipate it with [try]/[catch].  A run therefore
      carries a schedule of booleans, one per store call, that says which
      calls reject; an exhausted schedule means that the store rejects no
      further call of its own accord.
    - Whatever the schedule, the store rejects a call that breaks a
      constraint of the schema: the foreign keys of the orders, order items
      and payments (all [ON DELETE RESTRICT]) and the 32-bit range of the
      quantity column.
    - JavaScript numbers (prices, amounts) are kept abstract behind the class
      [JsNumber]: nothing proved below depends on how the arithmetic rounds.
    - Strings are sequences of 8-bit characters and lower-casing is the
      ASCII one; the properties of the address matching are stated for ASCII
      addresses. *)

From Stdlib Require Import ZArith List String Ascii Bool Lia QArith Qabs DecimalString.
From Stdlib Require Import Sorted Permutation.
Import ListNotations.
Local Open Scope Z_scope.
Local Open Scope string_scope.

Set Implicit Arguments.

(** ** JavaScript values *)

(** The operations the handlers apply to JavaScript numbers. *)
Class JsNumber (num : Type) : Type := {
  nzero : num;                       (* the literal 0 *)
  hundredth : num;                   (* the literal 0.01 *)
  nadd : num -> num -> num;          (* a + b *)
  nsub : num -> num -> num;          (* a - b *)
  nmul : num -> num -> num;          (* a * b *)
  nabs : num -> num;                 (* Math.abs(a) *)
  ngt : num -> num -> bool;          (* a > b *)
  ntruthy : num -> bool;             (* !!a : false for 0 and NaN *)
  of_int : Z -> num;                 (* an integer column read as a number *)
  parseFloat : num -> num            (* parseFloat(a) *)
}.

(** Exact rational arithmetic, used to run the scenarios of the
    specification. *)
#[export] Instance QNumber : JsNumber Q := {
  nzero := 0%Q;
  hundredth := (1 # 100)%Q;
  nadd := Qplus;
  nsub := Qminus;
  nmul := Qmult;
  nabs := Qabs;
  ngt := fun a b => negb (Qle_bool a b);
  ntruthy := fun a => negb (Qeq_bool a 0%Q);
  of_int := inject_Z;
  parseFloat := fun a => a
}.

(** Truthiness of an integer that may be absent ([undefined], [null], 0). *)
Definition truthy_int (v : option Z) : bool :=
  match v with
  | Some n => negb (n =? 0)%Z
  | None => false
  end.

(** Truthiness of a string that may be absent. *)
Definition truthy_str (v : option string) : bool :=
  match v with
  | Some s => negb (s =? "")
  | None => false
  end.

(** The values of a column of type [Int]: 32-bit signed integers.  The
    client rejects a value outside this range. *)
Definition int4 (n : Z) : bool := (-2147483648 <=? n)%Z && (n <=? 2147483647)%Z.

(** [a || b] on integers that may be absent. *)
Definition or_else (a : option Z) (b : Z) : Z :=
  match a with
  | Some n => if (n =? 0)%Z then b else n
  | None => b
  end.

(** [Array.prototype.includes] on an array of strings. *)
Definition includes (l : list string) (s : string) : bool :=
  existsb (String.eqb s) l.

(** Decimal rendering of an integer inside a template literal. *)
Definition show_int (z : Z) : string := NilZero.string_of_int (Z.to_int z).

(** ** Enumerations of the schema *)

Inductive Role : Type :=
  CUSTOMER | CHEF | CASHIER | BRANCH_MANAGER | GENERAL_MANAGER | ADMIN.

Inductive OrderStatus : Type :=
  PENDING | PREPARING | READY | DELIVERED | CANCELLED.

Inductive PaymentMethod : Type :=
  CASH | CREDIT_CARD | DEBIT_CARD | MOBILE_PAYMENT.

Module PaymentStatus.
Inductive t : Type := PENDING | COMPLETED | FAILED | REFUNDED.
End PaymentStatus.

Definition Role_eqb (a b : Role) : bool :=
  match a, b with
  | CUSTOMER, CUSTOMER | CHEF, CHEF | CASHIER, CASHIER
  | BRANCH_MANAGER, BRANCH_MANAGER | GENERAL_MANAGER, GENERAL_MANAGER
  | ADMIN, ADMIN => true
  | _, _ => false
  end.

Definition OrderStatus_eqb (a b : OrderStatus) : bool :=
  match a, b with
  | PENDING, PENDING | PREPARING, PREPARING | READY, READY
  | DELIVERED, DELIVERED | CANCELLED, CANCELLED => true
  | _, _ => false
  end.

(** The name of a status, as the enum value appears in JavaScript. *)
Definition status_name (s : OrderStatus) : string :=
  match s with
  | PENDING => "PENDING"
  | PREPARING => "PREPARING"
  | READY => "READY"
  | DELIVERED => "DELIVERED"
  | CANCELLED => "CANCELLED"
  end.

(** The enum value a string denotes, if any: the store rejects the others. *)
Definition parse_status (s : string) : option OrderStatus :=
  if s =? "PENDING" then Some PENDING
  else if s =? "PREPARING" then Some PREPARING
  else if s =? "READY" then Some READY
  else if s =? "DELIVERED" then Some DELIVERED
  else if s =? "CANCELLED" then Some CANCELLED
  else None.

Definition parse_method (s : string) : option PaymentMethod :=
  if s =? "CASH" then Some CASH
  else if s =? "CREDIT_CARD" then Some CREDIT_CARD
  else if s =? "DEBIT_CARD" then Some DEBIT_CARD
  else if s =? "MOBILE_PAYMENT" then Some MOBILE_PAYMENT
  else None.

(** ** Rows of the store *)

(** [req.user] as the handlers read it, with an integer id and, when it is
    present, an integer branch. *)
Record User : Type := {
  user_id : Z;
  user_role : Role;
  user_branchId : option Z
}.

Record Branch : Type := {
  branch_id : Z;
  branch_name : string;
  branch_address : string
}.

Section Rows.
Context {num : Type}.

Record MenuItem : Type := {
  menu_id : Z;
  menu_name : string;
  menu_price : num;
  menu_isAvailable : bool;
  menu_branchId : Z
}.

Record Order : Type := {
  order_id : Z;
  order_status : OrderStatus;
  order_totalAmount : num;
  order_createdAt : Z;
  order_deliveryAddress : option string;
  order_customerId : Z;
  order_branchId : Z
}.

Record OrderItem : Type := {
  item_id : Z;
  item_quantity : Z;
  item_unitPrice : num;
  item_subtotal : num;
  item_orderId : Z;
  item_menuItemId : Z
}.

Record Payment : Type := {
  payment_id : Z;
  payment_amount : num;
  payment_method : PaymentMethod;
  payment_status : PaymentStatus.t;
  payment_orderId : Z
}.

(** The tables, the auto-increment counters and the clock behind
    [@default(now())].  Of the User table the handlers of this development
    use the primary key only, as the target of [Order_customerId_fkey]. *)
Record Store : Type := {
  userIds : list Z;
  branches : list Branch;
  menuItems : list MenuItem;
  orders : list Order;
  orderItems : list OrderItem;
  payments : list Payment;
  nextOrderId : Z;
  nextItemId : Z;
  nextPaymentId : Z;
  now : Z
}.
End Rows.

Arguments MenuItem : clear implicits.
Arguments Order : clear implicits.
Arguments OrderItem : clear implicits.
Arguments Payment : clear implicits.
Arguments Store : clear implicits.

(** ** Address matching of [createOrder] *)

(** [String.prototype.toLowerCase], on one character of the ASCII range.
    Outside that range the method follows the Unicode case mapping, and a
    character need not be one unit of the string: the properties of the
    address matching are stated for ASCII addresses. *)
Definition to_lower (c : ascii) : ascii :=
  let n := nat_of_ascii c in
  if ((65 <=? n) && (n <=? 90))%nat then ascii_of_nat (n + 32) else c.

(** The string holds characters of the ASCII range only. *)
Definition ascii_only (str : string) : bool :=
  forallb (fun c => (nat_of_ascii c <? 128)%nat) (list_ascii_of_string str).

(** The characters the pattern [[^a-z0-9]] leaves in place. *)
Definition is_lower_alnum (c : ascii) : bool :=
  let n := nat_of_ascii c in
  (((97 <=? n) && (n <=? 122)) || ((48 <=? n) && (n <=? 57)))%nat.

(** [str => str.toLowerCase().replace(/[^a-z0-9]/g, '')] *)
Definition normalize (str : string) : string :=
  string_of_list_ascii
    (filter is_lower_alnum (map to_lower (list_ascii_of_string str))).

(** [a[i] === b[i]]; an index past the end reads [undefined]. *)
Definition same_char (a b : option ascii) : bool :=
  match a, b with
  | Some x, Some y => Ascii.eqb x y
  | None, None => true
  | _, _ => false
  end.

(** The inner loop:
    [for (i = 0; i < Math.min(branchNorm.length, input.length); i++)
       if (branchNorm[i] === input[i]) score++]. *)
Definition matchScore (branchNorm input : string) : nat :=
  fold_left
    (fun score i =>
       if same_char (String.get i branchNorm) (String.get i input)
       then S score else score)
    (seq 0 (Nat.min (String.length branchNorm) (String.length input)))
    0%nat.

(** The score of a branch against the normalized input address. *)
Definition branchScore (input : string) (branch : Branch) : nat :=
  matchScore (normalize (branch_address branch)) input.

(** One turn of the outer loop on [(best, bestScore)]. *)
Definition keepBest (input : string) (acc : Branch * nat) (branch : Branch)
  : Branch * nat :=
  let score := branchScore input branch in
  if (snd acc <? score)%nat then (branch, score) else acc.

(** The outer loop, started at [best = branches[0]], [bestScore = 0]. *)
Definition pickBranch (input : string) (first : Branch) (branches : list Branch)
  : Branch :=
  fst (fold_left (keepBest input) branches (first, 0%nat)).

(** A letter or a digit: what the specification calls alphanumeric. *)
Definition spec_is_alnum (c : ascii) : bool :=
  let n := nat_of_ascii c in
  (((65 <=? n) && (n <=? 90)) || ((97 <=? n) && (n <=? 122))
   || ((48 <=? n) && (n <=? 57)))%nat.

(** The count the specification words: the positions at which the two
    strings carry the same character, up to the end of the shorter. *)
Definition spec_score (a b : string) : nat :=
  List.length
    (filter (fun p => Ascii.eqb (fst p) (snd p))
            (combine (list_ascii_of_string a) (list_ascii_of_string b))).

(** The score of a branch for a delivery address, in the words of the
    specification: both addresses normalized, then compared position by
    position. *)
Definition spec_branch_score (deliveryAddress : string) (branch : Branch) : nat :=
  spec_score (normalize (branch_address branch)) (normalize deliveryAddress).

Definition Branch_eq_dec (a b : Branch) : {a = b} + {a <> b}.
Proof. decide equality; solve [apply string_dec | apply Z.eq_dec]. Defined.

(** ** The store behind the ORM client *)

Section Backend.
Context {num : Type} {NUM : JsNumber num}.

(** A run of a handler: the store and the schedule of the store calls
    still to come ([true]: the call rejects). *)
Record World : Type := {
  db : Store num;
  faults : list bool
}.

(** A run in which the store rejects no call of its own accord: a call is
    rejected only when it breaks a constraint of the schema. *)
Definition reliable (s : Store num) : World := {| db := s; faults := [] |}.

(** The settlement of a promise. *)
Inductive Outcome (A : Type) : Type :=
| Resolved (a : A)
| Rejected.
Arguments Rejected {A}.

Definition Async (A : Type) : Type := World -> Outcome A * World.

Definition ret {A} (a : A) : Async A := fun w => (Resolved a, w).

Definition bind {A B} (m : Async A) (k : A -> Async B) : Async B :=
  fun w =>
    match m w with
    | (Resolved a, w') => k a w'
    | (Rejected, w') => (Rejected, w')
    end.

(** One call of the ORM client.  [f] is what the call does to the tables
    when the store accepts it; [None] is a rejection by the store itself
    (the row to update or delete does not exist, a value is not of the
    column's enum or range, a foreign key is broken).  A rejected call
    writes nothing. *)
Definition store_call {A} (f : Store num -> option (A * Store num)) : Async A :=
  fun w =>
    let rest := tl (faults w) in
    match faults w with
    | true :: _ => (Rejected, {| db := db w; faults := rest |})
    | _ =>
        match f (db w) with
        | Some (a, s') => (Resolved a, {| db := s'; faults := rest |})
        | None => (Rejected, {| db := db w; faults := rest |})
        end
    end.

(** A call that only reads. *)
Definition store_read {A} (f : Store num -> A) : Async A :=
  store_call (fun s => Some (f s, s)).

(** [orderBy: { createdAt: 'desc' }]. *)
Fixpoint insert_desc {A} (key : A -> Z) (x : A) (l : list A) : list A :=
  match l with
  | [] => [x]
  | y :: l' => if (key y <? key x)%Z then x :: l else y :: insert_desc key x l'
  end.

Definition sort_desc {A} (key : A -> Z) (l : list A) : list A :=
  fold_right (insert_desc key) [] l.

Definition find_order (s : Store num) (id : Z) : option (Order num) :=
  find (fun o => (order_id o =? id)%Z) (orders s).

(** The payment of an order: [orderId] is a unique column. *)
Definition payment_of (s : Store num) (orderId : Z) : option (Payment num) :=
  find (fun p => (payment_orderId p =? orderId)%Z) (payments s).

Definition find_payment (s : Store num) (id : Z) : option (Payment num) :=
  find (fun p => (payment_id p =? id)%Z) (payments s).

Definition items_of (s : Store num) (orderId : Z) : list (OrderItem num) :=
  filter (fun i => (item_orderId i =? orderId)%Z) (orderItems s).

Definition find_menuItem (s : Store num) (id : Z) : option (MenuItem num) :=
  find (fun m => (menu_id m =? id)%Z) (menuItems s).

(** An order with its [include]d relations. *)
Record OrderView : Type := {
  view_order : Order num;
  view_items : list (OrderItem num);
  view_payment : option (Payment num)
}.

Definition view (s : Store num) (o : Order num) : OrderView :=
  {| view_order := o;
     view_items := items_of s (order_id o);
     view_payment := payment_of s (order_id o) |}.

Definition set_order_status (st : OrderStatus) (o : Order num) : Order num :=
  {| order_id := order_id o;
     order_status := st;
     order_totalAmount := order_totalAmount o;
     order_createdAt := order_createdAt o;
     order_deliveryAddress := order_deliveryAddress o;
     order_customerId := order_customerId o;
     order_branchId := order_branchId o |}.

Definition set_payment_status (st : PaymentStatus.t) (p : Payment num) : Payment num :=
  {| payment_id := payment_id p;
     payment_amount := payment_amount p;
     payment_method := payment_method p;
     payment_status := st;
     payment_orderId := payment_orderId p |}.

Definition with_orders (s : Store num) (l : list (Order num)) : Store num :=
  {| userIds := userIds s;
     branches := branches s; menuItems := menuItems s; orders := l;
     orderItems := orderItems s; payments := payments s;
     nextOrderId := nextOrderId s; nextItemId := nextItemId s;
     nextPaymentId := nextPaymentId s; now := now s |}.

Definition with_payments (s : Store num) (l : list (Payment num)) : Store num :=
  {| userIds := userIds s;
     branches := branches s; menuItems := menuItems s; orders := orders s;
     orderItems := orderItems s; payments := l;
     nextOrderId := nextOrderId s; nextItemId := nextItemId s;
     nextPaymentId := nextPaymentId s; now := now s |}.

(** The tables after [payment.update({ where: { id }, data: { status } })]. *)
Definition refund_payment (id : Z) (s : Store num) : Store num :=
  with_payments s
    (map (fun p => if (payment_id p =? id)%Z
                   then set_payment_status PaymentStatus.REFUNDED p else p)
         (payments s)).

(** The tables after [order.update({ where: { id }, data: { status } })]. *)
Definition write_order_status (id : Z) (st : OrderStatus) (s : Store num) : Store num :=
  with_orders s
    (map (fun o => if (order_id o =? id)%Z then set_order_status st o else o)
         (orders s)).

(** The tables after [order.delete({ where: { id } })]. *)
Definition remove_order (id : Z) (s : Store num) : Store num :=
  with_orders s (filter (fun o => negb (order_id o =? id)%Z) (orders s)).

(** *** The calls of the ORM client *)

(** [prisma.order.findUnique({ where: { id }, include: { payment: true } })] *)
Definition order_findUnique (id : Z)
  : Async (option (Order num * option (Payment num))) :=
  store_read (fun s =>
    match find_order s id with
    | Some o => Some (o, payment_of s id)
    | None => None
    end).

(** [prisma.payment.update({ where: { id }, data: { status: 'REFUNDED' } })] *)
Definition payment_update_refunded (id : Z) : Async unit :=
  store_call (fun s =>
    match find_payment s id with
    | Some _ => Some (tt, refund_payment id s)
    | None => None
    end).

(** [prisma.order.update({ where: { id }, data: { status }, include })] *)
Definition order_update (id : Z) (status : string) : Async OrderView :=
  store_call (fun s =>
    match find_order s id, parse_status status with
    | Some o, Some st =>
        let s' := write_order_status id st s in
        Some (view s' (set_order_status st o), s')
    | _, _ => None
    end).

(** [prisma.order.delete({ where: { id } })].  The order items and the
    payment of an order refer to it with [ON DELETE RESTRICT]
    ([OrderItem_orderId_fkey], [Payment_orderId_fkey]): the store rejects
    the deletion of an order that still has an item or a payment.  (So
    does a receipt; no handler of this development writes one, and the
    store holds none.) *)
Definition order_delete (id : Z) : Async unit :=
  store_call (fun s =>
    match find_order s id, items_of s id, payment_of s id with
    | Some _, [], None => Some (tt, remove_order id s)
    | _, _, _ => None
    end).

(** [prisma.branch.findMany()] *)
Definition branch_findMany : Async (list Branch) :=
  store_read (fun s => branches s).

(** [prisma.menuItem.findUnique({ where: { id } })] *)
Definition menuItem_findUnique (id : Z) : Async (option (MenuItem num)) :=
  store_read (fun s => find_menuItem s id).

(** The [data] of [prisma.order.create]. *)
Record OrderItemDraft : Type := {
  draft_menuItemId : Z;
  draft_quantity : Z;
  draft_unitPrice : num;
  draft_subtotal : num
}.

Record OrderData : Type := {
  data_branchId : Z;
  data_customerId : Z;
  data_status : OrderStatus;
  data_totalAmount : num;
  data_deliveryAddress : option string;
  data_items : list OrderItemDraft
}.

(** The rows of a nested [items: { create: [...] }], numbered by the
    auto-increment counter. *)
Fixpoint number_items (orderId next : Z) (ds : list OrderItemDraft)
  : list (OrderItem num) :=
  match ds with
  | [] => []
  | d :: ds' =>
      {| item_id := next;
         item_quantity := draft_quantity d;
         item_unitPrice := draft_unitPrice d;
         item_subtotal := draft_subtotal d;
         item_orderId := orderId;
         item_menuItemId := draft_menuItemId d |}
      :: number_items orderId (next + 1) ds'
  end.

(** What the schema asks of a new order and of its items: the branch and
    the customer of the order are rows of their tables
    ([Order_branchId_fkey], [Order_customerId_fkey]), the menu item of
    every item is a row of the catalog ([OrderItem_menuItemId_fkey]), and
    the quantities fit the column type [Int]. *)
Definition order_accepted (s : Store num) (d : OrderData) : bool :=
  existsb (fun b => (branch_id b =? data_branchId d)%Z) (branches s)
  && existsb (Z.eqb (data_customerId d)) (userIds s)
  && forallb (fun i => match find_menuItem s (draft_menuItemId i) with
                       | Some _ => true
                       | None => false
                       end
                       && int4 (draft_quantity i))
             (data_items d).

(** [prisma.order.create({ data, include: { items } })]: the order and its
    items are written by the one call, or none of them is. *)
Definition order_create (d : OrderData) : Async (Order num * list (OrderItem num)) :=
  store_call (fun s =>
    let o := {| order_id := nextOrderId s;
                order_status := data_status d;
                order_totalAmount := data_totalAmount d;
                order_createdAt := now s;
                order_deliveryAddress := data_deliveryAddress d;
                order_customerId := data_customerId d;
                order_branchId := data_branchId d |} in
    let its := number_items (nextOrderId s) (nextItemId s) (data_items d) in
    if order_accepted s d
    then Some ((o, its),
               {| userIds := userIds s;
                  branches := branches s; menuItems := menuItems s;
                  orders := (orders s ++ [o])%list;
                  orderItems := (orderItems s ++ its)%list;
                  payments := payments s;
                  nextOrderId := nextOrderId s + 1;
                  nextItemId := nextItemId s + Z.of_nat (List.length its);
                  nextPaymentId := nextPaymentId s;
                  now := now s |})
    else None).

(** [prisma.payment.create({ data: { orderId, amount, method, status } })].
    The order of a payment is a foreign key ([Payment_orderId_fkey]) and
    no two payments are for the same order ([Payment_orderId_key]): the
    store rejects a payment for an order that it does not hold or that has
    a payment. *)
Definition payment_create (orderId : Z) (amount : num) (method : string)
    (status : PaymentStatus.t) : Async (Payment num) :=
  store_call (fun s =>
    match parse_method method, find_order s orderId, payment_of s orderId with
    | Some m, Some _, None =>
        let p := {| payment_id := nextPaymentId s;
                    payment_amount := amount;
                    payment_method := m;
                    payment_status := status;
                    payment_orderId := orderId |} in
        Some (p, {| userIds := userIds s;
                    branches := branches s; menuItems := menuItems s;
                    orders := orders s; orderItems := orderItems s;
                    payments := (payments s ++ [p])%list;
                    nextOrderId := nextOrderId s; nextItemId := nextItemId s;
                    nextPaymentId := nextPaymentId s + 1;
                    now := now s |})
    | _, _, _ => None
    end).

(** The [where] object of a listing; an absent key does not filter. *)
Record OrderWhere : Type := {
  where_branchId : option Z;
  where_customerId : option Z;
  where_status : option string
}.

Definition no_filter : OrderWhere :=
  {| where_branchId := None; where_customerId := None; where_status := None |}.

Definition set_where_branchId (b : Z) (w : OrderWhere) : OrderWhere :=
  {| where_branchId := Some b;
     where_customerId := where_customerId w;
     where_status := where_status w |}.

Definition set_where_customerId (c : Z) (w : OrderWhere) : OrderWhere :=
  {| where_branchId := where_branchId w;
     where_customerId := Some c;
     where_status := where_status w |}.

Definition set_where_status (st : string) (w : OrderWhere) : OrderWhere :=
  {| where_branchId := where_branchId w;
     where_customerId := where_customerId w;
     where_status := Some st |}.

Definition matches_int (f : option Z) (v : Z) : bool :=
  match f with
  | Some x => (v =? x)%Z
  | None => true
  end.

Definition matches_status (f : option OrderStatus) (v : OrderStatus) : bool :=
  match f with
  | Some x => OrderStatus_eqb v x
  | None => true
  end.

Definition selected (b c : option Z) (st : option OrderStatus) (o : Order num) : bool :=
  matches_int b (order_branchId o)
  && matches_int c (order_customerId o)
  && matches_status st (order_status o).

(** [prisma.order.findMany({ where, include, orderBy: { createdAt: 'desc' } })];
    a [status] that is not a value of the enum is rejected. *)
Definition order_findMany (w : OrderWhere) : Async (list OrderView) :=
  store_call (fun s =>
    let answer st :=
      Some (map (view s)
                (sort_desc (@order_createdAt num)
                   (filter (selected (where_branchId w) (where_customerId w) st)
                           (orders s))), s) in
    match where_status w with
    | None => answer None
    | Some name =>
        match parse_status name with
        | Some st => answer (Some st)
        | None => None
        end
    end).

(** ** HTTP responses *)

Inductive Body : Type :=
| Message (message : string)
| Error (error : string)
| CreatedOrder (order : Order num) (items : list (OrderItem num))
| UpdatedOrder (message : string) (order : OrderView)
| OrderList (orders : list OrderView)
| PaymentProcessed (message : string) (payment : Payment num).

Record Response : Type := {
  code : Z;
  body : Body
}.

Definition respond (c : Z) (b : Body) : Response := {| code := c; body := b |}.

(** [try { ... } catch (error) { ... }] around the body of a handler: a
    rejected store call ends the handler with the response of the [catch]
    block; what the store had accepted before stays written. *)
Definition try_catch (m : Async Response) (handler : Response)
  : World -> Response * World :=
  fun w =>
    match m w with
    | (Resolved r, w') => (r, w')
    | (Rejected, w') => (handler, w')
    end.

(** [utils/errorHandler.ts] *)
Definition handleError : Response := respond 500 (Error "Internal server error").

(** ** middleware/authMiddleware: the role gate *)

Definition role_name (r : Role) : string :=
  match r with
  | CUSTOMER => "CUSTOMER"
  | CHEF => "CHEF"
  | CASHIER => "CASHIER"
  | BRANCH_MANAGER => "BRANCH_MANAGER"
  | GENERAL_MANAGER => "GENERAL_MANAGER"
  | ADMIN => "ADMIN"
  end.

(** [authorizeRole(roles)] in front of a handler. *)
Definition authorizeRole (roles : list Role) (user : User)
    (next : World -> Response * World) : World -> Response * World :=
  if negb (existsb (Role_eqb (user_role user)) roles)
  then fun w =>
    (respond 403 (Message ("Access denied. Required role: "
                           ++ String.concat " or " (map role_name roles))), w)
  else next.

Notation "x <- m ;; k" := (bind m (fun x => k))
  (at level 61, m at next level, right associativity).
Notation "m ;;; k" := (bind m (fun _ => k))
  (at level 61, right associativity).

(** ** controllers/orderController.ts *)

(** [req.query] of a listing.  [query_branchId] and [query_customerId]
    are present when the client sent a non-empty value, and hold what
    [Number(...)] makes of it. *)
Record OrderQuery : Type := {
  query_branchId : option Z;
  query_status : option string;
  query_customerId : option Z
}.

(** [if (user.branchId) whereClause.branchId = user.branchId] *)
Definition scope_to_branch (user : User) (w : OrderWhere) : OrderWhere :=
  match user_branchId user with
  | Some b => if truthy_int (Some b) then set_where_branchId b w else w
  | None => w
  end.

Definition is_admin_or_general (r : Role) : bool :=
  Role_eqb r ADMIN || Role_eqb r GENERAL_MANAGER.

(** The [whereClause] that [getOrders] builds. *)
Definition whereClause (user : User) (q : OrderQuery) : OrderWhere :=
  let w := no_filter in
  let w :=
    match user_role user with
    | CHEF | CASHIER => scope_to_branch user w
    | CUSTOMER => set_where_customerId (user_id user) w
    | BRANCH_MANAGER => scope_to_branch user w
    | _ => w
    end in
  let w :=
    match query_branchId q with
    | Some b => if is_admin_or_general (user_role user)
                then set_where_branchId b w else w
    | None => w
    end in
  let w :=
    match query_status q with
    | Some st => if truthy_str (Some st) then set_where_status st w else w
    | None => w
    end in
  match query_customerId q with
  | Some c => if is_admin_or_general (user_role user)
                 || Role_eqb (user_role user) BRANCH_MANAGER
              then set_where_customerId c w else w
  | None => w
  end.

Definition getOrders (user : User) (q : OrderQuery) : World -> Response * World :=
  try_catch
    (orders <- order_findMany (whereClause user q) ;;
     ret (respond 200 (OrderList orders)))
    handleError.

(** [req.body] of an order creation. *)
Record ItemRequest : Type := {
  req_menuItemId : Z;
  req_quantity : Z
}.

Record OrderBody : Type := {
  body_branchId : option Z;
  body_items : list ItemRequest;
  body_deliveryAddress : option string;
  body_customerId : option Z
}.

(** The customer an order is created for; [None] is the final [else]. *)
Definition actualCustomerId (userRole : Role) (customerId : option Z) (userId : Z)
  : option Z :=
  match userRole with
  | CUSTOMER => Some userId
  | CASHIER => Some (or_else customerId userId)
  | BRANCH_MANAGER | ADMIN | GENERAL_MANAGER => Some (or_else customerId userId)
  | CHEF => None
  end.

(** The branch assignment: the value of [branchId] after the block
    [if (!branchId && deliveryAddress) { ... }]. *)
Definition assignBranch (b : OrderBody) : Async (Response + option Z) :=
  match body_deliveryAddress b with
  | Some deliveryAddress =>
      if negb (truthy_int (body_branchId b)) && truthy_str (Some deliveryAddress)
      then
        branches <- branch_findMany ;;
        match branches with
        | [] => ret (inl (respond 400 (Message "No branches available")))
        | first :: _ =>
            let input := normalize deliveryAddress in
            let best := pickBranch input first branches in
            ret (inr (Some (branch_id best)))
        end
      else ret (inr (body_branchId b))
  | None => ret (inr (body_branchId b))
  end.

(** The loop over the requested items, with [orderItems] and
    [totalAmount] as they stand on entry. *)
Fixpoint priceItems (items : list ItemRequest) (orderItems : list OrderItemDraft)
    (totalAmount : num) : Async (Response + list OrderItemDraft * num) :=
  match items with
  | [] => ret (inr (orderItems, totalAmount))
  | item :: rest =>
      menuItem <- menuItem_findUnique (req_menuItemId item) ;;
      match menuItem with
      | None =>
          ret (inl (respond 404
                 (Message ("Menu item " ++ show_int (req_menuItemId item)
                           ++ " not found"))))
      | Some m =>
          if negb (menu_isAvailable m)
          then ret (inl (respond 400
                      (Message ("Menu item " ++ menu_name m
                                ++ " is not available"))))
          else
            let subtotal := nmul (menu_price m) (of_int (req_quantity item)) in
            priceItems rest
              (orderItems ++ [{| draft_menuItemId := menu_id m;
                                 draft_quantity := req_quantity item;
                                 draft_unitPrice := menu_price m;
                                 draft_subtotal := subtotal |}])%list
              (nadd totalAmount subtotal)
      end
  end.

Definition createOrder (user : User) (b : OrderBody) : World -> Response * World :=
  try_catch
    (let userId := user_id user in
     if negb (truthy_int (Some userId))
     then ret (respond 401 (Message "Authentication required"))
     else
       match actualCustomerId (user_role user) (body_customerId b) userId with
       | None =>
           ret (respond 403 (Message "Insufficient permissions to create orders"))
       | Some customer =>
           match body_items b with
           | [] => ret (respond 400 (Message "Order must contain at least one item"))
           | _ :: _ =>
               assigned <- assignBranch b ;;
               match assigned with
               | inl r => ret r
               | inr branchId =>
                   if negb (truthy_int branchId)
                   then ret (respond 400
                               (Message "No branchId or delivery address provided"))
                   else
                     priced <- priceItems (body_items b) [] nzero ;;
                     match priced with
                     | inl r => ret r
                     | inr (orderItems, totalAmount) =>
                         order <- order_create
                           {| data_branchId := or_else branchId 0;
                              data_customerId := customer;
                              data_status := PENDING;
                              data_totalAmount := totalAmount;
                              data_deliveryAddress :=
                                if truthy_str (body_deliveryAddress b)
                                then body_deliveryAddress b else None;
                              data_items := orderItems |} ;;
                         ret (respond 201 (CreatedOrder (fst order) (snd order)))
                     end
               end
           end
       end)
    handleError.

(** The table of [updateOrderStatus]. *)
Definition validTransitions (current : OrderStatus) : list string :=
  match current with
  | PENDING => ["PREPARING"; "CANCELLED"; "DELIVERED"]
  | PREPARING => ["READY"; "CANCELLED"]
  | READY => ["DELIVERED"; "CANCELLED"]
  | DELIVERED => []
  | CANCELLED => []
  end.

Definition updateOrderStatus (user : User) (id : Z) (status : string)
  : World -> Response * World :=
  try_catch
    (if Role_eqb (user_role user) CHEF
        && negb (includes ["PREPARING"; "READY"] status)
     then ret (respond 403
                 (Message "Chefs can only mark orders as preparing or ready"))
     else if Role_eqb (user_role user) CASHIER
             && negb (includes ["DELIVERED"; "CANCELLED"] status)
     then ret (respond 403
                 (Message "Cashiers can only mark orders as delivered or cancelled"))
     else
       currentOrder <- order_findUnique id ;;
       match currentOrder with
       | None => ret (respond 404 (Message "Order not found"))
       | Some (current, payment) =>
           if negb (includes (validTransitions (order_status current)) status)
           then ret (respond 400
                       (Message ("Cannot transition from "
                                 ++ status_name (order_status current)
                                 ++ " to " ++ status)))
           else
             match (status =? "CANCELLED"), payment with
             | true, Some p => payment_update_refunded (payment_id p)
             | _, _ => ret tt
             end ;;;
             order <- order_update id status ;;
             ret (respond 200
                    (UpdatedOrder "Order status updated successfully" order))
       end)
    (respond 500 (Message "Error updating order status")).

(** The tables once a transition to [st] has gone through: the payment of
    a cancelled order is refunded, then the status is written. *)
Definition transitioned (id : Z) (st : OrderStatus) (s : Store num) : Store num :=
  write_order_status id st
    (match st, payment_of s id with
     | CANCELLED, Some p => refund_payment (payment_id p) s
     | _, _ => s
     end).

Definition deleteOrder (user : User) (id : Z) : World -> Response * World :=
  try_catch
    (order <- order_findUnique id ;;
     if negb (includes ["ADMIN"; "BRANCH_MANAGER"] (role_name (user_role user)))
     then ret (respond 403 (Message "Unauthorized to delete orders"))
     else
       match order with
       | None => ret (respond 404 (Message "Order not found"))
       | Some (o, payment) =>
           if OrderStatus_eqb (order_status o) DELIVERED
           then ret (respond 400 (Message "Cannot delete delivered orders"))
           else
             match payment with
             | Some p => payment_update_refunded (payment_id p)
             | None => ret tt
             end ;;;
             order_delete id ;;;
             ret (respond 200 (Message "Order deleted successfully"))
       end)
    (respond 500 (Message "Error deleting order")).

(** ** controllers/paymentController.ts *)

(** [a !== b], where [b] may be [undefined]. *)
Definition differs (a : Z) (b : option Z) : bool :=
  match b with
  | Some x => negb (a =? x)%Z
  | None => true
  end.

Definition processPayment (user : User) (orderId : Z) (amount : option num)
    (method : option string) : World -> Response * World :=
  try_catch
    (match amount, method with
     | Some amount, Some method =>
         if negb (ntruthy amount) || negb (truthy_str (Some method))
         then ret (respond 400 (Message "Amount and payment method are required"))
         else
           order <- order_findUnique orderId ;;
           match order with
           | None => ret (respond 404 (Message "Order not found"))
           | Some (o, payment) =>
               if Role_eqb (user_role user) CUSTOMER
                  && negb (order_customerId o =? user_id user)%Z
               then ret (respond 403 (Message "Unauthorized to pay for this order"))
               else if Role_eqb (user_role user) CASHIER
                       && differs (order_branchId o) (user_branchId user)
               then ret (respond 403
                           (Message "Unauthorized to process payment for this order"))
               else
                 match payment with
                 | Some _ =>
                     ret (respond 400
                            (Message "Payment already processed for this order"))
                 | None =>
                     if ngt (nabs (nsub amount (order_totalAmount o))) hundredth
                     then ret (respond 400
                                 (Message "Payment amount does not match order total"))
                     else
                       payment <- payment_create orderId (parseFloat amount) method
                                    PaymentStatus.COMPLETED ;;
                       ret (respond 201
                              (PaymentProcessed "Payment processed successfully"
                                                payment))
                 end
           end
     | _, _ => ret (respond 400 (Message "Amount and payment method are required"))
     end)
    handleError.

(** ** routes/orderRoutes.ts and routes/paymentRoutes.ts *)

(** [GET /api/orders] *)
Definition get_orders (user : User) (q : OrderQuery) : World -> Response * World :=
  authorizeRole [ADMIN; GENERAL_MANAGER; BRANCH_MANAGER; CHEF; CASHIER; CUSTOMER]
    user (getOrders user q).

(** [POST /api/orders] *)
Definition post_order (user : User) (b : OrderBody) : World -> Response * World :=
  authorizeRole [CUSTOMER; CASHIER] user (createOrder user b).

(** [PATCH /api/orders/:id/status] *)
Definition patch_order_status (user : User) (id : Z) (status : string)
  : World -> Response * World :=
  authorizeRole [CHEF; CASHIER] user (updateOrderStatus user id status).

(** [DELETE /api/orders/:id] *)
Definition delete_order (user : User) (id : Z) : World -> Response * World :=
  authorizeRole [ADMIN; BRANCH_MANAGER] user (deleteOrder user id).

(** [POST /api/payments/:orderId] *)
Definition post_payment (user : User) (orderId : Z) (amount : option num)
    (method : option string) : World -> Response * World :=
  authorizeRole [CUSTOMER; CASHIER] user (processPayment user orderId amount method).
End Backend.

Arguments Rejected {A}.
Arguments World : clear implicits.
Arguments Response : clear implicits.
Arguments OrderView : clear implicits.

(** ** The state machine and the role table, as the specification words them *)

Definition spec_validTransitions (current : OrderStatus) : list OrderStatus :=
  match current with
  | PENDING => [PREPARING; CANCELLED; DELIVERED]
  | PREPARING => [READY; CANCELLED]
  | READY => [DELIVERED; CANCELLED]
  | DELIVERED => []
  | CANCELLED => []
  end.

Definition spec_rolePermitted (r : Role) : list OrderStatus :=
  match r with
  | CHEF => [PREPARING; READY]
  | CASHIER => [DELIVERED; CANCELLED]
  | _ => []
  end.

(** ** Notions used to state the properties *)

Section Vocabulary.
Context {num : Type} {NUM : JsNumber num}.

(** [unitPrice * quantity] of a persisted item. *)
Definition line_total (it : OrderItem num) : num :=
  nmul (item_unitPrice it) (of_int (item_quantity it)).

(** The sum of the line totals, taken in the order of the items from 0. *)
Definition spec_total (its : list (OrderItem num)) : num :=
  fold_left (fun acc it => nadd acc (line_total it)) its nzero.

(** The persisted item [it] is the requested item [req] at the price the
    catalog [s] gives it. *)
Definition priced_from (s : Store num) (req : ItemRequest) (it : OrderItem num)
  : Prop :=
  exists m,
    find_menuItem s (req_menuItemId req) = Some m
    /\ menu_isAvailable m = true
    /\ item_menuItemId it = req_menuItemId req
    /\ item_quantity it = req_quantity req
    /\ item_unitPrice it = menu_price m
    /\ item_subtotal it = nmul (menu_price m) (of_int (req_quantity req)).

(** A requested item that the catalog [s] does not have, or has as
    unavailable. *)
Definition offending (s : Store num) (req : ItemRequest) : bool :=
  match find_menuItem s (req_menuItemId req) with
  | Some m => negb (menu_isAvailable m)
  | None => true
  end.

(** The row of a requested item that passed the checks against [m]. *)
Definition draft_of (m : MenuItem num) (req : ItemRequest) : OrderItemDraft :=
  {| draft_menuItemId := menu_id m;
     draft_quantity := req_quantity req;
     draft_unitPrice := menu_price m;
     draft_subtotal := nmul (menu_price m) (of_int (req_quantity req)) |}.

(** The answer to a request whose item [req] is offending in [s]. *)
Definition item_error (s : Store num) (req : ItemRequest) : Response num :=
  match find_menuItem s (req_menuItemId req) with
  | None =>
      respond 404
        (Message ("Menu item " ++ show_int (req_menuItemId req) ++ " not found"))
  | Some m =>
      respond 400 (Message ("Menu item " ++ menu_name m ++ " is not available"))
  end.

(** The order that [createOrder] asks the store to create. *)
Definition order_data (customer : Z) (branchId : option Z) (b : OrderBody)
    (ds : list OrderItemDraft) (total : num) : OrderData :=
  {| data_branchId := or_else branchId 0;
     data_customerId := customer;
     data_status := PENDING;
     data_totalAmount := total;
     data_deliveryAddress :=
       if truthy_str (body_deliveryAddress b)
       then body_deliveryAddress b else None;
     data_items := ds |}.

(** The status filter of a listing: [Some None] when the query carries no
    status, [Some (Some st)] when it names the status [st], and [None] when
    it names something that is not a status (the store rejects the
    query). *)
Definition status_filter (q : OrderQuery) : option (option OrderStatus) :=
  match query_status q with
  | Some name =>
      if truthy_str (Some name)
      then match parse_status name with
           | Some st => Some (Some st)
           | None => None
           end
      else Some None
  | None => Some None
  end.

(** Both fields of a payment request are there: [amount && method]. *)
Definition fields_present (amount : option num) (method : option string) : bool :=
  match amount, method with
  | Some a, Some m => ntruthy a && truthy_str (Some m)
  | _, _ => false
  end.
End Vocabulary.

(** ** Scenarios, over exact rationals *)

Module Scenario.
Definition elm : Branch :=
  {| branch_id := 1; branch_name := "Elm"; branch_address := "42 Elm St" |}.
Definition oak : Branch :=
  {| branch_id := 2; branch_name := "Oak"; branch_address := "99 Oak Ave" |}.

Definition steak : MenuItem Q :=
  {| menu_id := 3; menu_name := "Steak"; menu_price := 10%Q;
     menu_isAvailable := true; menu_branchId := 1 |}.
Definition soup : MenuItem Q :=
  {| menu_id := 4; menu_name := "Soup"; menu_price := (11 # 2)%Q;
     menu_isAvailable := false; menu_branchId := 1 |}.

(** A READY order of branch 2, paid. *)
Definition order5 : Order Q :=
  {| order_id := 5; order_status := READY; order_totalAmount := 20%Q;
     order_createdAt := 900; order_deliveryAddress := None;
     order_customerId := 7; order_branchId := 2 |}.
(** A PENDING order of branch 1, not paid. *)
Definition order6 : Order Q :=
  {| order_id := 6; order_status := PENDING; order_totalAmount := 20%Q;
     order_createdAt := 950; order_deliveryAddress := None;
     order_customerId := 7; order_branchId := 1 |}.
(** A DELIVERED order of branch 1, paid. *)
Definition order8 : Order Q :=
  {| order_id := 8; order_status := DELIVERED; order_totalAmount := 10%Q;
     order_createdAt := 980; order_deliveryAddress := None;
     order_customerId := 9; order_branchId := 1 |}.

Definition item_of_order5 : OrderItem Q :=
  {| item_id := 1; item_quantity := 2; item_unitPrice := 10%Q;
     item_subtotal := 20%Q; item_orderId := 5; item_menuItemId := 3 |}.

Definition payment_of_order5 : Payment Q :=
  {| payment_id := 1; payment_amount := 20%Q; payment_method := CASH;
     payment_status := PaymentStatus.COMPLETED; payment_orderId := 5 |}.
Definition payment_of_order8 : Payment Q :=
  {| payment_id := 2; payment_amount := 10%Q; payment_method := CREDIT_CARD;
     payment_status := PaymentStatus.COMPLETED; payment_orderId := 8 |}.

(** A store with a catalog and no order yet. *)
Definition opening : Store Q :=
  {| userIds := [7; 9; 11; 12; 13; 14; 15; 16; 17];
     branches := [elm; oak]; menuItems := [steak; soup];
     orders := []; orderItems := []; payments := [];
     nextOrderId := 1; nextItemId := 1; nextPaymentId := 1; now := 1000 |}.

(** The same store later in the day. *)
Definition busy : Store Q :=
  {| userIds := [7; 9; 11; 12; 13; 14; 15; 16; 17];
     branches := [elm; oak]; menuItems := [steak; soup];
     orders := [order5; order6; order8];
     orderItems := [item_of_order5];
     payments := [payment_of_order5; payment_of_order8];
     nextOrderId := 9; nextItemId := 2; nextPaymentId := 3; now := 1000 |}.

Definition customer7 : User :=
  {| user_id := 7; user_role := CUSTOMER; user_branchId := None |}.
Definition customer9 : User :=
  {| user_id := 9; user_role := CUSTOMER; user_branchId := None |}.
Definition chef_of_elm : User :=
  {| user_id := 11; user_role := CHEF; user_branchId := Some 1 |}.
Definition cashier_of_elm : User :=
  {| user_id := 12; user_role := CASHIER; user_branchId := Some 1 |}.
Definition cashier_of_oak : User :=
  {| user_id := 13; user_role := CASHIER; user_branchId := Some 2 |}.
Definition manager_of_oak : User :=
  {| user_id := 17; user_role := BRANCH_MANAGER; user_branchId := Some 2 |}.
Definition chef_without_branch : User :=
  {| user_id := 15; user_role := CHEF; user_branchId := None |}.
Definition admin : User :=
  {| user_id := 16; user_role := ADMIN; user_branchId := None |}.

(** Scenario A: customer 7 asks for two steaks at branch 1, and names
    somebody else as the customer. *)
Definition two_steaks : OrderBody :=
  {| body_branchId := Some 1;
     body_items := [{| req_menuItemId := 3; req_quantity := 2 |}];
     body_deliveryAddress := None;
     body_customerId := Some 99 |}.

(** Scenario D: the same order, to be delivered, with no branch named. *)
Definition delivered_to_elm_street : OrderBody :=
  {| body_branchId := None;
     body_items := [{| req_menuItemId := 3; req_quantity := 2 |}];
     body_deliveryAddress := Some "42 Elm Street";
     body_customerId := None |}.

(** An order for the soup, which is unavailable, and for an item that
    the catalog does not have. *)
Definition soup_and_unknown : OrderBody :=
  {| body_branchId := Some 1;
     body_items := [{| req_menuItemId := 4; req_quantity := 1 |};
                    {| req_menuItemId := 9; req_quantity := 1 |}];
     body_deliveryAddress := None;
     body_customerId := None |}.

(** An order for a steak and for an item that the catalog does not
    have. *)
Definition steak_and_unknown : OrderBody :=
  {| body_branchId := Some 1;
     body_items := [{| req_menuItemId := 3; req_quantity := 1 |};
                    {| req_menuItemId := 9; req_quantity := 1 |}];
     body_deliveryAddress := None;
     body_customerId := None |}.

(** A listing with no filter. *)
Definition everything : OrderQuery :=
  {| query_branchId := None; query_status := None; query_customerId := None |}.
End Scenario.

(** ** More of the handlers *)

Section Answers.
Context {num : Type} {NUM : JsNumber num}.

(** [try { ... } catch { ... }] for an answer of any shape. *)
Definition attempt {R : Type} (m : @Async num R) (handler : R)
  : World num -> R * World num :=
  fun w =>
    match m w with
    | (Resolved r, w') => (r, w')
    | (Rejected, w') => (handler, w')
    end.

(** Reading a property of a relation that the store returned as [null]
    throws a TypeError. *)
Definition field_of {A : Type} (v : option A) : @Async num A :=
  fun w =>
    match v with
    | Some a => (Resolved a, w)
    | None => (Rejected, w)
    end.

(** [authorizeRole(roles)] in front of a handler that answers with [R];
    [deny] builds the body [{ message }]. *)
Definition authorizeRoleFor {R : Type} (deny : Z -> string -> R)
    (roles : list Role) (user : User) (next : World num -> R * World num)
  : World num -> R * World num :=
  if negb (existsb (Role_eqb (user_role user)) roles)
  then fun w =>
    (deny 403 ("Access denied. Required role: "
               ++ String.concat " or " (map role_name roles)), w)
  else next.
End Answers.

(** *** controllers/paymentController.ts: reading payments and receipts *)

Section Receipts.
Context {num : Type} {NUM : JsNumber num}.

Notation "x <- m ;; k" := (bind m (fun x => k))
  (at level 61, m at next level, right associativity).

(** The order of a payment as [getPayment] selects it:
    [order: { select: { customerId: true, branchId: true } }]. *)
Record OrderOwner : Type := {
  owner_customerId : Z;
  owner_branchId : Z
}.

Definition owner_of (o : Order num) : OrderOwner :=
  {| owner_customerId := order_customerId o;
     owner_branchId := order_branchId o |}.

(** The order of a payment as the receipts include it:
    [order: { include: { items: { include: { menuItem: true } }, customer: true } }].
    Of the users table the store of this development keeps the ids only,
    and the customer row is left out. *)
Record OrderLines : Type := {
  lines_order : Order num;
  lines_items : list (OrderItem num * option (MenuItem num))
}.

Definition lines_of (s : Store num) (o : Order num) : OrderLines :=
  {| lines_order := o;
     lines_items := map (fun i => (i, find_menuItem s (item_menuItemId i)))
                        (items_of s (order_id o)) |}.

Inductive ReceiptBody : Type :=
| ReceiptMessage (message : string)
| ReceiptError (error : string)
| PaymentDetails (payment : Payment num) (order : option OrderOwner)
| ReceiptCopy (message : string) (payment : Payment num)
    (order : option OrderLines).

Record ReceiptResponse : Type := {
  receipt_code : Z;
  receipt_body : ReceiptBody
}.

Definition receipt (c : Z) (b : ReceiptBody) : ReceiptResponse :=
  {| receipt_code := c; receipt_body := b |}.

Definition receipt_message (c : Z) (m : string) : ReceiptResponse :=
  receipt c (ReceiptMessage m).

(** [handleError(error, res)] *)
Definition receipt_handleError : ReceiptResponse :=
  receipt 500 (ReceiptError "Internal server error").

(** [prisma.payment.findUnique({ where: { orderId }, include: { order } })] *)
Definition payment_findUnique_orderId (orderId : Z)
  : @Async num (option (Payment num * option OrderOwner)) :=
  store_read (fun s =>
    match payment_of s orderId with
    | Some p => Some (p, option_map owner_of (find_order s (payment_orderId p)))
    | None => None
    end).

(** [prisma.payment.findUnique({ where: { id }, include: { order } })] *)
Definition payment_findUnique_id (id : Z)
  : @Async num (option (Payment num * option OrderLines)) :=
  store_read (fun s =>
    match find_payment s id with
    | Some p => Some (p, option_map (lines_of s) (find_order s (payment_orderId p)))
    | None => None
    end).

(** [user.role === role && test(payment.order)]: the relation is read only
    when the role matches. *)
Definition role_and {A : Type} (user : User) (role : Role) (order : option A)
    (test : A -> bool) : @Async num bool :=
  if Role_eqb (user_role user) role
  then o <- field_of order ;; ret (test o)
  else ret false.

Definition getPayment (user : User) (orderId : Z)
  : World num -> ReceiptResponse * World num :=
  attempt
    (payment <- payment_findUnique_orderId orderId ;;
     match payment with
     | None => ret (receipt_message 404 "Payment not found")
     | Some (p, order) =>
         foreign <- role_and user CUSTOMER order
                      (fun o => negb (owner_customerId o =? user_id user)%Z) ;;
         if foreign
         then ret (receipt_message 403 "Unauthorized to view this payment")
         else
           elsewhere <- role_and user CASHIER order
                          (fun o => differs (owner_branchId o) (user_branchId user)) ;;
           if elsewhere
           then ret (receipt_message 403 "Unauthorized to view this payment")
           else ret (receipt 200 (PaymentDetails p order))
     end)
    receipt_handleError.

Definition reprintReceipt (user : User) (paymentId : Z)
  : World num -> ReceiptResponse * World num :=
  attempt
    (payment <- payment_findUnique_id paymentId ;;
     match payment with
     | None => ret (receipt_message 404 "Payment not found")
     | Some (p, order) =>
         elsewhere <- role_and user CASHIER order
                        (fun o => differs (order_branchId (lines_order o))
                                          (user_branchId user)) ;;
         if elsewhere
         then ret (receipt_message 403 "Unauthorized to reprint this receipt")
         else ret (receipt 200
                     (ReceiptCopy "Receipt reprinted successfully" p order))
     end)
    receipt_handleError.

Definition emailReceipt (user : User) (paymentId : Z) (email : option string)
  : World num -> ReceiptResponse * World num :=
  attempt
    (match email with
     | Some address =>
         if negb (truthy_str (Some address))
         then ret (receipt_message 400 "Email address is required")
         else
           payment <- payment_findUnique_id paymentId ;;
           match payment with
           | None => ret (receipt_message 404 "Payment not found")
           | Some (p, order) =>
               elsewhere <- role_and user CASHIER order
                              (fun o => differs (order_branchId (lines_order o))
                                                (user_branchId user)) ;;
               if elsewhere
               then ret (receipt_message 403 "Unauthorized to email this receipt")
               else ret (receipt 200
                           (ReceiptCopy ("Receipt emailed successfully to " ++ address)
                                        p order))
           end
     | None => ret (receipt_message 400 "Email address is required")
     end)
    receipt_handleError.

(** [GET /api/payments/:orderId] *)
Definition get_payment (user : User) (orderId : Z)
  : World num -> ReceiptResponse * World num :=
  authorizeRoleFor receipt_message
    [CUSTOMER; CASHIER; ADMIN; GENERAL_MANAGER; BRANCH_MANAGER]
    user (getPayment user orderId).

(** [POST /api/payments/:paymentId/reprint] *)
Definition post_reprint (user : User) (paymentId : Z)
  : World num -> ReceiptResponse * World num :=
  authorizeRoleFor receipt_message [CASHIER; ADMIN; GENERAL_MANAGER; BRANCH_MANAGER]
    user (reprintReceipt user paymentId).

(** [POST /api/payments/:paymentId/email] *)
Definition post_email (user : User) (paymentId : Z) (email : option string)
  : World num -> ReceiptResponse * World num :=
  authorizeRoleFor receipt_message [CASHIER; ADMIN; GENERAL_MANAGER; BRANCH_MANAGER]
    user (emailReceipt user paymentId email).
End Receipts.

Arguments ReceiptResponse : clear implicits.
Arguments ReceiptBody : clear implicits.
Arguments OrderLines : clear implicits.

(** *** routes/orderRoutes.ts: the cart *)

Section Cart.
Context {num : Type} {NUM : JsNumber num}.

Notation "x <- m ;; k" := (bind m (fun x => k))
  (at level 61, m at next level, right associativity).
Notation "m ;;; k" := (bind m (fun _ => k))
  (at level 61, right associativity).

(** An entry of [req.body.items]: [{ id, quantity }]. *)
Record CartItem : Type := {
  cart_id : Z;
  cart_quantity : Z
}.

Inductive CartBody : Type :=
| CartMessage (message : string)
| CartError (error : string)
| CartSynced                               (* [{ success: true }] *)
| CartItems (items : list CartItem).       (* [{ items }] *)

Record CartResponse : Type := {
  cart_code : Z;
  cart_body : CartBody
}.

Definition cart (c : Z) (b : CartBody) : CartResponse :=
  {| cart_code := c; cart_body := b |}.

Definition cart_message (c : Z) (m : string) : CartResponse :=
  cart c (CartMessage m).

(** The customer's first PENDING order.  The queries of the cart carry no
    [orderBy], and which of several PENDING orders the store answers with
    is its own affair; here it is the first in the order of the rows.  The
    properties of the cart that depend on the choice are stated for a
    customer with at most one PENDING order. *)
Definition pending_of (s : Store num) (customerId : Z) : option (Order num) :=
  find (fun o => (order_customerId o =? customerId)%Z
                 && OrderStatus_eqb (order_status o) PENDING)
       (orders s).

(** [prisma.order.findFirst({ where: { customerId, status: 'PENDING' } })] *)
Definition order_findFirst_pending (customerId : Z)
  : @Async num (option (Order num)) :=
  store_read (fun s => pending_of s customerId).

(** The same with [include: { items: true }]. *)
Definition order_findFirst_pending_items (customerId : Z)
  : @Async num (option (Order num * list (OrderItem num))) :=
  store_read (fun s =>
    match pending_of s customerId with
    | Some o => Some (o, items_of s (order_id o))
    | None => None
    end).

Definition with_orderItems (s : Store num) (l : list (OrderItem num)) (next : Z)
  : Store num :=
  {| userIds := userIds s;
     branches := branches s; menuItems := menuItems s; orders := orders s;
     orderItems := l; payments := payments s;
     nextOrderId := nextOrderId s; nextItemId := next;
     nextPaymentId := nextPaymentId s; now := now s |}.

(** [prisma.orderItem.deleteMany({ where: { orderId } })] *)
Definition orderItem_deleteMany (orderId : Z) : @Async num unit :=
  store_call (fun s =>
    Some (tt, with_orderItems s
                (filter (fun i => negb (item_orderId i =? orderId)%Z) (orderItems s))
                (nextItemId s))).

(** [prisma.orderItem.create({ data })].  The order and the menu item of
    the new row are foreign keys of the schema ([OrderItem_orderId_fkey],
    [OrderItem_menuItemId_fkey]) and the quantity is a column of type
    [Int]: the store rejects a row whose order or menu item it does not
    hold, or whose quantity is not a 32-bit integer. *)
Definition orderItem_create (orderId menuItemId quantity : Z) (unitPrice subtotal : num)
  : @Async num unit :=
  store_call (fun s =>
    match find_order s orderId, find_menuItem s menuItemId with
    | Some _, Some _ =>
        if int4 quantity
        then Some (tt, with_orderItems s
                         (orderItems s
                          ++ [{| item_id := nextItemId s;
                                 item_quantity := quantity;
                                 item_unitPrice := unitPrice;
                                 item_subtotal := subtotal;
                                 item_orderId := orderId;
                                 item_menuItemId := menuItemId |}])%list
                         (nextItemId s + 1))
        else None
    | _, _ => None
    end).

Definition set_order_total (total : num) (o : Order num) : Order num :=
  {| order_id := order_id o;
     order_status := order_status o;
     order_totalAmount := total;
     order_createdAt := order_createdAt o;
     order_deliveryAddress := order_deliveryAddress o;
     order_customerId := order_customerId o;
     order_branchId := order_branchId o |}.

(** [prisma.order.update({ where: { id }, data: { totalAmount } })] *)
Definition order_update_total (id : Z) (total : num) : @Async num unit :=
  store_call (fun s =>
    match find_order s id with
    | Some _ =>
        Some (tt, with_orders s
                    (map (fun o => if (order_id o =? id)%Z
                                   then set_order_total total o else o)
                         (orders s)))
    | None => None
    end).

(** The loop that adds the new items, with [totalAmount] as it stands on
    entry; a menu item that is not found is priced 0, and its row goes to
    the store like the others. *)
Fixpoint addCartItems (orderId : Z) (items : list CartItem) (totalAmount : num)
  : @Async num num :=
  match items with
  | [] => ret totalAmount
  | item :: rest =>
      menuItem <- menuItem_findUnique (cart_id item) ;;
      let price := match menuItem with
                   | Some m => menu_price m
                   | None => nzero
                   end in
      let subtotal := nmul price (of_int (cart_quantity item)) in
      orderItem_create orderId (cart_id item) (cart_quantity item) price subtotal ;;;
      addCartItems orderId rest (nadd totalAmount subtotal)
  end.

(** The handler of [POST /api/orders/cart]; [items] is [None] when the body
    carries no array. *)
Definition syncCart (user : User) (items : option (list CartItem))
  : World num -> CartResponse * World num :=
  attempt
    (let userId := user_id user in
     match items with
     | Some (first :: more) =>
         if negb (truthy_int (Some userId))
         then ret (cart 400 (CartError "No items to add to cart"))
         else
           found <- order_findFirst_pending userId ;;
           order <- match found with
                    | Some o => ret o
                    | None =>
                        created <- order_create
                          {| data_branchId := 1;
                             data_customerId := userId;
                             data_status := PENDING;
                             data_totalAmount := nzero;
                             data_deliveryAddress := None;
                             data_items := [] |} ;;
                        ret (fst created)
                    end ;;
           orderItem_deleteMany (order_id order) ;;;
           totalAmount <- addCartItems (order_id order) (first :: more) nzero ;;
           order_update_total (order_id order) totalAmount ;;;
           ret (cart 200 CartSynced)
     | _ => ret (cart 400 (CartError "No items to add to cart"))
     end)
    (cart 500 (CartError "Failed to sync cart")).

(** The handler of [GET /api/orders/cart]. *)
Definition getCart (user : User) : World num -> CartResponse * World num :=
  attempt
    (let userId := user_id user in
     if negb (truthy_int (Some userId))
     then ret (cart 401 (CartError "Not authenticated"))
     else
       order <- order_findFirst_pending_items userId ;;
       match order with
       | Some (_, first :: more) =>
           ret (cart 200
                  (CartItems
                     (map (fun item => {| cart_id := item_menuItemId item;
                                          cart_quantity := item_quantity item |})
                          (first :: more))))
       | _ => ret (cart 200 (CartItems []))
       end)
    (cart 500 (CartError "Failed to fetch cart")).

(** [POST /api/orders/cart] *)
Definition post_cart (user : User) (items : option (list CartItem))
  : World num -> CartResponse * World num :=
  authorizeRoleFor cart_message [CUSTOMER] user (syncCart user items).

(** [GET /api/orders/cart] *)
Definition get_cart (user : User) : World num -> CartResponse * World num :=
  authorizeRoleFor cart_message [CUSTOMER] user (getCart user).
End Cart.

(** *** middleware/authMiddleware: the token *)

(** The values a claim of a decoded token can hold.  A finite number is an
    integer, [JsNum], or a number with a fractional part, [JsFraction]. *)
Inductive JsValue : Type :=
| JsUndefined
| JsNull
| JsBool (b : bool)
| JsNum (n : Z)
| JsFraction (q : Q)
| JsNaN
| JsInfinity
| JsString (s : string).

(** [!v] *)
Definition js_falsy (v : JsValue) : bool :=
  match v with
  | JsUndefined | JsNull | JsNaN => true
  | JsBool b => negb b
  | JsNum n => (n =? 0)%Z
  | JsFraction q => Qeq_bool q 0
  | JsInfinity => false
  | JsString s => s =? ""
  end.

(** [typeof v === 'number'] *)
Definition js_is_number (v : JsValue) : bool :=
  match v with
  | JsNum _ | JsFraction _ | JsNaN | JsInfinity => true
  | _ => false
  end.

(** [isNaN(v)], on a value that is a number. *)
Definition js_isNaN (v : JsValue) : bool :=
  match v with
  | JsNaN => true
  | _ => false
  end.

(** [isFinite(v)], on a value that is a number. *)
Definition js_isFinite (v : JsValue) : bool :=
  match v with
  | JsNum _ | JsFraction _ => true
  | _ => false
  end.

(** The role a claim names: [Object.values(Role).includes(role)]. *)
Definition parse_role (v : JsValue) : option Role :=
  match v with
  | JsString s =>
      if s =? "CUSTOMER" then Some CUSTOMER
      else if s =? "CHEF" then Some CHEF
      else if s =? "CASHIER" then Some CASHIER
      else if s =? "BRANCH_MANAGER" then Some BRANCH_MANAGER
      else if s =? "GENERAL_MANAGER" then Some GENERAL_MANAGER
      else if s =? "ADMIN" then Some ADMIN
      else None
  | _ => None
  end.

(** The claims that the middleware reads; a claim that the token does not
    carry is [JsUndefined]. *)
Record JwtPayload : Type := {
  jwt_userId : JsValue;
  jwt_role : JsValue;
  jwt_branchId : JsValue
}.

(** [req.user] as the middleware attaches it: [{ id, role, branchId? }].
    The id and the branch are the values of the claims, whatever numbers
    or other values those are. *)
Record RequestUser : Type := {
  ru_id : JsValue;
  ru_role : Role;
  ru_branchId : option JsValue
}.

(** The [req.user] of a user whose id and branch are integers: the users
    that the handlers of this development are stated for. *)
Definition request_user (user : User) : RequestUser :=
  {| ru_id := JsNum (user_id user);
     ru_role := user_role user;
     ru_branchId := option_map JsNum (user_branchId user) |}.

(** What [jwt.verify] does with a token: it returns the claims or throws. *)
Inductive Verification : Type :=
| Verified (decoded : JwtPayload)
| VerifyError (message : string).

(** A 401 of the middleware: [{ message, error? }]. *)
Record AuthFailure : Type := {
  auth_code : Z;
  auth_message : string;
  auth_error : option string
}.

(** [str.split(' ')] *)
Fixpoint split_spaces (str : string) : list string :=
  match str with
  | EmptyString => [EmptyString]
  | String c rest =>
      if Ascii.eqb c " "%char then EmptyString :: split_spaces rest
      else match split_spaces rest with
           | piece :: pieces => String c piece :: pieces
           | [] => [String c EmptyString]
           end
  end.

Section Authentication.
(** [jwt.verify(token, process.env.JWT_SECRET)] *)
Variable verify : string -> Verification.

(** [authenticateToken]: the 401 it answers with, or [req.user]. *)
Definition authenticateToken (authHeader : option string)
  : AuthFailure + RequestUser :=
  let token :=
    match authHeader with
    | Some header => nth_error (split_spaces header) 1
    | None => None
    end in
  match token with
  | Some token =>
      if negb (truthy_str (Some token))
      then inl {| auth_code := 401; auth_message := "No token provided";
                  auth_error := None |}
      else
        match verify token with
        | Verified decoded =>
            let userId := jwt_userId decoded in
            let role := jwt_role decoded in
            let branchId := jwt_branchId decoded in
            if js_falsy userId || negb (js_is_number userId)
               || js_isNaN userId || negb (js_isFinite userId)
            then inl {| auth_code := 401; auth_message := "Invalid userId in token";
                        auth_error := None |}
            else
              match (if js_falsy role then None else parse_role role) with
              | Some r =>
                  inr {| ru_id := userId;
                         ru_role := r;
                         ru_branchId :=
                           if js_falsy branchId then None else Some branchId |}
              | None =>
                  inl {| auth_code := 401;
                         auth_message := "Invalid or missing role in token";
                         auth_error := None |}
              end
        | VerifyError message =>
            inl {| auth_code := 401; auth_message := "Invalid or expired token";
                   auth_error := Some message |}
        end
  | None => inl {| auth_code := 401; auth_message := "No token provided";
                   auth_error := None |}
  end.
End Authentication.

(** ** Further notions: the life of an order, the payments table *)

(** How far an order has come: every arrow of the transition table goes
    to a higher rank. *)
Definition rank (st : OrderStatus) : nat :=
  match st with
  | PENDING => 0
  | PREPARING => 1
  | READY => 2
  | DELIVERED => 3
  | CANCELLED => 3
  end.

Section Tables.
Context {num : Type}.

(** No two payment rows are for the same order. *)
Definition one_payment_per_order (s : Store num) : Prop :=
  NoDup (map (@payment_orderId num) (payments s)).

(** [a] is listed before [b] only if it is not older. *)
Definition not_older (a b : Order num) : Prop :=
  (order_createdAt b <= order_createdAt a)%Z.
End Tables.

Section Cart_contents.
Context {num : Type} {NUM : JsNumber num}.

(** The price the cart gives an item: the catalog price, or 0 for an item
    that the catalog does not have. *)
Definition cart_price (menu : list (MenuItem num)) (item : CartItem) : num :=
  match find (fun m => (menu_id m =? cart_id item)%Z) menu with
  | Some m => menu_price m
  | None => nzero
  end.

(** The catalog has the item. *)
Definition listed (menu : list (MenuItem num)) (item : CartItem) : bool :=
  match find (fun m => (menu_id m =? cart_id item)%Z) menu with
  | Some _ => true
  | None => false
  end.

(** The quantity of the item fits the column. *)
Definition in_range (item : CartItem) : bool := int4 (cart_quantity item).

(** The customer's PENDING orders. *)
Definition pending_orders (s : Store num) (customerId : Z) : list (Order num) :=
  filter (fun o => (order_customerId o =? customerId)%Z
                   && OrderStatus_eqb (order_status o) PENDING)
         (orders s).

(** The sync can have its order: the customer has a PENDING order, or the
    store will take a new order of this customer at branch 1. *)
Definition cart_opens (s : Store num) (customerId : Z) : bool :=
  match pending_of s customerId with
  | Some _ => true
  | None => existsb (fun b => (branch_id b =? 1)%Z) (branches s)
            && existsb (Z.eqb customerId) (userIds s)
  end.

(** The rows that a sync writes for [items], numbered from [next]. *)
Fixpoint cart_rows (menu : list (MenuItem num)) (orderId next : Z)
    (items : list CartItem) : list (OrderItem num) :=
  match items with
  | [] => []
  | item :: rest =>
      {| item_id := next;
         item_quantity := cart_quantity item;
         item_unitPrice := cart_price menu item;
         item_subtotal := nmul (cart_price menu item) (of_int (cart_quantity item));
         item_orderId := orderId;
         item_menuItemId := cart_id item |}
      :: cart_rows menu orderId (next + 1) rest
  end.

(** The total of a cart, summed in the order of the items from [acc]. *)
Definition cart_total (menu : list (MenuItem num)) (items : list CartItem)
    (acc : num) : num :=
  fold_left
    (fun total item =>
       nadd total (nmul (cart_price menu item) (of_int (cart_quantity item))))
    items acc.

(** The order that a sync fills: the customer's first PENDING order, or a
    new one. *)
Definition cart_order (s : Store num) (customerId : Z) : Order num :=
  match pending_of s customerId with
  | Some o => o
  | None => {| order_id := nextOrderId s;
               order_status := PENDING;
               order_totalAmount := nzero;
               order_createdAt := now s;
               order_deliveryAddress := None;
               order_customerId := customerId;
               order_branchId := 1 |}
  end.

(** The orders table once the sync has its order. *)
Definition cart_orders (s : Store num) (customerId : Z) : list (Order num) :=
  match pending_of s customerId with
  | Some _ => orders s
  | None => (orders s ++ [cart_order s customerId])%list
  end.

(** The order as the sync leaves it. *)
Definition with_cart_total (menu : list (MenuItem num)) (orderId : Z)
    (items : list CartItem) (o : Order num) : Order num :=
  if (order_id o =? orderId)%Z
  then set_order_total (cart_total menu items nzero) o
  else o.
End Cart_contents.

(** ** More scenarios *)

Module Evening.
(** A cart with two steaks and a soup; the soup is not available. *)
Definition two_steaks_in_cart : CartItem := {| cart_id := 3; cart_quantity := 2 |}.
Definition a_soup_in_cart : CartItem := {| cart_id := 4; cart_quantity := 1 |}.
Definition listed_cart : list CartItem := [two_steaks_in_cart; a_soup_in_cart].

(** An item that the catalog does not have. *)
Definition five_unknown : CartItem := {| cart_id := 9; cart_quantity := 5 |}.

(** The same cart, with the unknown item at its end. *)
Definition mixed_cart : list CartItem := (listed_cart ++ [five_unknown])%list.

(** The busy store, with a row for order 6, the PENDING order of
    customer 7. *)
Definition item_of_order6 : OrderItem Q :=
  {| item_id := 2; item_quantity := 2; item_unitPrice := 10%Q;
     item_subtotal := 20%Q; item_orderId := 6; item_menuItemId := 3 |}.

Definition supper : Store Q :=
  {| userIds := userIds Scenario.busy;
     branches := [Scenario.elm; Scenario.oak];
     menuItems := [Scenario.steak; Scenario.soup];
     orders := [Scenario.order5; Scenario.order6; Scenario.order8];
     orderItems := [Scenario.item_of_order5; item_of_order6];
     payments := [Scenario.payment_of_order5; Scenario.payment_of_order8];
     nextOrderId := 9; nextItemId := 3; nextPaymentId := 3; now := 1000 |}.

(** A salad of branch 2, and a store that has branch 2 only. *)
Definition salad : MenuItem Q :=
  {| menu_id := 5; menu_name := "Salad"; menu_price := 4%Q;
     menu_isAvailable := true; menu_branchId := 2 |}.

Definition a_salad_in_cart : CartItem := {| cart_id := 5; cart_quantity := 1 |}.

Definition oak_alone : Store Q :=
  {| userIds := userIds Scenario.busy;
     branches := [Scenario.oak];
     menuItems := [salad];
     orders := []; orderItems := []; payments := [];
     nextOrderId := 1; nextItemId := 1; nextPaymentId := 1; now := 1000 |}.

(** A listing of the orders of branch 1. *)
Definition of_branch_1 : OrderQuery :=
  {| query_branchId := Some 1; query_status := None; query_customerId := None |}.

(** A token service that knows four tokens: of a chef whose branch claim
    is 0, of a customer, of the cashier of branch 2, and one whose [userId]
    claim is 7.5. *)
Definition known_tokens (token : string) : Verification :=
  if token =? "chef-token"
  then Verified {| jwt_userId := JsNum 11; jwt_role := JsString "CHEF";
                   jwt_branchId := JsNum 0 |}
  else if token =? "customer-token"
  then Verified {| jwt_userId := JsNum 7; jwt_role := JsString "CUSTOMER";
                   jwt_branchId := JsUndefined |}
  else if token =? "cashier-token"
  then Verified {| jwt_userId := JsNum 13; jwt_role := JsString "CASHIER";
                   jwt_branchId := JsNum 2 |}
  else if token =? "half-token"
  then Verified {| jwt_userId := JsFraction (15 # 2);
                   jwt_role := JsString "CUSTOMER";
                   jwt_branchId := JsUndefined |}
  else VerifyError "jwt malformed".
End Evening.

(** * Properties *)

Section Properties.
Context {num : Type} {NUM : JsNumber num}.

(** ** Strings and enumerations *)

Lemma includes_In (l : list string) (s : string) :
  includes l s = true <-> In s l.
Proof.
  unfold includes. rewrite existsb_exists. split.
  - intros [x [Hx Heq]]. apply String.eqb_eq in Heq. now subst.
  - intros Hin. exists s. split; [assumption | apply String.eqb_refl].
Qed.

Lemma parse_status_name (st : OrderStatus) :
  parse_status (status_name st) = Some st.
Proof. destruct st; reflexivity. Qed.

Lemma parse_status_Some (s : string) (st : OrderStatus) :
  parse_status s = Some st -> s = status_name st.
Proof.
  unfold parse_status.
  repeat match goal with
         | |- context [String.eqb s ?x] =>
             destruct (String.eqb_spec s x); [subst; intros [= <-]; reflexivity |]
         end.
  discriminate.
Qed.

(** The table of the handler lists the names of the table of the
    specification. *)
Lemma validTransitions_spec (current : OrderStatus) :
  validTransitions current = map status_name (spec_validTransitions current).
Proof. destruct current; reflexivity. Qed.

Lemma status_name_inj (a b : OrderStatus) :
  status_name a = status_name b -> a = b.
Proof.
  intros H. apply (f_equal parse_status) in H.
  rewrite !parse_status_name in H. now injection H.
Qed.

Lemma includes_names (l : list OrderStatus) (s : string) :
  includes (map status_name l) s = true <->
  exists st, s = status_name st /\ In st l.
Proof.
  rewrite includes_In, in_map_iff. split.
  - intros [st [Heq Hin]]. exists st. now split.
  - intros [st [Heq Hin]]. exists st. now split.
Qed.

(** ** Runs against the store *)

Lemma store_call_reliable {A} (f : Store num -> option (A * Store num))
    (s : Store num) :
  store_call f (reliable s) =
  match f s with
  | Some (a, s') => (Resolved a, reliable s')
  | None => (Rejected, reliable s)
  end.
Proof. unfold store_call, reliable. simpl. destruct (f s) as [[a s']|]; reflexivity. Qed.

Lemma payment_of_found (s : Store num) (id : Z) (p : Payment num) :
  payment_of s id = Some p -> payment_orderId p = id /\ In p (payments s).
Proof.
  unfold payment_of. intros H. apply find_some in H as [Hin Heq].
  apply Z.eqb_eq in Heq. now split.
Qed.

(** The payment read with an order is a row of the table, so the update
    that names its id finds a row. *)
Lemma find_payment_of (s : Store num) (id : Z) (p : Payment num) :
  payment_of s id = Some p -> exists p', find_payment s (payment_id p) = Some p'.
Proof.
  intros H. apply payment_of_found in H as [_ Hin].
  unfold find_payment.
  destruct (find (fun q => (payment_id q =? payment_id p)%Z) (payments s)) eqn:E.
  - eauto.
  - exfalso. apply (find_none _ _ E) in Hin. now rewrite Z.eqb_refl in Hin.
Qed.

Lemma find_order_written (s : Store num) (id : Z) (st : OrderStatus) (o : Order num) :
  find_order s id = Some o ->
  find_order (write_order_status id st s) id = Some (set_order_status st o).
Proof.
  unfold find_order, write_order_status. simpl.
  induction (orders s) as [|x l IH]; simpl; [discriminate|].
  destruct (order_id x =? id)%Z eqn:E.
  - intros [= ->]. simpl. now rewrite E.
  - intros H. simpl. rewrite E. now apply IH.
Qed.

(** ** Status transitions *)

Lemma cancelled_name (st : OrderStatus) :
  (status_name st =? "CANCELLED") = OrderStatus_eqb st CANCELLED.
Proof. destruct st; reflexivity. Qed.

(** The handler on a reliable store, once the role of the caller is a
    chef or a cashier. *)
Lemma updateOrderStatus_reliable (s : Store num) (user : User) (o : Order num)
    (status : string) :
  find_order s (order_id o) = Some o ->
  updateOrderStatus user (order_id o) status (reliable s) =
  if Role_eqb (user_role user) CHEF && negb (includes ["PREPARING"; "READY"] status)
  then (respond 403 (Message "Chefs can only mark orders as preparing or ready"),
        reliable s)
  else if Role_eqb (user_role user) CASHIER
          && negb (includes ["DELIVERED"; "CANCELLED"] status)
  then (respond 403
          (Message "Cashiers can only mark orders as delivered or cancelled"),
        reliable s)
  else
    match parse_status status with
    | Some st =>
        if includes (validTransitions (order_status o)) status
        then (respond 200
                (UpdatedOrder "Order status updated successfully"
                   (view (transitioned (order_id o) st s) (set_order_status st o))),
              reliable (transitioned (order_id o) st s))
        else (respond 400
                (Message ("Cannot transition from "
                          ++ status_name (order_status o) ++ " to " ++ status)),
              reliable s)
    | None =>
        (respond 400
           (Message ("Cannot transition from "
                     ++ status_name (order_status o) ++ " to " ++ status)),
         reliable s)
    end.
Proof.
  intros Hfind. unfold updateOrderStatus, try_catch.
  destruct (Role_eqb (user_role user) CHEF
            && negb (includes ["PREPARING"; "READY"] status)); [reflexivity|].
  destruct (Role_eqb (user_role user) CASHIER
            && negb (includes ["DELIVERED"; "CANCELLED"] status)); [reflexivity|].
  unfold bind at 1. unfold order_findUnique, store_read.
  rewrite store_call_reliable, Hfind.
  destruct (includes (validTransitions (order_status o)) status) eqn:Hvalid; simpl.
  - rewrite validTransitions_spec in Hvalid.
    apply includes_names in Hvalid as [st [-> Hin]].
    rewrite parse_status_name, cancelled_name.
    unfold transitioned, bind.
    assert (Hupd : forall s1, orders s1 = orders s ->
              order_update (order_id o) (status_name st) (reliable s1) =
              (Resolved (view (write_order_status (order_id o) st s1)
                              (set_order_status st o)),
               reliable (write_order_status (order_id o) st s1))).
    { intros s1 Hs1. unfold order_update. rewrite store_call_reliable.
      unfold find_order in *. rewrite Hs1, Hfind, parse_status_name. reflexivity. }
    destruct st; simpl; try (rewrite Hupd by reflexivity; reflexivity).
    destruct (payment_of s (order_id o)) as [p|] eqn:Hpay.
    + unfold payment_update_refunded. rewrite store_call_reliable.
      destruct (find_payment_of _ _ Hpay) as [p' ->].
      rewrite Hupd by reflexivity. reflexivity.
    + unfold ret. rewrite Hupd by reflexivity. reflexivity.
  - destruct (parse_status status); reflexivity.
Qed.

Lemma find_order_transitioned (s : Store num) (id : Z) (st : OrderStatus)
    (o : Order num) :
  find_order s id = Some o ->
  find_order (transitioned id st s) id = Some (set_order_status st o).
Proof.
  intros H. unfold transitioned. apply find_order_written.
  destruct st; try assumption.
  destruct (payment_of s id); assumption.
Qed.

Lemma role_gate (roles : list Role) (user : User)
    (next : World num -> Response num * World num) (w : World num) :
  authorizeRole roles user next w =
  if existsb (Role_eqb (user_role user)) roles then next w
  else (respond 403 (Message ("Access denied. Required role: "
                              ++ String.concat " or " (map role_name roles))), w).
Proof.
  cbv delta [authorizeRole] beta.
  destruct (existsb (Role_eqb (user_role user)) roles); reflexivity.
Qed.

(** C1.  On a store that answers, a request to move an existing order to
    [status] is accepted, and answered with the updated order, which the
    store then holds with the new status and its other columns as they
    were, exactly
    when [status] names a status that the transition table allows from the
    current one and that the table of roles allows to the caller (chef:
    PREPARING, READY; cashier: DELIVERED, CANCELLED; nobody else passes
    the gate of the route); otherwise the answer is an error (403 or 400)
    and the store is as before. *)
Theorem transition_accepted_iff (s : Store num) (user : User) (o : Order num)
    (status : string) (r : Response num) (w : World num) :
  find_order s (order_id o) = Some o ->
  patch_order_status user (order_id o) status (reliable s) = (r, w) ->
  (code r = 200 <->
     exists st, status = status_name st
                /\ In st (spec_validTransitions (order_status o))
                /\ In st (spec_rolePermitted (user_role user)))
  /\ (code r = 200 ->
        exists st updated, status = status_name st
          /\ body r = UpdatedOrder "Order status updated successfully"
                        (view (db w) updated)
          /\ find_order (db w) (order_id o) = Some updated
          /\ order_status updated = st
          /\ order_id updated = order_id o
          /\ order_totalAmount updated = order_totalAmount o
          /\ order_createdAt updated = order_createdAt o
          /\ order_deliveryAddress updated = order_deliveryAddress o
          /\ order_customerId updated = order_customerId o
          /\ order_branchId updated = order_branchId o)
  /\ (code r <> 200 -> (code r = 403 \/ code r = 400) /\ db w = s).
Proof.
  intros Hfind Hrun. unfold patch_order_status in Hrun.
  rewrite role_gate, (updateOrderStatus_reliable _ _ _ Hfind) in Hrun.
  assert (Hchef : includes ["PREPARING"; "READY"] status
                  = includes (map status_name [PREPARING; READY]) status)
    by reflexivity.
  assert (Hcash : includes ["DELIVERED"; "CANCELLED"] status
                  = includes (map status_name [DELIVERED; CANCELLED]) status)
    by reflexivity.
  rewrite validTransitions_spec in Hrun.
  destruct (includes (map status_name (spec_validTransitions (order_status o)))
                     status) eqn:Hvalid.
  - (* the table allows the transition *)
    apply includes_names in Hvalid as [st [-> Hin]].
    rewrite parse_status_name in Hrun.
    assert (Hrole : forall l, includes (map status_name l) (status_name st) = true
                              <-> In st l).
    { intros l. rewrite includes_names. split.
      - intros [st' [Heq Hin']]. apply status_name_inj in Heq. now subst.
      - intros Hin'. now exists st. }
    destruct (user_role user) eqn:Hr; cbn [existsb Role_eqb orb andb] in Hrun;
      try (injection Hrun as <- <-; simpl;
           repeat split; try discriminate; try tauto;
           intros [st' [_ [_ []]]]).
    + (* chef *)
      rewrite Hchef in Hrun.
      destruct (includes (map status_name [PREPARING; READY]) (status_name st))
        eqn:Hperm; cbn [negb andb] in Hrun; injection Hrun as <- <-; simpl.
      * apply Hrole in Hperm. repeat split; try tauto; try discriminate.
        -- intros _. exists st. repeat split; assumption.
        -- intros _. exists st, (set_order_status st o). repeat split.
           now apply find_order_transitioned.
      * repeat split; try discriminate; try tauto.
        intros [st' [Heq [_ Hin']]]. apply status_name_inj in Heq. subst st'.
        apply (proj2 (Hrole [PREPARING; READY])) in Hin'. congruence.
    + (* cashier *)
      rewrite Hcash in Hrun.
      destruct (includes (map status_name [DELIVERED; CANCELLED]) (status_name st))
        eqn:Hperm; cbn [negb andb] in Hrun; injection Hrun as <- <-; simpl.
      * apply Hrole in Hperm. repeat split; try tauto; try discriminate.
        -- intros _. exists st. repeat split; assumption.
        -- intros _. exists st, (set_order_status st o). repeat split.
           now apply find_order_transitioned.
      * repeat split; try discriminate; try tauto.
        intros [st' [Heq [_ Hin']]]. apply status_name_inj in Heq. subst st'.
        apply (proj2 (Hrole [DELIVERED; CANCELLED])) in Hin'. congruence.
  - (* the table does not *)
    assert (Hno : ~ exists st, status = status_name st
                    /\ In st (spec_validTransitions (order_status o))
                    /\ In st (spec_rolePermitted (user_role user))).
    { intros [st [Heq [Hin _]]].
      assert (includes (map status_name (spec_validTransitions (order_status o)))
                       status = true) by (apply includes_names; eauto).
      congruence. }
    assert (Hcode : (code r = 403 \/ code r = 400) /\ db w = s).
    { destruct (existsb (Role_eqb (user_role user)) [CHEF; CASHIER]);
        [|injection Hrun as <- <-; simpl; tauto].
      destruct (Role_eqb (user_role user) CHEF
                && negb (includes ["PREPARING"; "READY"] status));
        [injection Hrun as <- <-; simpl; tauto|].
      destruct (Role_eqb (user_role user) CASHIER
                && negb (includes ["DELIVERED"; "CANCELLED"] status));
        [injection Hrun as <- <-; simpl; tauto|].
      destruct (parse_status status); injection Hrun as <- <-; simpl; tauto. }
    destruct Hcode as [Hcode Hdb].
    assert (Hne : code r <> 200) by (destruct Hcode as [-> | ->]; discriminate).
    repeat split; try tauto.
Qed.

(** One store call under a schedule: the head of the schedule decides
    first, the store second. *)
Lemma store_call_run {A} (f : Store num -> option (A * Store num)) (w : World num) :
  store_call f w =
  if nth 0 (faults w) false
  then (Rejected, {| db := db w; faults := tl (faults w) |})
  else match f (db w) with
       | Some (a, s') => (Resolved a, {| db := s'; faults := tl (faults w) |})
       | None => (Rejected, {| db := db w; faults := tl (faults w) |})
       end.
Proof.
  unfold store_call. destruct (faults w) as [|[|] fs]; reflexivity.
Qed.

Lemma nth_tl (l : list bool) (i : nat) : nth i (tl l) false = nth (S i) l false.
Proof. destruct l; [destruct i|]; reflexivity. Qed.

(** A rejected [order.create] writes nothing. *)
Lemma order_create_rejected (d : OrderData) (w w' : World num) :
  order_create d w = (Rejected, w') -> db w' = db w.
Proof.
  unfold order_create. rewrite store_call_run.
  destruct (nth 0 (faults w) false); [now intros [= <-]|].
  cbn zeta. destruct (order_accepted (db w) d); [discriminate | now intros [= <-]].
Qed.

(** An accepted [order.create]: the store found the order acceptable and
    wrote it with its items. *)
Lemma order_create_resolved (d : OrderData) (w w' : World num) (o : Order num)
    (its : list (OrderItem num)) :
  order_create d w = (Resolved (o, its), w') ->
  order_accepted (db w) d = true
  /\ o = {| order_id := nextOrderId (db w);
            order_status := data_status d;
            order_totalAmount := data_totalAmount d;
            order_createdAt := now (db w);
            order_deliveryAddress := data_deliveryAddress d;
            order_customerId := data_customerId d;
            order_branchId := data_branchId d |}
  /\ its = number_items (nextOrderId (db w)) (nextItemId (db w)) (data_items d)
  /\ orders (db w') = (orders (db w) ++ [o])%list
  /\ orderItems (db w') = (orderItems (db w) ++ its)%list
  /\ payments (db w') = payments (db w)
  /\ menuItems (db w') = menuItems (db w)
  /\ branches (db w') = branches (db w)
  /\ userIds (db w') = userIds (db w)
  /\ nextItemId (db w') = (nextItemId (db w) + Z.of_nat (List.length its))%Z
  /\ faults w' = tl (faults w).
Proof.
  unfold order_create. rewrite store_call_run.
  destruct (nth 0 (faults w) false); [discriminate|].
  cbn zeta. destruct (order_accepted (db w) d); [|discriminate].
  intros [= <- <- <-]. simpl. repeat split; reflexivity.
Qed.

Lemma chef_set (status : string) :
  includes ["PREPARING"; "READY"] status = true <->
  exists st, status = status_name st /\ In st (spec_rolePermitted CHEF).
Proof. apply (includes_names [PREPARING; READY]). Qed.

Lemma cashier_set (status : string) :
  includes ["DELIVERED"; "CANCELLED"] status = true <->
  exists st, status = status_name st /\ In st (spec_rolePermitted CASHIER).
Proof. apply (includes_names [DELIVERED; CANCELLED]). Qed.

(** C4, as the handler has it.  A request to move an order that is
    DELIVERED or CANCELLED never goes through, whoever asks, whatever
    status is asked and whatever the store does: the store is left as it
    was.  The answer is the role error (403) when the table of roles does
    not allow the requested status to the caller, and otherwise, once the
    store has answered the read, the error "Cannot transition from ... to
    ..." (400). *)
Theorem terminal_orders_stay (w : World num) (user : User) (o : Order num)
    (status : string) (r : Response num) (w' : World num) :
  find_order (db w) (order_id o) = Some o ->
  order_status o = DELIVERED \/ order_status o = CANCELLED ->
  patch_order_status user (order_id o) status w = (r, w') ->
  let permitted :=
    exists st, status = status_name st /\ In st (spec_rolePermitted (user_role user)) in
  db w' = db w
  /\ (code r = 403 \/ code r = 400 \/ code r = 500)
  /\ (~ permitted -> code r = 403)
  /\ (permitted -> nth 0 (faults w) false = false ->
        r = respond 400
              (Message ("Cannot transition from " ++ status_name (order_status o)
                        ++ " to " ++ status))).
Proof.
  intros Hfind Hterm Hrun permitted.
  assert (Hinvalid : includes (validTransitions (order_status o)) status = false)
    by (destruct Hterm as [-> | ->]; reflexivity).
  unfold patch_order_status in Hrun. rewrite role_gate in Hrun.
  unfold updateOrderStatus, try_catch in Hrun.
  subst permitted.
  destruct (user_role user) eqn:Hr; cbn [existsb Role_eqb orb andb] in Hrun;
    try (injection Hrun as <- <-; simpl;
         repeat split; try tauto; intros [st [_ []]]).
  - (* chef *)
    destruct (includes ["PREPARING"; "READY"] status) eqn:Hperm;
      cbn [negb andb] in Hrun.
    + apply chef_set in Hperm.
      unfold bind, order_findUnique, store_read in Hrun.
      rewrite store_call_run, Hfind in Hrun.
      destruct (nth 0 (faults w) false) eqn:Hread;
        cbn beta iota zeta in Hrun; try rewrite Hinvalid in Hrun;
        injection Hrun as <- <-; simpl; repeat split; try tauto; discriminate.
    + injection Hrun as <- <-; simpl. repeat split; try tauto.
      intros Hp. apply chef_set in Hp. congruence.
  - (* cashier *)
    destruct (includes ["DELIVERED"; "CANCELLED"] status) eqn:Hperm;
      cbn [negb andb] in Hrun.
    + apply cashier_set in Hperm.
      unfold bind, order_findUnique, store_read in Hrun.
      rewrite store_call_run, Hfind in Hrun.
      destruct (nth 0 (faults w) false) eqn:Hread;
        cbn beta iota zeta in Hrun; try rewrite Hinvalid in Hrun;
        injection Hrun as <- <-; simpl; repeat split; try tauto; discriminate.
    + injection Hrun as <- <-; simpl. repeat split; try tauto.
      intros Hp. apply cashier_set in Hp. congruence.
Qed.

(** ** Cancellation and refund *)

Lemma payment_of_refunded (s : Store num) (id : Z) (p : Payment num) :
  payment_of s id = Some p ->
  payment_of (refund_payment (payment_id p) s) id
  = Some (set_payment_status PaymentStatus.REFUNDED p).
Proof.
  unfold payment_of, refund_payment. simpl.
  induction (payments s) as [|q l IH]; simpl; [discriminate|].
  destruct (payment_orderId q =? id)%Z eqn:E.
  - intros [= ->]. rewrite Z.eqb_refl. simpl. now rewrite E.
  - intros H. specialize (IH H).
    destruct (payment_id q =? payment_id p)%Z; simpl; now rewrite E.
Qed.

(** C2, as the handler has it.  A cashier cancels an order that is not
    yet DELIVERED or CANCELLED and that has a payment.  The handler makes
    three store calls: the read of the order, the write that marks the
    payment REFUNDED, the write of the order status; [rejects i] says that
    the store rejects the i-th of them.  If none is rejected the order is
    CANCELLED and the payment REFUNDED; if the read or the payment write
    is rejected neither row changes; if the order write is rejected after
    the payment write went through, the payment stays REFUNDED and the
    order keeps its status. *)
Theorem cancellation_writes (w : World num) (user : User) (o : Order num)
    (p : Payment num) (r : Response num) (w' : World num) :
  find_order (db w) (order_id o) = Some o ->
  payment_of (db w) (order_id o) = Some p ->
  user_role user = CASHIER ->
  In CANCELLED (spec_validTransitions (order_status o)) ->
  patch_order_status user (order_id o) "CANCELLED" w = (r, w') ->
  let rejects i := nth i (faults w) false in
  (rejects 0%nat = false /\ rejects 1%nat = false /\ rejects 2%nat = false ->
     code r = 200
     /\ find_order (db w') (order_id o) = Some (set_order_status CANCELLED o)
     /\ payment_of (db w') (order_id o)
        = Some (set_payment_status PaymentStatus.REFUNDED p))
  /\ (rejects 0%nat = true \/ rejects 1%nat = true ->
       code r = 500 /\ db w' = db w)
  /\ (rejects 0%nat = false /\ rejects 1%nat = false /\ rejects 2%nat = true ->
       code r = 500
       /\ find_order (db w') (order_id o) = Some o
       /\ payment_of (db w') (order_id o)
          = Some (set_payment_status PaymentStatus.REFUNDED p)).
Proof.
  intros Hfind Hpay Hrole Hvalid Hrun rejects. subst rejects.
  assert (Hinc : includes (validTransitions (order_status o)) "CANCELLED" = true).
  { rewrite validTransitions_spec. apply includes_names. now exists CANCELLED. }
  destruct (find_payment_of _ _ Hpay) as [p' Hp'].
  unfold patch_order_status in Hrun. rewrite role_gate, Hrole in Hrun.
  cbn [existsb Role_eqb orb] in Hrun.
  unfold updateOrderStatus, try_catch in Hrun. rewrite Hrole in Hrun.
  cbn [Role_eqb andb] in Hrun.
  change (includes ["DELIVERED"; "CANCELLED"] "CANCELLED") with true in Hrun.
  cbn [negb] in Hrun.
  unfold bind at 1 in Hrun. unfold order_findUnique, store_read in Hrun.
  rewrite store_call_run, Hfind, Hpay in Hrun.
  destruct (nth 0 (faults w) false) eqn:H0.
  { injection Hrun as <- <-. simpl. intuition discriminate. }
  cbn beta iota zeta in Hrun. rewrite Hinc in Hrun. cbn [negb] in Hrun.
  change ("CANCELLED" =? "CANCELLED") with true in Hrun.
  unfold bind at 1 in Hrun. unfold payment_update_refunded in Hrun.
  rewrite store_call_run in Hrun. cbn [db faults] in Hrun.
  rewrite nth_tl, Hp' in Hrun.
  destruct (nth 1 (faults w) false) eqn:H1.
  { injection Hrun as <- <-. simpl. intuition discriminate. }
  unfold bind at 1 in Hrun. unfold order_update in Hrun.
  rewrite store_call_run in Hrun. cbn [db faults] in Hrun.
  rewrite !nth_tl in Hrun.
  assert (Hfind' : find_order (refund_payment (payment_id p) (db w)) (order_id o)
                   = Some o) by exact Hfind.
  rewrite Hfind' in Hrun.
  change (parse_status "CANCELLED") with (Some CANCELLED) in Hrun.
  destruct (nth 2 (faults w) false) eqn:H2.
  - injection Hrun as <- <-. simpl.
    pose proof (payment_of_refunded _ _ Hpay). intuition discriminate.
  - cbn beta iota zeta in Hrun. unfold ret in Hrun.
    injection Hrun as <- <-. simpl.
    pose proof (payment_of_refunded _ _ Hpay).
    pose proof (find_order_written _ _ CANCELLED Hfind').
    intuition discriminate.
Qed.

(** ** Order creation *)

Lemma find_menuItem_id (s : Store num) (id : Z) (m : MenuItem num) :
  find_menuItem s id = Some m -> menu_id m = id.
Proof.
  unfold find_menuItem. intros H. apply find_some in H as [_ H].
  now apply Z.eqb_eq in H.
Qed.

(** What the loop over the requested items returns, under any schedule:
    it writes nothing; when it completes, the drafts are those of the
    requested items, in order, and the total is the running sum. *)
Lemma priceItems_run (items : list ItemRequest) :
  forall (acc : list OrderItemDraft) (total : num) (w w' : World num)
         (out : Outcome (Response num + list OrderItemDraft * num)),
  priceItems items acc total w = (out, w') ->
  db w' = db w
  /\ match out with
     | Resolved (inr (ds, t)) =>
         find (offending (db w)) items = None
         /\ exists ms,
              Forall2 (fun req m => find_menuItem (db w) (req_menuItemId req) = Some m
                                    /\ menu_isAvailable m = true) items ms
              /\ ds = (acc ++ map (fun rm => draft_of (snd rm) (fst rm))
                                  (combine items ms))%list
              /\ t = fold_left (fun a rm =>
                                  nadd a (nmul (menu_price (snd rm))
                                               (of_int (req_quantity (fst rm)))))
                               (combine items ms) total
     | Resolved (inl r) =>
         (code r = 404 \/ code r = 400) /\ exists msg, body r = Message msg
     | Rejected => True
     end.
Proof.
  induction items as [|item rest IH]; intros acc total w w' out Hrun.
  - injection Hrun as <- <-. split; [reflexivity|]. split; [reflexivity|].
    exists []. simpl. rewrite app_nil_r. repeat split. constructor.
  - cbn [priceItems] in Hrun. unfold bind at 1 in Hrun.
    unfold menuItem_findUnique, store_read in Hrun.
    rewrite store_call_run in Hrun.
    destruct (nth 0 (faults w) false).
    { injection Hrun as <- <-. now split. }
    cbn beta iota zeta in Hrun.
    destruct (find_menuItem (db w) (req_menuItemId item)) as [m|] eqn:Hm.
    + destruct (menu_isAvailable m) eqn:Hav; cbn [negb] in Hrun.
      * apply IH in Hrun as [Hdb Hout]. cbn [db] in Hdb, Hout.
        split; [assumption|].
        destruct out as [[r | [ds t]]|]; try assumption.
        destruct Hout as [Hnone [ms [Hall [Hds Ht]]]].
        split.
        { simpl. unfold offending at 1. now rewrite Hm, Hav. }
        exists (m :: ms). split; [constructor; auto|].
        simpl. rewrite Hds, Ht, <- app_assoc. now split.
      * injection Hrun as <- <-. split; [reflexivity|].
        split; [now right | simpl; eauto].
    + injection Hrun as <- <-. split; [reflexivity|].
      split; [now left | simpl; eauto].
Qed.

Lemma priceItems_offender (s : Store num) (it : ItemRequest)
    (items : list ItemRequest) :
  forall (acc : list OrderItemDraft) (total : num),
  find (offending s) items = Some it ->
  priceItems items acc total (reliable s)
  = (Resolved (inl (item_error s it)), reliable s).
Proof.
  induction items as [|item rest IH]; intros acc total Hfind; [discriminate|].
  cbn [priceItems]. unfold bind at 1. unfold menuItem_findUnique, store_read.
  rewrite store_call_reliable. simpl in Hfind. unfold offending at 1 in Hfind.
  destruct (find_menuItem s (req_menuItemId item)) as [m|] eqn:Hm.
  - destruct (menu_isAvailable m) eqn:Hav; cbn [negb] in *.
    + now apply IH.
    + injection Hfind as <-. unfold item_error. now rewrite Hm.
  - injection Hfind as <-. unfold item_error. now rewrite Hm.
Qed.

Lemma skipn_tl {A : Type} (n : nat) (l : list A) :
  skipn n (tl l) = skipn (S n) l.
Proof. destruct l; [destruct n|]; reflexivity. Qed.

(** The loop under a schedule: it stops at the first offending item, after
    one lookup for each item up to and including that one; the items after
    it cost no call. *)
Lemma priceItems_stops (it : ItemRequest) (post : list ItemRequest)
    (pre : list ItemRequest) :
  forall (acc : list OrderItemDraft) (total : num) (w : World num),
  (forall x, In x pre -> offending (db w) x = false) ->
  offending (db w) it = true ->
  (forall i, (i <= List.length pre)%nat -> nth i (faults w) false = false) ->
  priceItems (pre ++ it :: post) acc total w
  = (Resolved (inl (item_error (db w) it)),
     {| db := db w; faults := skipn (S (List.length pre)) (faults w) |}).
Proof.
  induction pre as [|x pre IH]; intros acc total w Hpre Hit Hsched.
  - cbn [app priceItems]. unfold bind at 1. unfold menuItem_findUnique, store_read.
    rewrite store_call_run, (Hsched 0%nat (Nat.le_refl _)).
    cbn beta iota zeta. unfold offending in Hit. unfold item_error.
    destruct (find_menuItem (db w) (req_menuItemId it)) as [m|].
    + rewrite Hit. reflexivity.
    + reflexivity.
  - cbn [app priceItems]. unfold bind at 1. unfold menuItem_findUnique, store_read.
    rewrite store_call_run, (Hsched 0%nat (Nat.le_0_l _)).
    cbn beta iota zeta.
    pose proof (Hpre x (or_introl eq_refl)) as Hx. unfold offending in Hx.
    destruct (find_menuItem (db w) (req_menuItemId x)) as [m|]; [|discriminate].
    rewrite Hx. rewrite IH.
    + cbn [db faults List.length]. now rewrite skipn_tl.
    + intros y Hy. apply Hpre. now right.
    + exact Hit.
    + intros i Hi. cbn [faults]. rewrite nth_tl. apply Hsched. simpl. lia.
Qed.

Lemma assignBranch_db (b : OrderBody) (w w' : World num)
    (out : Outcome (Response num + option Z)) :
  assignBranch b w = (out, w') -> db w' = db w.
Proof.
  unfold assignBranch. intros Hrun.
  destruct (body_deliveryAddress b) as [addr|];
    [|injection Hrun as <- <-; reflexivity].
  destruct (negb (truthy_int (body_branchId b)) && truthy_str (Some addr));
    [|injection Hrun as <- <-; reflexivity].
  unfold bind, branch_findMany, store_read in Hrun.
  rewrite store_call_run in Hrun.
  destruct (nth 0 (faults w) false); [injection Hrun as <- <-; reflexivity|].
  cbn beta iota zeta in Hrun.
  destruct (branches (db w)); injection Hrun as <- <-; reflexivity.
Qed.

(** The branch that the assignment resolves to when the request names no
    branch and carries an address. *)
Lemma assignBranch_pick (b : OrderBody) (addr : string) (w w' : World num)
    (branchId : option Z) :
  truthy_int (body_branchId b) = false ->
  body_deliveryAddress b = Some addr ->
  addr <> "" ->
  assignBranch b w = (Resolved (inr branchId), w') ->
  exists first rest,
    branches (db w) = first :: rest
    /\ branchId = Some (branch_id (pickBranch (normalize addr) first (first :: rest))).
Proof.
  intros Hno Haddr Hne Hrun. unfold assignBranch in Hrun.
  rewrite Haddr, Hno in Hrun.
  assert (Ht : truthy_str (Some addr) = true).
  { simpl. destruct (String.eqb_spec addr ""); [contradiction | reflexivity]. }
  rewrite Ht in Hrun. cbn [negb andb] in Hrun.
  unfold bind, branch_findMany, store_read in Hrun.
  rewrite store_call_run in Hrun.
  destruct (nth 0 (faults w) false); [discriminate|].
  cbn beta iota zeta in Hrun.
  destruct (branches (db w)) as [|first rest]; [discriminate|].
  injection Hrun as <- _. now exists first, rest.
Qed.

(** Every way through [createOrder]: either the answer is not 201 and the
    store is as before, or the handler went through the customer rule, the
    branch assignment and the loop over the items, and the store created
    the order and its items in one call. *)
Lemma createOrder_inv (user : User) (b : OrderBody) (w w' : World num)
    (r : Response num) :
  createOrder user b w = (r, w') ->
  (code r <> 201 /\ db w' = db w /\ exists msg, body r = Message msg \/ body r = Error msg)
  \/ exists customer branchId w1 w2 ds total o its,
       actualCustomerId (user_role user) (body_customerId b) (user_id user)
       = Some customer
       /\ body_items b <> []
       /\ assignBranch b w = (Resolved (inr branchId), w1)
       /\ truthy_int branchId = true
       /\ priceItems (body_items b) [] nzero w1 = (Resolved (inr (ds, total)), w2)
       /\ order_create (order_data customer branchId b ds total) w2
          = (Resolved (o, its), w')
       /\ r = respond 201 (CreatedOrder o its).
Proof.
  unfold createOrder, try_catch. intros Hrun.
  destruct (negb (truthy_int (Some (user_id user))));
    [injection Hrun as <- <-; left; simpl; repeat split; [discriminate | eauto]|].
  destruct (actualCustomerId (user_role user) (body_customerId b) (user_id user))
    as [customer|] eqn:Hcust;
    [|injection Hrun as <- <-; left; simpl; repeat split; [discriminate | eauto]].
  destruct (body_items b) as [|i0 items0] eqn:Hitems;
    [injection Hrun as <- <-; left; simpl; repeat split; [discriminate | eauto]|].
  unfold bind at 1 in Hrun.
  destruct (assignBranch b w) as [[[r1 | branchId]|] w1] eqn:Hassign;
    pose proof (assignBranch_db _ _ Hassign) as Hdb1.
  - injection Hrun as <- <-. left.
    unfold assignBranch in Hassign.
    destruct (body_deliveryAddress b) as [addr|]; [|discriminate].
    destruct (negb (truthy_int (body_branchId b)) && truthy_str (Some addr));
      [|discriminate].
    unfold bind, branch_findMany, store_read in Hassign.
    rewrite store_call_run in Hassign.
    destruct (nth 0 (faults w) false); [discriminate|].
    cbn beta iota zeta in Hassign.
    destruct (branches (db w)); [|discriminate].
    injection Hassign as <- _. simpl. repeat split; [discriminate | assumption | eauto].
  - destruct (truthy_int branchId) eqn:Htruthy; cbn [negb] in Hrun.
    + unfold bind at 1 in Hrun.
      destruct (priceItems (i0 :: items0) [] nzero w1) as [[[r2 | [ds total]]|] w2]
        eqn:Hprice;
        pose proof (priceItems_run _ _ _ _ Hprice) as [Hdb2 Hout].
      * injection Hrun as <- <-. left. destruct Hout as [Hcode [msg Hmsg]].
        repeat split; [|congruence | eauto].
        destruct Hcode as [-> | ->]; discriminate.
      * unfold bind at 1 in Hrun.
        change {| data_branchId := or_else branchId 0;
                  data_customerId := customer;
                  data_status := PENDING;
                  data_totalAmount := total;
                  data_deliveryAddress :=
                    if truthy_str (body_deliveryAddress b)
                    then body_deliveryAddress b else None;
                  data_items := ds |}
          with (order_data customer branchId b ds total) in Hrun.
        destruct (order_create (order_data customer branchId b ds total) w2)
          as [[[o its]|] w3] eqn:Hcreate.
        -- injection Hrun as <- <-. right.
           exists customer, branchId, w1, w2, ds, total, o, its.
           repeat split; try assumption; try reflexivity. discriminate.
        -- injection Hrun as <- <-. left.
           apply order_create_rejected in Hcreate. simpl.
           repeat split; [discriminate | congruence | eauto].
      * injection Hrun as <- <-. left. simpl.
        repeat split; [discriminate | congruence | eauto].
    + injection Hrun as <- <-. left. simpl.
      repeat split; [discriminate | assumption | eauto].
  - injection Hrun as <- <-. left. simpl.
    repeat split; [discriminate | assumption | eauto].
Qed.

Lemma number_items_total (orderId : Z) (l : list (ItemRequest * MenuItem num)) :
  forall (next : Z) (acc : num),
  fold_left (fun a it => nadd a (line_total it))
            (number_items orderId next
               (map (fun rm => draft_of (snd rm) (fst rm)) l)) acc
  = fold_left (fun a rm => nadd a (nmul (menu_price (snd rm))
                                        (of_int (req_quantity (fst rm))))) l acc.
Proof.
  induction l as [|[req m] l IH]; intros next acc; [reflexivity|].
  simpl. apply IH.
Qed.

Lemma number_items_priced (s : Store num) (orderId : Z)
    (items : list ItemRequest) (ms : list (MenuItem num)) :
  Forall2 (fun req m => find_menuItem s (req_menuItemId req) = Some m
                        /\ menu_isAvailable m = true) items ms ->
  forall next,
  Forall2 (priced_from s) items
          (number_items orderId next
             (map (fun rm => draft_of (snd rm) (fst rm)) (combine items ms))).
Proof.
  induction 1 as [|req m items ms [Hm Hav] _ IH]; intros next; simpl.
  - constructor.
  - constructor; [|apply IH].
    exists m. simpl. repeat split; try assumption.
    now apply find_menuItem_id in Hm.
Qed.

(** C5.  An order that [createOrder] answers with is PENDING; its total is
    the sum, over its items in order, of unit price times quantity; each
    item carries the quantity asked and the price that the catalog gave
    the menu item when the request came in; and when the caller is a
    customer the order is theirs, whatever [customerId] the body names.
    The order and its items are what the call added to the store. *)
Theorem created_order_is_priced (user : User) (b : OrderBody) (w w' : World num)
    (r : Response num) (o : Order num) (its : list (OrderItem num)) :
  createOrder user b w = (r, w') ->
  body r = CreatedOrder o its ->
  code r = 201
  /\ order_status o = PENDING
  /\ order_totalAmount o = spec_total its
  /\ Forall2 (priced_from (db w)) (body_items b) its
  /\ (user_role user = CUSTOMER -> order_customerId o = user_id user)
  /\ orders (db w') = (orders (db w) ++ [o])%list
  /\ orderItems (db w') = (orderItems (db w) ++ its)%list.
Proof.
  intros Hrun Hbody.
  destruct (createOrder_inv _ _ _ Hrun)
    as [(_ & _ & msg & [Hm | Hm])
       | (customer & branchId & w1 & w2 & ds & total & o' & its' &
          Hcust & _ & Hassign & _ & Hprice & Hcreate & ->)];
    try congruence.
  simpl in Hbody. injection Hbody as -> ->.
  pose proof (assignBranch_db _ _ Hassign) as Hdb1.
  pose proof (priceItems_run _ _ _ _ Hprice) as [Hdb2 (_ & ms & Hall & Hds & Ht)].
  rewrite Hdb1 in Hall. simpl in Hds.
  unfold order_create in Hcreate. rewrite store_call_run in Hcreate.
  destruct (nth 0 (faults w2) false); [discriminate|].
  cbn zeta in Hcreate.
  destruct (order_accepted (db w2) _) eqn:Haccepted; [|discriminate].
  injection Hcreate as <- <- <-. simpl.
  repeat split.
  - unfold spec_total. rewrite Hds, number_items_total. exact Ht.
  - rewrite Hds. now apply number_items_priced.
  - intros Hrole. rewrite Hrole in Hcust. simpl in Hcust. congruence.
  - congruence.
  - congruence.
Qed.

(** [find] returns the first element that satisfies the test. *)
Lemma find_first {A} (f : A -> bool) (l : list A) (x : A) :
  find f l = Some x ->
  exists pre post, l = (pre ++ x :: post)%list
                   /\ (forall y, In y pre -> f y = false) /\ f x = true.
Proof.
  induction l as [|a l IH]; simpl; [discriminate|].
  destruct (f a) eqn:Ha.
  - intros [= ->]. exists [], l. repeat split; [intros y [] | assumption].
  - intros H. destruct (IH H) as (pre & post & -> & Hpre & Hx).
    exists (a :: pre), post. repeat split; [|assumption].
    intros y [<- | Hy]; [assumption | now apply Hpre].
Qed.

Lemma find_exists {A} (f : A -> bool) (l : list A) (bad : A) :
  In bad l -> f bad = true -> exists x, find f l = Some x.
Proof.
  intros Hin Hbad. destruct (find f l) as [x|] eqn:E; [eauto|].
  apply (find_none _ _ E) in Hin. congruence.
Qed.

Lemma assignBranch_reliable (b : OrderBody) (s : Store num) (w' : World num)
    (out : Outcome (Response num + option Z)) :
  assignBranch b (reliable s) = (out, w') -> w' = reliable s.
Proof.
  unfold assignBranch. intros Hrun.
  destruct (body_deliveryAddress b) as [addr|];
    [|injection Hrun as <- <-; reflexivity].
  destruct (negb (truthy_int (body_branchId b)) && truthy_str (Some addr));
    [|injection Hrun as <- <-; reflexivity].
  unfold bind, branch_findMany, store_read in Hrun.
  rewrite store_call_reliable in Hrun.
  destruct (branches s); injection Hrun as <- <-; reflexivity.
Qed.

(** C8, as the handler has it.  Some requested item is missing from the
    catalog or unavailable.  Then [createOrder] does not create the order,
    whatever the store does, and the store is left as it was: no order and
    no order item is written.  The items are checked in the order of the
    request and the loop stops at the first such item, so the error is its
    error.  A request that got as far as the items (an authenticated caller
    other than a chef, a branch resolved), and whose lookups up to that
    item are answered, is answered 404 "Menu item <id> not found" when that
    item is missing and 400 "Menu item <name> is not available" when it is
    unavailable, whatever the schedule holds after those lookups: the
    handler makes one store call for each item up to that one and none
    after it. *)
Theorem item_failure_aborts (user : User) (b : OrderBody) (w w' : World num)
    (r : Response num) (bad : ItemRequest) :
  In bad (body_items b) ->
  offending (db w) bad = true ->
  createOrder user b w = (r, w') ->
  code r <> 201
  /\ db w' = db w
  /\ exists pre it post,
       body_items b = (pre ++ it :: post)%list
       /\ (forall x, In x pre -> offending (db w) x = false)
       /\ offending (db w) it = true
       /\ (user_id user <> 0 ->
           user_role user <> CHEF ->
           forall branchId w1,
             assignBranch b w = (Resolved (inr branchId), w1) ->
             truthy_int branchId = true ->
             (forall i, (i <= List.length pre)%nat ->
                        nth i (faults w1) false = false) ->
             r = match find_menuItem (db w) (req_menuItemId it) with
                 | None =>
                     respond 404
                       (Message ("Menu item " ++ show_int (req_menuItemId it)
                                 ++ " not found"))
                 | Some m =>
                     respond 400
                       (Message ("Menu item " ++ menu_name m
                                 ++ " is not available"))
                 end
             /\ faults w' = skipn (S (List.length pre)) (faults w1)).
Proof.
  intros Hin Hbad Hrun.
  destruct (find_exists _ _ _ Hin Hbad) as [it Hfirst].
  assert (Hfail : code r <> 201 /\ db w' = db w).
  { destruct (createOrder_inv _ _ _ Hrun)
      as [(Hc & Hd & _)
         | (customer & branchId & w1 & w2 & ds & total & o' & its' &
            _ & _ & Hassign & _ & Hprice & _ & _)]; [now split|].
    pose proof (assignBranch_db _ _ Hassign) as Hdb1.
    pose proof (priceItems_run _ _ _ _ Hprice) as [_ (Hnone & _)].
    rewrite Hdb1 in Hnone. congruence. }
  destruct Hfail as [Hcode Hdb]. repeat split; try assumption.
  destruct (find_first _ _ Hfirst) as (pre & post & Hsplit & Hpre & Hit).
  exists pre, it, post.
  split; [exact Hsplit|]. split; [exact Hpre|]. split; [exact Hit|].
  intros Hid Hrole branchId w1 Hassign Htruthy Hsched.
  pose proof (assignBranch_db _ _ Hassign) as Hdb1.
  unfold createOrder, try_catch in Hrun.
  assert (Hu : truthy_int (Some (user_id user)) = true).
  { simpl. destruct (Z.eqb_spec (user_id user) 0); [contradiction | reflexivity]. }
  rewrite Hu in Hrun. cbn [negb] in Hrun.
  destruct (actualCustomerId (user_role user) (body_customerId b) (user_id user))
    as [customer|] eqn:Hcust;
    [|destruct (user_role user); try discriminate; contradiction].
  destruct (body_items b) as [|i0 items0] eqn:Hitems; [destruct Hin|].
  unfold bind at 1 in Hrun. rewrite Hassign, Htruthy in Hrun.
  cbn [negb] in Hrun. unfold bind at 1 in Hrun.
  rewrite Hsplit in Hrun. rewrite <- Hdb1 in Hpre, Hit.
  rewrite (@priceItems_stops it post pre [] nzero w1 Hpre Hit Hsched) in Hrun.
  injection Hrun as <- <-. rewrite Hdb1. split; reflexivity.
Qed.

(** ** Branch assignment by address *)

Lemma fold_left_pointwise {A B} (f g : A -> B -> A) (l : list B) :
  (forall a b, f a b = g a b) ->
  forall a, fold_left f l a = fold_left g l a.
Proof.
  intros Hfg. induction l as [|b l IH]; intros a; simpl; [reflexivity|].
  now rewrite Hfg, IH.
Qed.

Lemma fold_left_shift {A} (f : A -> nat -> A) (l : list nat) :
  forall a, fold_left f (map S l) a = fold_left (fun a i => f a (S i)) l a.
Proof. induction l as [|i l IH]; intros a; simpl; [reflexivity | apply IH]. Qed.

(** Lower-casing first and then dropping what is not in [a-z0-9] keeps
    the letters and digits of the string, in lower case. *)
Lemma normalize_spec (str : string) :
  list_ascii_of_string (normalize str)
  = map to_lower (filter spec_is_alnum (list_ascii_of_string str)).
Proof.
  unfold normalize. rewrite list_ascii_of_string_of_list_ascii.
  induction (list_ascii_of_string str) as [|c l IH]; [reflexivity|].
  cbn [map filter].
  assert (Hc : is_lower_alnum (to_lower c) = spec_is_alnum c).
  { destruct c as [[|] [|] [|] [|] [|] [|] [|] [|]]; reflexivity. }
  rewrite Hc. destruct (spec_is_alnum c); cbn [map]; now rewrite IH.
Qed.

(** The inner loop counts what the specification counts. *)
Lemma matchScore_loop (a : string) :
  forall (b : string) (acc : nat),
  fold_left
    (fun score i =>
       if same_char (String.get i a) (String.get i b) then S score else score)
    (seq 0 (Nat.min (String.length a) (String.length b))) acc
  = (acc + spec_score a b)%nat.
Proof.
  induction a as [|x a IH]; intros b acc.
  - simpl. unfold spec_score. simpl. lia.
  - destruct b as [|y b].
    + simpl. unfold spec_score. simpl. lia.
    + cbn [String.length Nat.min]. rewrite <- cons_seq, <- seq_shift.
      cbn [fold_left]. rewrite fold_left_shift.
      rewrite (fold_left_pointwise _
                 (fun score i =>
                    if same_char (String.get i a) (String.get i b)
                    then S score else score))
        by reflexivity.
      rewrite IH. unfold spec_score. simpl.
      destruct (Ascii.eqb x y); simpl; lia.
Qed.

Lemma matchScore_spec (a b : string) : matchScore a b = spec_score a b.
Proof. unfold matchScore. now rewrite matchScore_loop. Qed.

(** The outer loop from a state [(cur, score of cur)]: the result is [cur]
    when nothing later scores higher, and otherwise the first later
    branch that reaches the highest score. *)
Lemma keepBest_fold (input : string) (l : list Branch) :
  forall cur : Branch,
  let chosen := fst (fold_left (keepBest input) l (cur, branchScore input cur)) in
  (branchScore input cur <= branchScore input chosen)%nat
  /\ (forall x, In x l -> (branchScore input x <= branchScore input chosen)%nat)
  /\ ((chosen = cur
       /\ forall x, In x l -> (branchScore input x <= branchScore input cur)%nat)
      \/ exists pre post,
           l = (pre ++ chosen :: post)%list
           /\ (forall x, In x pre -> (branchScore input x < branchScore input chosen)%nat)
           /\ (branchScore input cur < branchScore input chosen)%nat).
Proof.
  induction l as [|a l IH]; intros cur; cbn zeta.
  - simpl. split; [lia|]. split; [intros x []|]. left. split; [reflexivity|].
    intros x [].
  - cbn [fold_left].
    assert (Hstep : keepBest input (cur, branchScore input cur) a
                    = if (branchScore input cur <? branchScore input a)%nat
                      then (a, branchScore input a)
                      else (cur, branchScore input cur)) by reflexivity.
    rewrite Hstep. clear Hstep.
    destruct (branchScore input cur <? branchScore input a)%nat eqn:E.
    + apply Nat.ltb_lt in E.
      destruct (IH a) as (Hle & Hall & Hcase).
      split; [lia|]. split.
      { intros x [<- | Hx]; [assumption | now apply Hall]. }
      right. destruct Hcase as [[Heq _] | (pre & post & Hl & Hpre & Hlt)].
      * exists [], l. rewrite Heq. repeat split; [intros x [] | assumption].
      * exists (a :: pre), post. split; [now rewrite Hl at 1|].
        split; [|lia]. intros x [<- | Hx]; [assumption | now apply Hpre].
    + apply Nat.ltb_ge in E.
      destruct (IH cur) as (Hle & Hall & Hcase).
      split; [assumption|]. split.
      { intros x [<- | Hx]; [lia | now apply Hall]. }
      destruct Hcase as [[Heq Hmax] | (pre & post & Hl & Hpre & Hlt)].
      * left. split; [assumption|].
        intros x [<- | Hx]; [assumption | now apply Hmax].
      * right. exists (a :: pre), post. split; [now rewrite Hl at 1|].
        split; [|assumption]. intros x [<- | Hx]; [lia | now apply Hpre].
Qed.

(** The branch chosen among [first :: rest] is the first one, in the
    order of the list, whose score is the highest. *)
Lemma pickBranch_first_highest (input : string) (first : Branch)
    (rest : list Branch) :
  let chosen := pickBranch input first (first :: rest) in
  exists pre post,
    first :: rest = (pre ++ chosen :: post)%list
    /\ (forall x, In x pre -> (branchScore input x < branchScore input chosen)%nat)
    /\ (forall x, In x post -> (branchScore input x <= branchScore input chosen)%nat).
Proof.
  cbn zeta. unfold pickBranch. cbn [fold_left].
  assert (Hstart : keepBest input (first, 0%nat) first
                   = (first, branchScore input first)).
  { unfold keepBest. cbn [snd].
    destruct (0 <? branchScore input first)%nat eqn:E; [reflexivity|].
    apply Nat.ltb_ge in E. f_equal. lia. }
  rewrite Hstart.
  destruct (keepBest_fold input rest first) as (Hle & Hall & Hcase).
  destruct Hcase as [[Heq Hmax] | (pre & post & Hl & Hpre & Hlt)].
  - exists [], rest. rewrite Heq. repeat split; [intros x [] | assumption].
  - exists (first :: pre), post. split; [now rewrite Hl at 1|]. split.
    + intros x [<- | Hx]; [assumption | now apply Hpre].
    + intros x Hx. apply Hall. rewrite Hl. apply in_or_app. right. now right.
Qed.

Lemma branchScore_spec (addr : string) (x : Branch) :
  branchScore (normalize addr) x = spec_branch_score addr x.
Proof. unfold branchScore, spec_branch_score. apply matchScore_spec. Qed.

Lemma or_else_truthy (v : option Z) (d : Z) :
  truthy_int v = true -> v = Some (or_else v d).
Proof.
  destruct v as [n|]; simpl; [|discriminate].
  destruct (n =? 0)%Z; [discriminate | reflexivity].
Qed.

(** C7.  A request without a branch and with a delivery address creates
    its order at the branch that the address matching picks.  For a
    delivery address and branch addresses of ASCII characters: with the
    address and the address of every branch normalized and compared
    position by position up to the shorter of the two, the branch chosen
    is the first, in the order the store lists the branches, that reaches
    the highest score.  So a branch that scores strictly higher than every
    other is chosen, and the first branch is chosen when no branch scores
    above zero.  Address "42 Elm Street" against "42 Elm St" and "99 Oak
    Ave" picks the first of the two. *)
Theorem branch_by_address (user : User) (b : OrderBody) (addr : string)
    (w w' : World num) (r : Response num) (o : Order num)
    (its : list (OrderItem num)) :
  truthy_int (body_branchId b) = false ->
  body_deliveryAddress b = Some addr ->
  addr <> "" ->
  ascii_only addr = true ->
  forallb (fun x => ascii_only (branch_address x)) (branches (db w)) = true ->
  createOrder user b w = (r, w') ->
  body r = CreatedOrder o its ->
  (exists first rest chosen pre post,
      branches (db w) = first :: rest
      /\ chosen = pickBranch (normalize addr) first (first :: rest)
      /\ order_branchId o = branch_id chosen
      /\ first :: rest = (pre ++ chosen :: post)%list
      /\ (forall x, In x pre ->
            (spec_branch_score addr x < spec_branch_score addr chosen)%nat)
      /\ (forall x, In x post ->
            (spec_branch_score addr x <= spec_branch_score addr chosen)%nat)
      /\ (forall best, In best (first :: rest) ->
            (forall x, In x (first :: rest) -> x <> best ->
               (spec_branch_score addr x < spec_branch_score addr best)%nat) ->
            chosen = best)
      /\ ((forall x, In x (first :: rest) -> spec_branch_score addr x = 0%nat) ->
          chosen = first))
  /\ (forall str,
        ascii_only str = true ->
        list_ascii_of_string (normalize str)
        = map to_lower (filter spec_is_alnum (list_ascii_of_string str)))
  /\ (forall b1 b2,
        branch_address b1 = "42 Elm St" -> branch_address b2 = "99 Oak Ave" ->
        pickBranch (normalize "42 Elm Street") b1 [b1; b2] = b1).
Proof.
  intros Hno Haddr Hne _ _ Hrun Hbody. split.
  - destruct (createOrder_inv _ _ _ Hrun)
      as [(_ & _ & msg & [Hm | Hm])
         | (customer & branchId & w1 & w2 & ds & total & o' & its' &
            _ & _ & Hassign & Htruthy & _ & Hcreate & ->)];
      try congruence.
    simpl in Hbody. injection Hbody as -> ->.
    destruct (assignBranch_pick _ _ Hno Haddr Hne Hassign)
      as (first & rest & Hbranches & Hid).
    destruct (pickBranch_first_highest (normalize addr) first rest)
      as (pre & post & Hsplit & Hpre & Hpost).
    set (chosen := pickBranch (normalize addr) first (first :: rest)) in *.
    exists first, rest, chosen, pre, post.
    assert (Hbranch : order_branchId o = branch_id chosen).
    { unfold order_create in Hcreate. rewrite store_call_run in Hcreate.
      destruct (nth 0 (faults w2) false); [discriminate|].
      cbn zeta in Hcreate.
      destruct (order_accepted (db w2) _) eqn:Haccepted; [|discriminate].
      injection Hcreate as <- _ _. simpl.
      apply (or_else_truthy _ 0) in Htruthy. congruence. }
    assert (Hpre' : forall x, In x pre ->
              (spec_branch_score addr x < spec_branch_score addr chosen)%nat).
    { intros x Hx. rewrite <- !branchScore_spec. now apply Hpre. }
    assert (Hpost' : forall x, In x post ->
              (spec_branch_score addr x <= spec_branch_score addr chosen)%nat).
    { intros x Hx. rewrite <- !branchScore_spec. now apply Hpost. }
    repeat split; try assumption.
    + (* a strictly highest score wins *)
      intros best Hin Hbest.
      destruct (Branch_eq_dec chosen best) as [Heq | Hneq]; [assumption|].
      assert (Hc : In chosen (first :: rest)).
      { rewrite Hsplit. apply in_or_app. right. now left. }
      specialize (Hbest chosen Hc Hneq).
      rewrite Hsplit in Hin. apply in_app_or in Hin as [Hin | [Heq | Hin]].
      * apply Hpre' in Hin. lia.
      * congruence.
      * apply Hpost' in Hin. lia.
    + (* no score above zero: the first branch *)
      intros Hzero. destruct pre as [|x pre].
      * simpl in Hsplit. now injection Hsplit as <- _.
      * assert (Hx : In x (first :: rest)).
        { rewrite Hsplit. now left. }
        specialize (Hpre' x (or_introl eq_refl)).
        assert (Hc : In chosen (first :: rest)).
        { rewrite Hsplit. apply in_or_app. right. now left. }
        rewrite (Hzero x Hx), (Hzero chosen Hc) in Hpre'. lia.
  - split; [intros str _; apply normalize_spec|].
    intros b1 b2 H1 H2. unfold pickBranch, keepBest, branchScore. simpl.
    rewrite H1, H2. reflexivity.
Qed.

(** ** The payment guard *)

Lemma role_is (r r' : Role) : Role_eqb r r' = true <-> r = r'.
Proof. destruct r, r'; simpl; split; intros H; congruence. Qed.

Lemma differs_spec (a : Z) (b : option Z) :
  differs a b = true <-> b <> Some a.
Proof.
  destruct b as [x|]; simpl.
  - destruct (Z.eqb_spec a x); simpl; split; intros H; congruence.
  - split; [discriminate | reflexivity].
Qed.

(** The checks of [processPayment] once both fields are present, the
    store has answered the read and the order exists. *)
Lemma processPayment_checks (user : User) (orderId : Z) (a : num) (m : string)
    (w : World num) (o : Order num) :
  ntruthy a = true ->
  m <> "" ->
  nth 0 (faults w) false = false ->
  find_order (db w) orderId = Some o ->
  processPayment user orderId (Some a) (Some m) w =
  let w1 := {| db := db w; faults := tl (faults w) |} in
  if Role_eqb (user_role user) CUSTOMER
     && negb (order_customerId o =? user_id user)%Z
  then (respond 403 (Message "Unauthorized to pay for this order"), w1)
  else if Role_eqb (user_role user) CASHIER
          && differs (order_branchId o) (user_branchId user)
  then (respond 403 (Message "Unauthorized to process payment for this order"), w1)
  else
    match payment_of (db w) orderId with
    | Some _ => (respond 400 (Message "Payment already processed for this order"), w1)
    | None =>
        if ngt (nabs (nsub a (order_totalAmount o))) hundredth
        then (respond 400 (Message "Payment amount does not match order total"), w1)
        else
          try_catch
            (bind (payment_create orderId (parseFloat a) m PaymentStatus.COMPLETED)
                  (fun payment =>
                     ret (respond 201
                            (PaymentProcessed "Payment processed successfully"
                                              payment))))
            handleError w1
    end.
Proof.
  intros Ha Hm H0 Ho. unfold processPayment.
  assert (Ht : truthy_str (Some m) = true).
  { simpl. destruct (String.eqb_spec m ""); [contradiction | reflexivity]. }
  rewrite Ha, Ht. cbn [negb orb]. unfold try_catch at 1.
  unfold bind at 1. unfold order_findUnique, store_read.
  rewrite store_call_run, H0, Ho. cbn beta iota zeta.
  destruct (Role_eqb (user_role user) CUSTOMER
            && negb (order_customerId o =? user_id user)%Z); [reflexivity|].
  destruct (Role_eqb (user_role user) CASHIER
            && differs (order_branchId o) (user_branchId user)); [reflexivity|].
  destruct (payment_of (db w) orderId); [reflexivity|].
  destruct (ngt (nabs (nsub a (order_totalAmount o))) hundredth); reflexivity.
Qed.

(** What [payment.create] leaves behind. *)
Lemma payment_create_run (orderId : Z) (a : num) (m : string) (w w' : World num)
    (r : Response num) :
  try_catch
    (bind (payment_create orderId a m PaymentStatus.COMPLETED)
          (fun payment =>
             ret (respond 201
                    (PaymentProcessed "Payment processed successfully" payment))))
    handleError w = (r, w') ->
  (r = handleError /\ db w' = db w)
  \/ exists p,
       r = respond 201 (PaymentProcessed "Payment processed successfully" p)
       /\ payment_status p = PaymentStatus.COMPLETED
       /\ payment_orderId p = orderId
       /\ payment_amount p = a
       /\ payments (db w') = (payments (db w) ++ [p])%list
       /\ orders (db w') = orders (db w).
Proof.
  unfold try_catch, bind, payment_create. rewrite store_call_run. intros Hrun.
  destruct (nth 0 (faults w) false);
    [injection Hrun as <- <-; left; now split|].
  destruct (parse_method m) as [pm|];
    [|injection Hrun as <- <-; left; now split].
  destruct (find_order (db w) orderId);
    [|injection Hrun as <- <-; left; now split].
  destruct (payment_of (db w) orderId);
    [injection Hrun as <- <-; left; now split|].
  cbn beta iota zeta in Hrun. unfold ret in Hrun. injection Hrun as <- <-. right.
  eexists. repeat split.
Qed.

Lemma processPayment_missing (user : User) (orderId : Z) (amount : option num)
    (method : option string) (w : World num) :
  fields_present amount method = false ->
  processPayment user orderId amount method w
  = (respond 400 (Message "Amount and payment method are required"), w).
Proof.
  unfold fields_present, processPayment, try_catch.
  destruct amount as [a|], method as [m|]; try reflexivity.
  destruct (ntruthy a), (truthy_str (Some m)); try discriminate; reflexivity.
Qed.

Lemma fields_present_inv (amount : option num) (method : option string) :
  fields_present amount method = true ->
  exists a m, amount = Some a /\ method = Some m
              /\ ntruthy a = true /\ m <> "".
Proof.
  unfold fields_present. destruct amount as [a|], method as [m|]; try discriminate.
  intros H. apply andb_prop in H as [Ha Hm]. exists a, m. repeat split; auto.
  intros ->. discriminate.
Qed.

Lemma processPayment_no_order (user : User) (orderId : Z) (a : num) (m : string)
    (w : World num) :
  ntruthy a = true ->
  m <> "" ->
  nth 0 (faults w) false = true \/ find_order (db w) orderId = None ->
  exists r, processPayment user orderId (Some a) (Some m) w
            = (r, {| db := db w; faults := tl (faults w) |})
            /\ (code r = 500 \/ code r = 404).
Proof.
  intros Ha Hm Hno. unfold processPayment, try_catch.
  assert (Ht : truthy_str (Some m) = true).
  { simpl. destruct (String.eqb_spec m ""); [contradiction | reflexivity]. }
  rewrite Ha, Ht. cbn [negb orb].
  unfold bind, order_findUnique, store_read. rewrite store_call_run.
  destruct (nth 0 (faults w) false); [eexists; split; [reflexivity | now left]|].
  destruct Hno as [Hno | Hno]; [discriminate|]. rewrite Hno.
  eexists; split; [reflexivity | now right].
Qed.

(** Every way through [processPayment]: a payment row is written only
    with the answer 201, and then it is the one row added, COMPLETED. *)
Lemma processPayment_writes (user : User) (orderId : Z) (amount : option num)
    (method : option string) (w w' : World num) (r : Response num) :
  processPayment user orderId amount method w = (r, w') ->
  (code r <> 201 /\ db w' = db w)
  \/ exists a p,
       amount = Some a
       /\ r = respond 201 (PaymentProcessed "Payment processed successfully" p)
       /\ payment_status p = PaymentStatus.COMPLETED
       /\ payment_orderId p = orderId
       /\ payment_amount p = parseFloat a
       /\ payments (db w') = (payments (db w) ++ [p])%list
       /\ orders (db w') = orders (db w).
Proof.
  intros Hrun.
  destruct (fields_present amount method) eqn:Hf.
  2:{ rewrite (processPayment_missing _ _ _ _ _ Hf) in Hrun.
      injection Hrun as <- <-. left. split; [discriminate | reflexivity]. }
  apply fields_present_inv in Hf as (a & m & -> & -> & Ha & Hm).
  destruct (nth 0 (faults w) false) eqn:H0.
  { destruct (@processPayment_no_order user orderId a m w Ha Hm (or_introl H0))
      as (r0 & Heq & Hcode).
    rewrite Heq in Hrun. injection Hrun as <- <-. left. split; [|reflexivity].
    destruct Hcode as [-> | ->]; discriminate. }
  destruct (find_order (db w) orderId) as [o|] eqn:Ho.
  - rewrite (@processPayment_checks user orderId a m w o Ha Hm H0 Ho) in Hrun. cbn zeta in Hrun.
    destruct (Role_eqb (user_role user) CUSTOMER
              && negb (order_customerId o =? user_id user)%Z);
      [injection Hrun as <- <-; left; split; [discriminate | reflexivity]|].
    destruct (Role_eqb (user_role user) CASHIER
              && differs (order_branchId o) (user_branchId user));
      [injection Hrun as <- <-; left; split; [discriminate | reflexivity]|].
    destruct (payment_of (db w) orderId);
      [injection Hrun as <- <-; left; split; [discriminate | reflexivity]|].
    destruct (ngt (nabs (nsub a (order_totalAmount o))) hundredth);
      [injection Hrun as <- <-; left; split; [discriminate | reflexivity]|].
    apply payment_create_run in Hrun
      as [[-> Hdb] | (p & -> & Hst & Hid & Hamt & Hps & Hos)].
    + left. split; [discriminate | exact Hdb].
    + right. exists a, p. repeat split; assumption.
  - destruct (@processPayment_no_order user orderId a m w Ha Hm (or_intror Ho))
      as (r0 & Heq & Hcode).
    rewrite Heq in Hrun. injection Hrun as <- <-. left. split; [|reflexivity].
    destruct Hcode as [-> | ->]; discriminate.
Qed.

(** C6, as the handler has it.  [processPayment] applies its checks in
    this order, and the first that fails decides the answer: a missing or
    zero amount or a missing method (400 "Amount and payment method are
    required"), then the order must exist, then the caller must be
    entitled to it (403 for a customer who does not own the order and for
    a cashier of another branch), then the order must have no payment yet
    (400 "Payment already processed for this order"), then the amount
    must be within 0.01 of the total (400 "Payment amount does not match
    order total").  Whenever the answer is not 201 the store is as it
    was, so no payment row is created; with 201 exactly one row is added,
    for this order, with status COMPLETED. *)
Theorem payment_guard (user : User) (orderId : Z) (amount : option num)
    (method : option string) (w w' : World num) (r : Response num) :
  processPayment user orderId amount method w = (r, w') ->
  (code r <> 201 -> db w' = db w)
  /\ (code r = 201 ->
        exists a p,
          amount = Some a
          /\ body r = PaymentProcessed "Payment processed successfully" p
          /\ payment_status p = PaymentStatus.COMPLETED
          /\ payment_orderId p = orderId
          /\ payment_amount p = parseFloat a
          /\ payments (db w') = (payments (db w) ++ [p])%list)
  /\ (fields_present amount method = false ->
        r = respond 400 (Message "Amount and payment method are required"))
  /\ (fields_present amount method = true ->
        nth 0 (faults w) false = false ->
        find_order (db w) orderId = None ->
        r = respond 404 (Message "Order not found"))
  /\ (forall a m o,
        amount = Some a -> method = Some m ->
        ntruthy a = true -> m <> "" ->
        nth 0 (faults w) false = false ->
        find_order (db w) orderId = Some o ->
        let unauthorized :=
          (user_role user = CUSTOMER /\ order_customerId o <> user_id user)
          \/ (user_role user = CASHIER
              /\ user_branchId user <> Some (order_branchId o)) in
        let mismatch := ngt (nabs (nsub a (order_totalAmount o))) hundredth in
        (unauthorized -> code r = 403)
        /\ (~ unauthorized -> payment_of (db w) orderId <> None ->
              r = respond 400 (Message "Payment already processed for this order"))
        /\ (~ unauthorized -> payment_of (db w) orderId = None ->
              mismatch = true ->
              r = respond 400 (Message "Payment amount does not match order total"))
        /\ (~ unauthorized -> payment_of (db w) orderId = None ->
              mismatch = false ->
              nth 1 (faults w) false = false -> parse_method m <> None ->
              code r = 201)).
Proof.
  intros Hrun. split; [|split; [|split; [|split]]].
  - intros Hcode.
    destruct (processPayment_writes _ _ _ _ _ Hrun)
      as [[_ Hdb] | (a & p & _ & -> & _)]; [assumption | now elim Hcode].
  - intros Hcode.
    destruct (processPayment_writes _ _ _ _ _ Hrun)
      as [[Hne _] | (a & p & -> & -> & Hst & Hid & Hamt & Hps & _)];
      [contradiction|].
    exists a, p. repeat split; assumption.
  - intros Hf. rewrite (processPayment_missing _ _ _ _ _ Hf) in Hrun.
    now injection Hrun as <- _.
  - intros Hf H0 Ho.
    apply fields_present_inv in Hf as (a & m & -> & -> & Ha & Hm).
    unfold processPayment, try_catch in Hrun.
    assert (Ht : truthy_str (Some m) = true).
    { simpl. destruct (String.eqb_spec m ""); [contradiction | reflexivity]. }
    rewrite Ha, Ht in Hrun. cbn [negb orb] in Hrun.
    unfold bind, order_findUnique, store_read in Hrun.
    rewrite store_call_run, H0, Ho in Hrun. now injection Hrun as <- _.
  - intros a m o -> -> Ha Hm H0 Ho unauthorized mismatch.
    rewrite (@processPayment_checks user orderId a m w o Ha Hm H0 Ho) in Hrun.
    cbn zeta in Hrun.
    assert (Hpass : ~ unauthorized ->
              Role_eqb (user_role user) CUSTOMER
              && negb (order_customerId o =? user_id user)%Z = false
              /\ Role_eqb (user_role user) CASHIER
                 && differs (order_branchId o) (user_branchId user) = false).
    { intros Hauth. split.
      - destruct (Role_eqb (user_role user) CUSTOMER
                  && negb (order_customerId o =? user_id user)%Z) eqn:Hc;
          [|reflexivity].
        exfalso. apply Hauth. left. apply andb_prop in Hc as [Hr Hn].
        apply role_is in Hr. split; [assumption|].
        destruct (Z.eqb_spec (order_customerId o) (user_id user));
          [discriminate | assumption].
      - destruct (Role_eqb (user_role user) CASHIER
                  && differs (order_branchId o) (user_branchId user)) eqn:Hk;
          [|reflexivity].
        exfalso. apply Hauth. right. apply andb_prop in Hk as [Hr Hn].
        apply role_is in Hr. apply differs_spec in Hn. now split. }
    split; [|split; [|split]].
    + intros [[Hrole Hown] | [Hrole Hbranch]].
      * rewrite Hrole in Hrun. cbn [Role_eqb andb] in Hrun.
        destruct (Z.eqb_spec (order_customerId o) (user_id user)); [contradiction|].
        cbn [negb] in Hrun. now injection Hrun as <- _.
      * rewrite Hrole in Hrun. cbn [Role_eqb andb] in Hrun.
        apply differs_spec in Hbranch. rewrite Hbranch in Hrun.
        now injection Hrun as <- _.
    + intros Hauth Hdup. destruct (Hpass Hauth) as [Hc Hk].
      rewrite Hc, Hk in Hrun.
      destruct (payment_of (db w) orderId); [|contradiction].
      now injection Hrun as <- _.
    + intros Hauth Hnone Hmis. destruct (Hpass Hauth) as [Hc Hk].
      subst mismatch. rewrite Hc, Hk, Hnone, Hmis in Hrun.
      now injection Hrun as <- _.
    + intros Hauth Hnone Hmis Hwrite Hmethod. destruct (Hpass Hauth) as [Hc Hk].
      subst mismatch. rewrite Hc, Hk, Hnone, Hmis in Hrun.
      unfold try_catch, bind, payment_create in Hrun.
      rewrite store_call_run in Hrun. cbn [db faults] in Hrun.
      rewrite nth_tl, Hwrite, Ho, Hnone in Hrun.
      destruct (parse_method m); [|contradiction].
      cbn beta iota zeta in Hrun. unfold ret in Hrun. now injection Hrun as <- _.
Qed.

(** ** Deletion *)





(** ** Listing *)

Lemma insert_desc_In {A} (key : A -> Z) (a x : A) (l : list A) :
  In x (insert_desc key a l) <-> x = a \/ In x l.
Proof.
  induction l as [|y l IH]; simpl.
  - intuition.
  - destruct (key y <? key a)%Z; simpl; [intuition|]. rewrite IH. intuition.
Qed.

Lemma sort_desc_In {A} (key : A -> Z) (x : A) (l : list A) :
  In x (sort_desc key l) <-> In x l.
Proof.
  unfold sort_desc. induction l as [|a l IH]; simpl; [reflexivity|].
  rewrite insert_desc_In, IH. intuition.
Qed.

Lemma view_order_listed (s : Store num) (l : list (Order num)) :
  map (@view_order num) (map (view s) l) = l.
Proof. induction l as [|o l IH]; simpl; [reflexivity | now rewrite IH]. Qed.

(** The filter built for a chef or a cashier whose [branchId] is not
    set. *)
Lemma whereClause_without_branch (user : User) (q : OrderQuery) :
  user_role user = CHEF \/ user_role user = CASHIER ->
  truthy_int (user_branchId user) = false ->
  whereClause user q =
  match query_status q with
  | Some st => if truthy_str (Some st) then set_where_status st no_filter
               else no_filter
  | None => no_filter
  end.
Proof.
  intros Hrole Hb. unfold whereClause.
  assert (Hscope : scope_to_branch user no_filter = no_filter).
  { unfold scope_to_branch. destruct (user_branchId user) as [b|]; [|reflexivity].
    now rewrite Hb. }
  assert (Hadm : is_admin_or_general (user_role user) = false)
    by (destruct Hrole as [-> | ->]; reflexivity).
  assert (Hbm : Role_eqb (user_role user) BRANCH_MANAGER = false)
    by (destruct Hrole as [-> | ->]; reflexivity).
  rewrite Hadm, Hbm. cbn [orb].
  replace (match user_role user with
           | CHEF | CASHIER => scope_to_branch user no_filter
           | CUSTOMER => set_where_customerId (user_id user) no_filter
           | BRANCH_MANAGER => scope_to_branch user no_filter
           | _ => no_filter
           end) with no_filter
    by (destruct Hrole as [-> | ->]; now rewrite Hscope).
  destruct (query_branchId q), (query_customerId q); reflexivity.
Qed.

(** C10.  For a chef or a cashier the listing is restricted to a branch
    only when the [branchId] of the caller is truthy.  When it is not set
    (absent, or 0) no branch filter is applied at all: on a store that
    answers, the answer is 200 with every order of the store that passes the
    status filter of the query, from whatever branch; it is neither an error
    nor an empty list. *)
Theorem staff_without_branch_list_all (user : User) (q : OrderQuery)
    (s : Store num) (f : option OrderStatus) :
  user_role user = CHEF \/ user_role user = CASHIER ->
  status_filter q = Some f ->
  where_branchId (whereClause user q)
  = (if truthy_int (user_branchId user) then user_branchId user else None)
  /\ (truthy_int (user_branchId user) = false ->
      exists listed,
        get_orders user q (reliable s) = (respond 200 (OrderList listed), reliable s)
        /\ forall o, In o (map (@view_order num) listed) <->
                     In o (orders s) /\ matches_status f (order_status o) = true).
Proof.
  intros Hrole Hf. split.
  { unfold whereClause.
    assert (Hadm : is_admin_or_general (user_role user) = false)
      by (destruct Hrole as [-> | ->]; reflexivity).
    assert (Hbm : Role_eqb (user_role user) BRANCH_MANAGER = false)
      by (destruct Hrole as [-> | ->]; reflexivity).
    rewrite Hadm, Hbm. cbn [orb].
    replace (match user_role user with
             | CHEF | CASHIER => scope_to_branch user no_filter
             | CUSTOMER => set_where_customerId (user_id user) no_filter
             | BRANCH_MANAGER => scope_to_branch user no_filter
             | _ => no_filter
             end) with (scope_to_branch user no_filter)
      by (destruct Hrole as [-> | ->]; reflexivity).
    assert (Hscope : where_branchId (scope_to_branch user no_filter)
                     = if truthy_int (user_branchId user)
                       then user_branchId user else None).
    { unfold scope_to_branch. destruct (user_branchId user) as [b|]; [|reflexivity].
      destruct (truthy_int (Some b)); reflexivity. }
    destruct (query_branchId q), (query_status q) as [st|], (query_customerId q);
      try destruct (truthy_str (Some st)); exact Hscope. }
  intros Hb.
  pose proof (@whereClause_without_branch user q Hrole Hb) as Hw.
  exists (map (view s)
            (sort_desc (@order_createdAt num)
               (filter (selected None None f) (orders s)))).
  split.
  - unfold get_orders. rewrite role_gate.
    assert (Hgate : existsb (Role_eqb (user_role user))
              [ADMIN; GENERAL_MANAGER; BRANCH_MANAGER; CHEF; CASHIER; CUSTOMER]
            = true) by (destruct Hrole as [-> | ->]; reflexivity).
    rewrite Hgate. unfold getOrders, try_catch, bind, order_findMany.
    rewrite store_call_reliable, Hw.
    unfold status_filter in Hf.
    destruct (query_status q) as [name|]; [|injection Hf as <-; reflexivity].
    destruct (truthy_str (Some name)); [|injection Hf as <-; reflexivity].
    simpl. destruct (parse_status name); [|discriminate].
    injection Hf as <-. reflexivity.
  - intros o. rewrite view_order_listed, sort_desc_In, filter_In.
    unfold selected. simpl. reflexivity.
Qed.
End Properties.

(** * The scenarios of the specification, run on the model *)

Import Scenario.

(** C1 at work: the cashier of branch 2 cancels the READY order 5; the
    answer carries the order as CANCELLED and the store holds it so. *)
Lemma transition_accepted_iff_witness :
  let run := patch_order_status cashier_of_oak 5 "CANCELLED" (reliable busy) in
  find_order busy 5 = Some order5
  /\ order_status order5 = READY
  /\ code (fst run) = 200
  /\ option_map (@order_status Q) (find_order (db (snd run)) 5) = Some CANCELLED
  /\ exists updated,
       body (fst run)
       = UpdatedOrder "Order status updated successfully"
           (view (db (snd run)) updated)
       /\ order_id updated = 5
       /\ order_status updated = CANCELLED.
Proof.
  cbn zeta. split; [reflexivity|]. split; [reflexivity|].
  destruct (@transition_accepted_iff Q busy cashier_of_oak order5 "CANCELLED"
              (fst (patch_order_status cashier_of_oak 5 "CANCELLED" (reliable busy)))
              (snd (patch_order_status cashier_of_oak 5 "CANCELLED" (reliable busy)))
              eq_refl (surjective_pairing _)) as (Hiff & Hok & _).
  assert (Hcode : code (fst (patch_order_status cashier_of_oak 5 "CANCELLED"
                               (reliable busy))) = 200).
  { apply Hiff. exists CANCELLED. simpl. tauto. }
  split; [exact Hcode|].
  destruct (Hok Hcode) as (st & updated & Hname & Hbody & Hfind & Hst & Hid & _).
  assert (st = CANCELLED) as -> by (destruct st; (reflexivity || discriminate)).
  split.
  - exact (eq_trans (f_equal (option_map (@order_status Q)) Hfind)
                    (f_equal Some Hst)).
  - exists updated. split; [exact Hbody|]. split; [exact Hid | exact Hst].
Defined.

(** Scenario C: the order is READY and paid 20.00; the cashier cancels it
    and the store accepts both writes. *)
Lemma cancellation_writes_witness :
  let run := patch_order_status cashier_of_oak 5 "CANCELLED" (reliable busy) in
  find_order busy 5 = Some order5
  /\ payment_of busy 5 = Some payment_of_order5
  /\ code (fst run) = 200
  /\ option_map (@order_status Q) (find_order (db (snd run)) 5) = Some CANCELLED
  /\ option_map (@payment_status Q) (payment_of (db (snd run)) 5)
     = Some PaymentStatus.REFUNDED.
Proof.
  cbn zeta. split; [reflexivity|]. split; [reflexivity|].
  destruct (@cancellation_writes Q (reliable busy) cashier_of_oak order5
              payment_of_order5
              (fst (patch_order_status cashier_of_oak 5 "CANCELLED" (reliable busy)))
              (snd (patch_order_status cashier_of_oak 5 "CANCELLED" (reliable busy)))
              eq_refl eq_refl eq_refl
              (or_intror (or_introl eq_refl)) (surjective_pairing _))
    as [Hall _].
  destruct (Hall (conj eq_refl (conj eq_refl eq_refl))) as (Hcode & Horder & Hpay).
  split; [exact Hcode|]. split.
  - exact (f_equal (option_map (@order_status Q)) Horder).
  - exact (f_equal (option_map (@payment_status Q)) Hpay).
Defined.

(** C2 does not hold as stated: the store accepts the read and the refund
    and rejects the write of the order status.  The handler answers 500, and
    the payment of order 5 is REFUNDED while the order is still READY. *)
Lemma cancellation_not_atomic :
  let run := patch_order_status cashier_of_oak 5 "CANCELLED"
               {| db := busy; faults := [false; false; true] |} in
  fst run = respond 500 (Message "Error updating order status")
  /\ option_map (@payment_status Q) (payment_of (db (snd run)) 5)
     = Some PaymentStatus.REFUNDED
  /\ option_map (@order_status Q) (find_order (db (snd run)) 5) = Some READY
  /\ READY <> CANCELLED.
Proof. vm_compute. repeat split. discriminate. Qed.


(** C3 fails on the handlers: neither [updateOrderStatus] nor [deleteOrder]
    looks at the branch of the order.  The cashier of branch 1 delivers
    order 5, which belongs to branch 2; the manager of branch 2 deletes
    order 6, which belongs to branch 1 and has neither items nor a
    payment.  In both cases the answer is 200 and the store is changed. *)
Lemma branch_scope_not_enforced :
  let delivered := patch_order_status cashier_of_elm 5 "DELIVERED" (reliable busy) in
  let deleted := delete_order manager_of_oak 6 (reliable busy) in
  user_branchId cashier_of_elm = Some 1
  /\ option_map (@order_branchId Q) (find_order busy 5) = Some 2
  /\ code (fst delivered) = 200
  /\ option_map (@order_status Q) (find_order (db (snd delivered)) 5) = Some DELIVERED
  /\ user_branchId manager_of_oak = Some 2
  /\ option_map (@order_branchId Q) (find_order busy 6) = Some 1
  /\ items_of busy 6 = [] /\ payment_of busy 6 = None
  /\ fst deleted = respond 200 (Message "Order deleted successfully")
  /\ find_order (db (snd deleted)) 6 = None.
Proof. vm_compute. repeat split. Qed.

(** C4 at work: the cashier asks to cancel the DELIVERED order 8. *)
Lemma terminal_orders_stay_witness :
  let run := patch_order_status cashier_of_elm 8 "CANCELLED" (reliable busy) in
  find_order busy 8 = Some order8
  /\ order_status order8 = DELIVERED
  /\ db (snd run) = busy
  /\ fst run = respond 400 (Message "Cannot transition from DELIVERED to CANCELLED").
Proof.
  cbn zeta. split; [reflexivity|]. split; [reflexivity|].
  destruct (@terminal_orders_stay Q (reliable busy) cashier_of_elm order8 "CANCELLED"
              (fst (patch_order_status cashier_of_elm 8 "CANCELLED" (reliable busy)))
              (snd (patch_order_status cashier_of_elm 8 "CANCELLED" (reliable busy)))
              eq_refl (or_introl eq_refl) (surjective_pairing _))
    as (Hdb & _ & _ & Herr).
  split; [exact Hdb|].
  apply Herr; [|reflexivity].
  exists CANCELLED. simpl. tauto.
Defined.

(** C4 does not hold as stated: the chef asks to cancel the DELIVERED
    order 8 and is answered with the role error, not with the error of the
    transition table. *)
Lemma terminal_error_is_not_always_invalid_transition :
  let run := patch_order_status chef_of_elm 8 "CANCELLED" (reliable busy) in
  option_map (@order_status Q) (find_order busy 8) = Some DELIVERED
  /\ fst run = respond 403 (Message "Chefs can only mark orders as preparing or ready")
  /\ fst run <> respond 400 (Message "Cannot transition from DELIVERED to CANCELLED").
Proof. vm_compute. repeat split. discriminate. Qed.

(** Scenario A: customer 7 orders two steaks at 10.00 and names customer 99
    in the body; the order is PENDING, totals 20.00 and belongs to
    customer 7. *)
Lemma created_order_is_priced_witness :
  exists o its w',
    createOrder customer7 two_steaks (reliable opening)
    = (respond 201 (CreatedOrder o its), w')
    /\ order_status o = PENDING
    /\ order_totalAmount o = 20%Q
    /\ order_customerId o = 7
    /\ map (@item_unitPrice Q) its = [menu_price steak].
Proof.
  eexists _, _, _. split; [reflexivity|].
  match goal with
  | |- order_status ?o = _ /\ _ =>
      destruct (@created_order_is_priced Q QNumber customer7 two_steaks
                  (reliable opening) _ _ o _ eq_refl eq_refl)
        as (_ & Hstatus & Htotal & _ & Hcustomer & _)
  end.
  split; [exact Hstatus|]. split; [exact Htotal|].
  split; [exact (Hcustomer eq_refl) | reflexivity].
Defined.

(** C6 at work: customer 7 pays the 20.00 of order 6 in cash. *)
Lemma payment_guard_witness :
  exists p w',
    processPayment customer7 6 (Some 20%Q) (Some "CASH") (reliable busy)
    = (respond 201 (PaymentProcessed "Payment processed successfully" p), w')
    /\ payment_status p = PaymentStatus.COMPLETED
    /\ payment_orderId p = 6
    /\ payments (db w') = (payments busy ++ [p])%list.
Proof.
  eexists _, _. split; [reflexivity|].
  destruct (@payment_guard Q QNumber customer7 6 (Some 20%Q) (Some "CASH")
              (reliable busy) _ _ eq_refl) as (_ & Hpaid & _).
  destruct (Hpaid eq_refl) as (a & p & _ & Hbody & Hstatus & Hid & _ & Hrows).
  injection Hbody as <-.
  split; [exact Hstatus|]. split; [exact Hid | exact Hrows].
Defined.

(** C6 does not hold as stated.  First: customer 7 offers 0 for order 6,
    which is theirs, has no payment and totals 20.00; the amount is off by
    more than 0.01, and the answer is the error for a missing field, not the
    amount mismatch.  Second: customer 9 offers 20.00 for order 5, which has
    a payment and is not theirs; the answer is 403, not the duplicate
    payment. *)
Lemma payment_errors_follow_the_order_of_the_checks :
  ngt (nabs (nsub 0%Q (order_totalAmount order6))) hundredth = true
  /\ payment_of busy 6 = None
  /\ order_customerId order6 = user_id customer7
  /\ fst (processPayment customer7 6 (Some 0%Q) (Some "CASH") (reliable busy))
     = respond 400 (Message "Amount and payment method are required")
  /\ fst (processPayment customer7 6 (Some 0%Q) (Some "CASH") (reliable busy))
     <> respond 400 (Message "Payment amount does not match order total")
  /\ payment_of busy 5 = Some payment_of_order5
  /\ fst (processPayment customer9 5 (Some 20%Q) (Some "CASH") (reliable busy))
     = respond 403 (Message "Unauthorized to pay for this order")
  /\ fst (processPayment customer9 5 (Some 20%Q) (Some "CASH") (reliable busy))
     <> respond 400 (Message "Payment already processed for this order").
Proof. vm_compute. repeat split; discriminate. Qed.


(** Scenario D: an order for "42 Elm Street", with branches at "42 Elm St"
    and "99 Oak Ave", goes to the first of the two. *)
Lemma branch_by_address_witness :
  exists o its w',
    createOrder customer7 delivered_to_elm_street (reliable opening)
    = (respond 201 (CreatedOrder o its), w')
    /\ branches opening = [elm; oak]
    /\ ascii_only "42 Elm Street" = true
    /\ map ascii_only (map branch_address (branches opening)) = [true; true]
    /\ spec_branch_score "42 Elm Street" elm = 7%nat
    /\ spec_branch_score "42 Elm Street" oak = 0%nat
    /\ order_branchId o = branch_id elm.
Proof.
  eexists _, _, _. split; [reflexivity|].
  split; [reflexivity|]. split; [reflexivity|]. split; [reflexivity|].
  split; [reflexivity|]. split; [reflexivity|].
  match goal with
  | |- order_branchId ?o = _ =>
      destruct (@branch_by_address Q QNumber customer7 delivered_to_elm_street
                  "42 Elm Street" (reliable opening) _ _ o _
                  eq_refl eq_refl ltac:(discriminate) eq_refl eq_refl
                  eq_refl eq_refl)
        as [(first & rest & chosen & pre & post & Hbranches & _ & Hid & _ & _ & _
             & Hbest & _) _]
  end.
  injection Hbranches as <- <-.
  rewrite Hid. f_equal. apply Hbest; [now left|].
  intros x [<- | [<- | []]] Hx; [now elim Hx | vm_compute; lia].
Defined.

(** C8 at work: the request asks for the soup, which is unavailable, and
    then for item 9, which the catalog does not have; the store answers
    the first call and would reject a second.  The answer is the error of
    the soup, the store is as before, and the handler has made one call. *)
Lemma item_failure_aborts_witness :
  let run := createOrder customer7 soup_and_unknown
               {| db := opening; faults := [false; true] |} in
  offending opening {| req_menuItemId := 9; req_quantity := 1 |} = true
  /\ code (fst run) <> 201
  /\ db (snd run) = opening
  /\ fst run = respond 400 (Message "Menu item Soup is not available")
  /\ faults (snd run) = [true].
Proof.
  cbn zeta. split; [reflexivity|].
  destruct (@item_failure_aborts Q QNumber customer7 soup_and_unknown
              {| db := opening; faults := [false; true] |}
              (snd (createOrder customer7 soup_and_unknown
                      {| db := opening; faults := [false; true] |}))
              (fst (createOrder customer7 soup_and_unknown
                      {| db := opening; faults := [false; true] |}))
              {| req_menuItemId := 9; req_quantity := 1 |}
              (or_intror (or_introl eq_refl)) eq_refl (surjective_pairing _))
    as (Hcode & Hdb & pre & it & post & Hsplit & Hpre & Hit & Hrun).
  split; [exact Hcode|]. split; [exact Hdb|].
  destruct pre as [|x pre].
  - injection Hsplit as <- <-.
    apply (Hrun ltac:(discriminate) ltac:(discriminate) (body_branchId soup_and_unknown)
             {| db := opening; faults := [false; true] |} eq_refl eq_refl).
    intros i Hi. apply Nat.le_0_r in Hi. now subst i.
  - injection Hsplit as <- _.
    specialize (Hpre _ (or_introl eq_refl)). discriminate Hpre.
Defined.

(** C8 does not hold as stated: the request asks for the soup, which is
    unavailable, and then for item 9, which the catalog does not have.  The
    loop stops at the soup: the answer is the error of the soup, not the
    item-not-found error, and item 9 is never looked up (the schedule would
    have rejected a second store call). *)
Lemma item_error_is_that_of_the_first_offender :
  let run := createOrder customer7 soup_and_unknown
               {| db := opening; faults := [false; true] |} in
  In {| req_menuItemId := 9; req_quantity := 1 |} (body_items soup_and_unknown)
  /\ find_menuItem opening 9 = None
  /\ fst run = respond 400 (Message "Menu item Soup is not available")
  /\ fst run <> respond 404 (Message "Menu item 9 not found")
  /\ faults (snd run) = [true].
Proof. vm_compute. repeat split; [tauto | discriminate]. Qed.

(** C9 fails on the handler: the admin deletes order 5, which is READY and
    paid.  The handler marks the payment REFUNDED and sends the deletion;
    the store refuses to delete an order that still has its payment (and
    its item).  The answer is 500 on a store that rejects no call of its
    own accord, order 5 is still there, still READY, and its payment is
    left REFUNDED. *)
Lemma paid_order_is_refunded_but_not_deleted :
  let run := delete_order admin 5 (reliable busy) in
  option_map (@order_status Q) (find_order busy 5) = Some READY
  /\ option_map (@payment_status Q) (payment_of busy 5)
     = Some PaymentStatus.COMPLETED
  /\ fst run = respond 500 (Message "Error deleting order")
  /\ find_order (db (snd run)) 5 = Some order5
  /\ option_map (@payment_status Q) (payment_of (db (snd run)) 5)
     = Some PaymentStatus.REFUNDED.
Proof. vm_compute. repeat split. Qed.

(** C10 at work: a chef with no branch lists the orders of branch 1 and of
    branch 2 alike. *)
Lemma staff_without_branch_list_all_witness :
  exists listed,
    get_orders chef_without_branch everything (reliable busy)
    = (respond 200 (OrderList listed), reliable busy)
    /\ user_branchId chef_without_branch = None
    /\ order_branchId order5 = 2 /\ In order5 (map (@view_order Q) listed)
    /\ order_branchId order6 = 1 /\ In order6 (map (@view_order Q) listed).
Proof.
  destruct (@staff_without_branch_list_all Q chef_without_branch everything busy None
              (or_introl eq_refl) eq_refl) as [_ Hall].
  destruct (Hall eq_refl) as (listed & Hrun & Hin).
  exists listed. split; [exact Hrun|]. split; [reflexivity|].
  split; [reflexivity|]. split.
  - apply Hin. split; [simpl; tauto | reflexivity].
  - split; [reflexivity|]. apply Hin. split; [simpl; tauto | reflexivity].
Defined.


(** * Further properties of the handlers *)

Section Transitions.
Context {num : Type} {NUM : JsNumber num}.

(** Every way through [updateOrderStatus], under any schedule: the request
    is refused or fails before anything is written; or it is a cancellation
    whose refund was written and whose status write was rejected; or it goes
    through. *)
Lemma updateOrderStatus_inv (user : User) (id : Z) (status : string)
    (w w' : World num) (r : Response num) :
  updateOrderStatus user id status w = (r, w') ->
  (code r <> 200 /\ db w' = db w)
  \/ (code r = 500 /\ status = "CANCELLED"
      /\ exists o p,
           find_order (db w) id = Some o
           /\ payment_of (db w) id = Some p
           /\ db w' = refund_payment (payment_id p) (db w))
  \/ (exists o st,
        find_order (db w) id = Some o
        /\ status = status_name st
        /\ In st (spec_validTransitions (order_status o))
        /\ db w' = transitioned id st (db w)
        /\ r = respond 200
                 (UpdatedOrder "Order status updated successfully"
                    (view (db w') (set_order_status st o)))).
Proof.
  unfold updateOrderStatus, try_catch. intros Hrun.
  destruct (Role_eqb (user_role user) CHEF
            && negb (includes ["PREPARING"; "READY"] status));
    [injection Hrun as <- <-; left; split; [discriminate | reflexivity]|].
  destruct (Role_eqb (user_role user) CASHIER
            && negb (includes ["DELIVERED"; "CANCELLED"] status));
    [injection Hrun as <- <-; left; split; [discriminate | reflexivity]|].
  unfold bind at 1 in Hrun. unfold order_findUnique, store_read in Hrun.
  rewrite store_call_run in Hrun.
  destruct (nth 0 (faults w) false);
    [injection Hrun as <- <-; left; split; [discriminate | reflexivity]|].
  cbn beta iota zeta in Hrun.
  destruct (find_order (db w) id) as [o|] eqn:Ho;
    [|injection Hrun as <- <-; left; split; [discriminate | reflexivity]].
  destruct (includes (validTransitions (order_status o)) status) eqn:Hvalid;
    cbn [negb] in Hrun;
    [|injection Hrun as <- <-; left; split; [discriminate | reflexivity]].
  rewrite validTransitions_spec in Hvalid.
  apply includes_names in Hvalid as [st [-> Hin]].
  rewrite cancelled_name in Hrun.
  assert (Hupd : forall s1 fs, orders s1 = orders (db w) ->
            order_update id (status_name st) {| db := s1; faults := fs |}
            = if nth 0 fs false
              then (Rejected, {| db := s1; faults := tl fs |})
              else (Resolved (view (write_order_status id st s1)
                                   (set_order_status st o)),
                    {| db := write_order_status id st s1; faults := tl fs |})).
  { intros s1 fs Hs1. unfold order_update. rewrite store_call_run. cbn [db faults].
    unfold find_order in *. rewrite Hs1, Ho, parse_status_name. reflexivity. }
  destruct (OrderStatus_eqb st CANCELLED) eqn:Hc.
  - assert (st = CANCELLED) as -> by (destruct st; try discriminate; reflexivity).
    destruct (payment_of (db w) id) as [p|] eqn:Hpay.
    + unfold bind at 1 in Hrun. unfold payment_update_refunded in Hrun.
      rewrite store_call_run in Hrun. cbn [db faults] in Hrun.
      destruct (find_payment_of _ _ Hpay) as [p' Hp']. rewrite Hp' in Hrun.
      destruct (nth 0 (tl (faults w)) false);
        [injection Hrun as <- <-; left; split; [discriminate | reflexivity]|].
      unfold bind at 1 in Hrun. rewrite Hupd in Hrun by reflexivity.
      destruct (nth 0 (tl (tl (faults w))) false).
      * injection Hrun as <- <-. right. left.
        split; [reflexivity|]. split; [reflexivity|]. now exists o, p.
      * unfold ret in Hrun. injection Hrun as <- <-. right. right.
        exists o, CANCELLED. unfold transitioned. rewrite Hpay.
        repeat split; assumption.
    + unfold bind at 1 in Hrun. unfold ret at 1 in Hrun.
      unfold bind at 1 in Hrun. rewrite Hupd in Hrun by reflexivity.
      destruct (nth 0 (tl (faults w)) false);
        [injection Hrun as <- <-; left; split; [discriminate | reflexivity]|].
      unfold ret in Hrun. injection Hrun as <- <-. right. right.
      exists o, CANCELLED. unfold transitioned. rewrite Hpay.
      repeat split; assumption.
  - assert (Hstep : transitioned id st (db w) = write_order_status id st (db w)).
    { unfold transitioned. destruct st; try reflexivity. discriminate. }
    replace (match payment_of (db w) id with
             | Some _ => ret tt
             | None => ret tt
             end) with (@ret num unit tt) in Hrun
      by (destruct (payment_of (db w) id); reflexivity).
    unfold bind at 1 in Hrun. unfold ret at 1 in Hrun.
    unfold bind at 1 in Hrun. rewrite Hupd in Hrun by reflexivity.
    destruct (nth 0 (tl (faults w)) false);
      [injection Hrun as <- <-; left; split; [discriminate | reflexivity]|].
    unfold ret in Hrun. injection Hrun as <- <-. right. right.
    exists o, st. rewrite Hstep. repeat split; assumption.
Qed.

Lemma rank_rises (a b : OrderStatus) :
  In b (spec_validTransitions a) -> (rank a < rank b)%nat.
Proof. destruct a, b; simpl; intuition (try discriminate; lia). Qed.

(** X1.  The state machine has no way back: whenever [updateOrderStatus]
    answers 200, under any schedule of store failures and for any caller, the
    order has moved to the requested status and that status is strictly
    further along PENDING < PREPARING < READY < DELIVERED, CANCELLED.  An
    order therefore goes through at most three accepted transitions. *)
Theorem accepted_transition_advances (user : User) (id : Z) (status : string)
    (w w' : World num) (r : Response num) (o : Order num) :
  find_order (db w) id = Some o ->
  updateOrderStatus user id status w = (r, w') ->
  code r = 200 ->
  exists o',
    find_order (db w') id = Some o'
    /\ status = status_name (order_status o')
    /\ (rank (order_status o) < rank (order_status o'))%nat.
Proof.
  intros Ho Hrun Hcode.
  destruct (updateOrderStatus_inv _ _ _ _ Hrun)
    as [[Hne _] | [(H500 & _) | (o1 & st & Ho1 & -> & Hin & -> & ->)]];
    [contradiction | congruence |].
  assert (o1 = o) as -> by congruence.
  exists (set_order_status st o). split; [now apply find_order_transitioned|].
  split; [reflexivity|]. now apply rank_rises.
Qed.

Lemma find_order_other (s : Store num) (id id' : Z) (st : OrderStatus) :
  id' <> id ->
  find_order (write_order_status id st s) id' = find_order s id'.
Proof.
  intros Hne. unfold find_order, write_order_status. simpl.
  induction (orders s) as [|x l IH]; simpl; [reflexivity|].
  destruct (Z.eqb_spec (order_id x) id) as [Hx | Hx]; simpl.
  - destruct (Z.eqb_spec (order_id x) id'); [congruence | exact IH].
  - destruct (order_id x =? id')%Z; [reflexivity | exact IH].
Qed.

(** X2.  An accepted transition writes the status of the one order and
    nothing else of it: the total, the customer, the branch, the creation
    time and the delivery address of the order are as before, every other
    order is as before, and the order items, the catalog and the branches
    are not touched. *)
Theorem accepted_transition_frame (user : User) (id : Z) (status : string)
    (w w' : World num) (r : Response num) (o : Order num) :
  find_order (db w) id = Some o ->
  updateOrderStatus user id status w = (r, w') ->
  code r = 200 ->
  (exists o',
      find_order (db w') id = Some o'
      /\ order_totalAmount o' = order_totalAmount o
      /\ order_customerId o' = order_customerId o
      /\ order_branchId o' = order_branchId o
      /\ order_createdAt o' = order_createdAt o
      /\ order_deliveryAddress o' = order_deliveryAddress o)
  /\ (forall id', id' <> id -> find_order (db w') id' = find_order (db w) id')
  /\ orderItems (db w') = orderItems (db w)
  /\ menuItems (db w') = menuItems (db w)
  /\ branches (db w') = branches (db w).
Proof.
  intros Ho Hrun Hcode.
  destruct (updateOrderStatus_inv _ _ _ _ Hrun)
    as [[Hne _] | [(H500 & _) | (o1 & st & Ho1 & -> & Hin & -> & ->)]];
    [contradiction | congruence |].
  assert (o1 = o) as -> by congruence.
  split.
  { exists (set_order_status st o). split; [now apply find_order_transitioned|].
    repeat split. }
  split.
  { intros id' Hne. unfold transitioned. rewrite find_order_other by assumption.
    destruct st; try reflexivity. destruct (payment_of (db w) id); reflexivity. }
  unfold transitioned.
  destruct st; try (repeat split; reflexivity);
    destruct (payment_of (db w) id); repeat split; reflexivity.
Qed.

Lemma refund_rows (l : list (Payment num)) (id : Z) :
  Forall2 (fun p p' => p' = p \/ p' = set_payment_status PaymentStatus.REFUNDED p)
          l
          (map (fun p => if (payment_id p =? id)%Z
                         then set_payment_status PaymentStatus.REFUNDED p else p) l).
Proof.
  induction l as [|p l IH]; simpl; constructor; [|exact IH].
  destruct (payment_id p =? id)%Z; [now right | now left].
Qed.

Lemma same_rows (l : list (Payment num)) :
  Forall2 (fun p p' => p' = p \/ p' = set_payment_status PaymentStatus.REFUNDED p)
          l l.
Proof. induction l; constructor; [now left | assumption]. Qed.

(** The payments table across [updateOrderStatus]. *)
Lemma updateOrderStatus_rows (user : User) (id : Z) (status : string)
    (w w' : World num) (r : Response num) :
  updateOrderStatus user id status w = (r, w') ->
  Forall2 (fun p p' => p' = p \/ p' = set_payment_status PaymentStatus.REFUNDED p)
          (payments (db w)) (payments (db w'))
  /\ (status <> "CANCELLED" -> payments (db w') = payments (db w)).
Proof.
  intros Hrun.
  destruct (updateOrderStatus_inv _ _ _ _ Hrun)
    as [[_ ->] | [(_ & -> & o & p & _ & _ & ->)
                 | (o & st & Ho & -> & Hin & -> & _)]].
  - split; [apply same_rows | reflexivity].
  - split; [apply refund_rows | intros H; now elim H].
  - unfold transitioned. destruct st;
      try (split; [apply same_rows | reflexivity]).
    destruct (payment_of (db w) id);
      (split; [first [apply refund_rows | apply same_rows] | intros H; now elim H]).
Qed.

(** X3.  Whatever the request, the caller and the schedule, a status
    transition adds no payment, removes none and rewrites none: every row
    of the payments table is as before or is the same row marked REFUNDED.
    When the requested status is not CANCELLED the table is untouched. *)
Theorem transition_leaves_payments (user : User) (id : Z) (status : string)
    (w w' : World num) (r : Response num) :
  updateOrderStatus user id status w = (r, w') ->
  Forall2 (fun p p' => p' = p \/ p' = set_payment_status PaymentStatus.REFUNDED p)
          (payments (db w)) (payments (db w'))
  /\ (status <> "CANCELLED" -> payments (db w') = payments (db w)).
Proof. apply updateOrderStatus_rows. Qed.
End Transitions.


Section Tables_kept.
Context {num : Type} {NUM : JsNumber num}.

(** Every way through [deleteOrder], under any schedule, in terms of the
    tables: the orders are as before or without the order; the payments are
    as before or with the payment of the order marked REFUNDED. *)
Lemma deleteOrder_tables (user : User) (id : Z) (w w' : World num)
    (r : Response num) :
  deleteOrder user id w = (r, w') ->
  (orders (db w') = orders (db w)
   \/ (code r = 200 /\ orders (db w') = orders (remove_order id (db w))))
  /\ Forall2 (fun p p' => p' = p \/ p' = set_payment_status PaymentStatus.REFUNDED p)
             (payments (db w)) (payments (db w'))
  /\ orderItems (db w') = orderItems (db w)
  /\ menuItems (db w') = menuItems (db w)
  /\ branches (db w') = branches (db w).
Proof.
  unfold deleteOrder, try_catch. intros Hrun.
  unfold bind at 1 in Hrun. unfold order_findUnique, store_read in Hrun.
  rewrite store_call_run in Hrun.
  assert (Hsame : forall r0 fs, (r0, {| db := db w; faults := fs |}) = (r, w') ->
            (orders (db w') = orders (db w)
             \/ (code r = 200 /\ orders (db w') = orders (remove_order id (db w))))
            /\ Forall2 (fun p p' => p' = p
                          \/ p' = set_payment_status PaymentStatus.REFUNDED p)
                       (payments (db w)) (payments (db w'))
            /\ orderItems (db w') = orderItems (db w)
            /\ menuItems (db w') = menuItems (db w)
            /\ branches (db w') = branches (db w)).
  { intros r0 fs [= <- <-]. simpl. repeat split; [now left | apply same_rows]. }
  destruct (nth 0 (faults w) false); [now apply Hsame in Hrun|].
  cbn beta iota zeta in Hrun.
  destruct (negb (includes ["ADMIN"; "BRANCH_MANAGER"] (role_name (user_role user))));
    [now apply Hsame in Hrun|].
  destruct (find_order (db w) id) as [o|] eqn:Ho; [|now apply Hsame in Hrun].
  destruct (OrderStatus_eqb (order_status o) DELIVERED); [now apply Hsame in Hrun|].
  destruct (payment_of (db w) id) as [p|] eqn:Hpay.
  - unfold bind at 1 in Hrun. unfold payment_update_refunded in Hrun.
    rewrite store_call_run in Hrun. cbn [db faults] in Hrun.
    destruct (find_payment_of _ _ Hpay) as [p' Hp']. rewrite Hp' in Hrun.
    destruct (nth 0 (tl (faults w)) false); [now apply Hsame in Hrun|].
    unfold bind at 1 in Hrun. unfold order_delete in Hrun.
    rewrite store_call_run in Hrun. cbn [db faults] in Hrun.
    assert (Ho' : find_order (refund_payment (payment_id p) (db w)) id = Some o)
      by exact Ho.
    rewrite Ho', (payment_of_refunded _ _ Hpay) in Hrun.
    destruct (nth 0 (tl (tl (faults w))) false);
      [|destruct (items_of (refund_payment (payment_id p) (db w)) id)];
      injection Hrun as <- <-; simpl; repeat split;
      solve [now left | apply refund_rows].
  - unfold bind at 1 in Hrun. unfold ret at 1 in Hrun.
    unfold bind at 1 in Hrun. unfold order_delete in Hrun.
    rewrite store_call_run in Hrun. cbn [db faults] in Hrun.
    rewrite Ho, Hpay in Hrun.
    destruct (nth 0 (tl (faults w)) false);
      [injection Hrun as <- <-; simpl; repeat split; [now left | apply same_rows]|].
    destruct (items_of (db w) id).
    + cbn beta iota zeta in Hrun. unfold ret in Hrun. injection Hrun as <- <-.
      cbn [db code respond].
      repeat split; [right; split; reflexivity | apply same_rows].
    + injection Hrun as <- <-. simpl. repeat split; [now left | apply same_rows].
Qed.

(** X4.  [deleteOrder] deletes the order row and nothing else.  Whatever the
    caller and the schedule, the order items are all still there afterwards,
    those of the order asked for included, and so is every payment row: the
    handler issues no delete for either, it only marks the payment
    REFUNDED. *)
Theorem deletion_leaves_items_and_payments (user : User) (id : Z)
    (w w' : World num) (r : Response num) :
  deleteOrder user id w = (r, w') ->
  orderItems (db w') = orderItems (db w)
  /\ items_of (db w') id = items_of (db w) id
  /\ map (@payment_id num) (payments (db w')) = map (@payment_id num) (payments (db w))
  /\ map (@payment_orderId num) (payments (db w'))
     = map (@payment_orderId num) (payments (db w)).
Proof.
  intros Hrun. destruct (deleteOrder_tables _ _ _ Hrun) as (_ & Hrows & Hitems & _).
  split; [assumption|]. split; [unfold items_of; now rewrite Hitems|].
  induction Hrows as [|p p' l l' [-> | ->] _ [IH1 IH2]]; simpl;
    [split; reflexivity | |]; split; f_equal; assumption.
Qed.

Lemma rows_keep_orders (l l' : list (Payment num)) :
  Forall2 (fun p p' => p' = p \/ p' = set_payment_status PaymentStatus.REFUNDED p)
          l l' ->
  map (@payment_orderId num) l' = map (@payment_orderId num) l.
Proof.
  induction 1 as [|p p' l l' [-> | ->] _ IH]; simpl; [reflexivity | |];
    f_equal; assumption.
Qed.

Lemma payment_of_None (s : Store num) (id : Z) :
  payment_of s id = None -> ~ In id (map (@payment_orderId num) (payments s)).
Proof.
  unfold payment_of. intros Hnone Hin. apply in_map_iff in Hin as [p [Hp Hin]].
  apply (find_none _ _ Hnone) in Hin. rewrite Hp, Z.eqb_refl in Hin. discriminate.
Qed.

(** A payment is created only for an order that has none. *)
Lemma processPayment_fresh (user : User) (orderId : Z) (amount : option num)
    (method : option string) (w w' : World num) (r : Response num) :
  processPayment user orderId amount method w = (r, w') ->
  code r = 201 ->
  payment_of (db w) orderId = None.
Proof.
  intros Hrun Hcode.
  destruct (fields_present amount method) eqn:Hf.
  2:{ rewrite (processPayment_missing _ _ _ _ _ Hf) in Hrun.
      injection Hrun as <- <-. discriminate. }
  apply fields_present_inv in Hf as (a & m & -> & -> & Ha & Hm).
  destruct (nth 0 (faults w) false) eqn:H0.
  { destruct (@processPayment_no_order _ _ user orderId a m w Ha Hm (or_introl H0))
      as (r0 & Heq & Hc).
    rewrite Heq in Hrun. injection Hrun as <- <-.
    destruct Hc as [Hc | Hc]; rewrite Hc in Hcode; discriminate. }
  destruct (find_order (db w) orderId) as [o|] eqn:Ho.
  - rewrite (@processPayment_checks _ _ user orderId a m w o Ha Hm H0 Ho) in Hrun.
    cbn zeta in Hrun.
    destruct (Role_eqb (user_role user) CUSTOMER
              && negb (order_customerId o =? user_id user)%Z);
      [injection Hrun as <- <-; discriminate|].
    destruct (Role_eqb (user_role user) CASHIER
              && differs (order_branchId o) (user_branchId user));
      [injection Hrun as <- <-; discriminate|].
    destruct (payment_of (db w) orderId);
      [injection Hrun as <- <-; discriminate | reflexivity].
  - destruct (@processPayment_no_order _ _ user orderId a m w Ha Hm (or_intror Ho))
      as (r0 & Heq & Hc).
    rewrite Heq in Hrun. injection Hrun as <- <-.
    destruct Hc as [Hc | Hc]; rewrite Hc in Hcode; discriminate.
Qed.

Lemma createOrder_payments (user : User) (b : OrderBody) (w w' : World num)
    (r : Response num) :
  createOrder user b w = (r, w') -> payments (db w') = payments (db w).
Proof.
  intros Hrun.
  destruct (createOrder_inv _ _ _ Hrun)
    as [(_ & -> & _)
       | (customer & branchId & w1 & w2 & ds & total & o & its &
          _ & _ & Hassign & _ & Hprice & Hcreate & _)]; [reflexivity|].
  pose proof (assignBranch_db _ _ Hassign) as Hdb1.
  pose proof (priceItems_run _ _ _ _ Hprice) as [Hdb2 _].
  unfold order_create in Hcreate. rewrite store_call_run in Hcreate.
  destruct (nth 0 (faults w2) false); [discriminate|].
  cbn zeta in Hcreate.
  destruct (order_accepted (db w2) _) eqn:Haccepted; [|discriminate].
  injection Hcreate as _ _ <-. simpl. congruence.
Qed.

(** X5.  At most one payment per order is an invariant of the four
    writing handlers, run one after the other: if no two payment rows of
    the store are for the same order, then this is still so after
    [processPayment], [updateOrderStatus], [deleteOrder] or [createOrder],
    whatever the request, the caller and the schedule of store failures. *)
Theorem one_payment_per_order_kept (w : World num) :
  one_payment_per_order (db w) ->
  (forall user orderId amount method r w',
      processPayment user orderId amount method w = (r, w') ->
      one_payment_per_order (db w'))
  /\ (forall user id status r w',
        updateOrderStatus user id status w = (r, w') ->
        one_payment_per_order (db w'))
  /\ (forall user id r w',
        deleteOrder user id w = (r, w') -> one_payment_per_order (db w'))
  /\ (forall user b r w',
        createOrder user b w = (r, w') -> one_payment_per_order (db w')).
Proof.
  unfold one_payment_per_order. intros Hinv. repeat split.
  - intros user orderId amount method r w' Hrun.
    destruct (processPayment_writes _ _ _ _ _ Hrun)
      as [[_ ->] | (a & p & _ & Hr & _ & Hid & _ & Hrows & _)]; [assumption|].
    assert (Hnone : payment_of (db w) orderId = None).
    { apply (processPayment_fresh _ _ _ _ _ Hrun). now rewrite Hr. }
    rewrite Hrows, map_app. simpl. rewrite Hid.
    apply NoDup_app; [assumption | repeat constructor; intros [] |].
    intros x Hx [<- | []]. now apply (payment_of_None _ _ Hnone).
  - intros user id status r w' Hrun.
    destruct (updateOrderStatus_rows _ _ _ _ Hrun) as [Hrows _].
    now rewrite (rows_keep_orders Hrows).
  - intros user id r w' Hrun.
    destruct (deleteOrder_tables _ _ _ Hrun) as (_ & Hrows & _).
    now rewrite (rows_keep_orders Hrows).
  - intros user b r w' Hrun. now rewrite (createOrder_payments _ _ _ Hrun).
Qed.
End Tables_kept.


Section Listing.
Context {num : Type} {NUM : JsNumber num}.

Lemma whereClause_status (user : User) (q : OrderQuery) :
  where_status (whereClause user q)
  = match query_status q with
    | Some st => if truthy_str (Some st) then Some st else None
    | None => None
    end.
Proof.
  unfold whereClause, scope_to_branch.
  destruct (user_role user), (user_branchId user) as [b|], (query_branchId q),
    (query_status q) as [st|], (query_customerId q); simpl;
    try destruct (b =? 0)%Z; try destruct (st =? ""); reflexivity.
Qed.

(** Every way through [getOrders], under any schedule: nothing is written,
    and the answer is either the generic error or the selected orders of
    the store, newest first. *)
Lemma getOrders_inv (user : User) (q : OrderQuery) (w w' : World num)
    (r : Response num) :
  getOrders user q w = (r, w') ->
  db w' = db w
  /\ (r = handleError
      \/ exists f,
           status_filter q = Some f
           /\ r = respond 200
                    (OrderList
                       (map (view (db w))
                          (sort_desc (@order_createdAt num)
                             (filter (selected (where_branchId (whereClause user q))
                                               (where_customerId (whereClause user q))
                                               f)
                                     (orders (db w))))))).
Proof.
  unfold getOrders, try_catch, bind, order_findMany. rewrite store_call_run.
  rewrite whereClause_status. unfold status_filter. intros Hrun.
  destruct (nth 0 (faults w) false);
    [injection Hrun as <- <-; split; [reflexivity | now left]|].
  destruct (query_status q) as [name|].
  - destruct (truthy_str (Some name)).
    + destruct (parse_status name) as [st|]; injection Hrun as <- <-;
        (split; [reflexivity|]); [right; now exists (Some st) | now left].
    + injection Hrun as <- <-. split; [reflexivity|]. right. now exists None.
  - injection Hrun as <- <-. split; [reflexivity|]. right. now exists None.
Qed.

Lemma insert_desc_perm {A} (key : A -> Z) (x : A) (l : list A) :
  Permutation (insert_desc key x l) (x :: l).
Proof.
  induction l as [|y l IH]; simpl; [reflexivity|].
  destruct (key y <? key x)%Z; [reflexivity|].
  rewrite IH. apply perm_swap.
Qed.

Lemma sort_desc_perm {A} (key : A -> Z) (l : list A) :
  Permutation (sort_desc key l) l.
Proof.
  unfold sort_desc. induction l as [|x l IH]; simpl; [reflexivity|].
  rewrite insert_desc_perm. now constructor.
Qed.

Lemma insert_desc_sorted {A} (key : A -> Z) (x : A) (l : list A) :
  StronglySorted (fun a b => (key b <= key a)%Z) l ->
  StronglySorted (fun a b => (key b <= key a)%Z) (insert_desc key x l).
Proof.
  induction 1 as [|y l Hs IH Hy]; simpl.
  - constructor; constructor.
  - destruct (Z.ltb_spec (key y) (key x)).
    + constructor; [now constructor|].
      constructor; [lia|]. rewrite Forall_forall in *. intros z Hz.
      specialize (Hy z Hz). simpl in Hy. lia.
    + constructor; [assumption|].
      rewrite Forall_forall in *. intros z Hz.
      apply insert_desc_In in Hz as [-> | Hz]; [assumption | now apply Hy].
Qed.

Lemma sort_desc_sorted {A} (key : A -> Z) (l : list A) :
  StronglySorted (fun a b => (key b <= key a)%Z) (sort_desc key l).
Proof.
  unfold sort_desc. induction l as [|x l IH]; simpl;
    [constructor | now apply insert_desc_sorted].
Qed.

(** X6.  A listing is newest first and complete: the orders that
    [getOrders] answers with are, up to their order, exactly the orders of
    the store that pass the filter, none missing and none twice, and no
    order is listed before a more recent one.  The listing writes nothing,
    under any schedule. *)
Theorem listing_newest_first (user : User) (q : OrderQuery) (w w' : World num)
    (r : Response num) (listed : list (OrderView num)) :
  getOrders user q w = (r, w') ->
  body r = OrderList listed ->
  db w' = db w
  /\ StronglySorted not_older (map (@view_order num) listed)
  /\ exists f,
       status_filter q = Some f
       /\ Permutation (map (@view_order num) listed)
            (filter (selected (where_branchId (whereClause user q))
                              (where_customerId (whereClause user q)) f)
                    (orders (db w))).
Proof.
  intros Hrun Hbody.
  destruct (getOrders_inv _ _ _ Hrun) as [Hdb [-> | (f & Hf & ->)]];
    [discriminate|].
  simpl in Hbody. injection Hbody as <-. split; [assumption|].
  rewrite view_order_listed. split.
  - apply (sort_desc_sorted (@order_createdAt num)).
  - exists f. split; [assumption | apply sort_desc_perm].
Qed.

Lemma listed_selected (user : User) (q : OrderQuery) (w w' : World num)
    (r : Response num) (listed : list (OrderView num)) :
  getOrders user q w = (r, w') ->
  body r = OrderList listed ->
  exists f,
    status_filter q = Some f
    /\ forall o, In o (map (@view_order num) listed) <->
                 In o (orders (db w))
                 /\ matches_int (where_branchId (whereClause user q)) (order_branchId o)
                    = true
                 /\ matches_int (where_customerId (whereClause user q))
                      (order_customerId o) = true
                 /\ matches_status f (order_status o) = true.
Proof.
  intros Hrun Hbody.
  destruct (getOrders_inv _ _ _ Hrun) as [_ [-> | (f & Hf & ->)]]; [discriminate|].
  simpl in Hbody. injection Hbody as <-. exists f. split; [assumption|].
  intros o. rewrite view_order_listed, sort_desc_In, filter_In.
  unfold selected. rewrite !andb_true_iff. tauto.
Qed.

(** X7.  What a caller sees in a listing is fixed by who they are, not by
    the query: a customer is only ever shown their own orders, and a chef,
    cashier or branch manager with a branch is only ever shown the orders
    of that branch, whatever [branchId] or [customerId] the query names and
    whatever the store does. *)
Theorem listing_is_scoped (user : User) (q : OrderQuery) (w w' : World num)
    (r : Response num) (listed : list (OrderView num)) :
  getOrders user q w = (r, w') ->
  body r = OrderList listed ->
  (user_role user = CUSTOMER ->
     forall v, In v listed -> order_customerId (view_order v) = user_id user)
  /\ (forall b,
        user_role user = CHEF \/ user_role user = CASHIER
        \/ user_role user = BRANCH_MANAGER ->
        user_branchId user = Some b -> b <> 0 ->
        forall v, In v listed -> order_branchId (view_order v) = b).
Proof.
  intros Hrun Hbody.
  destruct (listed_selected _ _ _ Hrun Hbody) as (f & _ & Hin).
  split.
  - intros Hrole v Hv.
    apply (in_map (@view_order num)) in Hv. apply Hin in Hv as (_ & _ & Hc & _).
    assert (Hw : where_customerId (whereClause user q) = Some (user_id user)).
    { unfold whereClause. rewrite Hrole. simpl.
      destruct (query_branchId q), (query_status q) as [st|], (query_customerId q);
        simpl; try destruct (st =? ""); reflexivity. }
    rewrite Hw in Hc. simpl in Hc. now apply Z.eqb_eq in Hc.
  - intros b Hrole Hb Hnz v Hv.
    apply (in_map (@view_order num)) in Hv. apply Hin in Hv as (_ & Hbr & _ & _).
    assert (Hw : where_branchId (whereClause user q) = Some b).
    { unfold whereClause, scope_to_branch. rewrite Hb.
      assert (Ht : truthy_int (Some b) = true).
      { simpl. destruct (Z.eqb_spec b 0); [contradiction | reflexivity]. }
      rewrite Ht.
      destruct Hrole as [-> | [-> | ->]]; simpl;
        destruct (query_branchId q), (query_status q) as [st|], (query_customerId q);
        simpl; try destruct (st =? ""); reflexivity. }
    rewrite Hw in Hbr. simpl in Hbr. now apply Z.eqb_eq in Hbr.
Qed.

(** X8.  For an admin or a general manager the query is the whole filter:
    the listing holds exactly the orders of the store of the branch, of the
    customer and in the status that the query names, each of the three
    being optional; with an empty query it holds every order. *)
Theorem admin_listing_filters (user : User) (q : OrderQuery) (w w' : World num)
    (r : Response num) (listed : list (OrderView num)) :
  user_role user = ADMIN \/ user_role user = GENERAL_MANAGER ->
  getOrders user q w = (r, w') ->
  body r = OrderList listed ->
  exists f,
    status_filter q = Some f
    /\ forall o, In o (map (@view_order num) listed) <->
                 In o (orders (db w))
                 /\ matches_int (query_branchId q) (order_branchId o) = true
                 /\ matches_int (query_customerId q) (order_customerId o) = true
                 /\ matches_status f (order_status o) = true.
Proof.
  intros Hrole Hrun Hbody.
  destruct (listed_selected _ _ _ Hrun Hbody) as (f & Hf & Hin).
  exists f. split; [assumption|].
  assert (Hb : where_branchId (whereClause user q) = query_branchId q).
  { unfold whereClause.
    destruct Hrole as [-> | ->]; simpl;
      destruct (query_branchId q), (query_status q) as [st|], (query_customerId q);
      simpl; try destruct (st =? ""); reflexivity. }
  assert (Hc : where_customerId (whereClause user q) = query_customerId q).
  { unfold whereClause.
    destruct Hrole as [-> | ->]; simpl;
      destruct (query_branchId q), (query_status q) as [st|], (query_customerId q);
      simpl; try destruct (st =? ""); reflexivity. }
  intros o. rewrite Hin, Hb, Hc. reflexivity.
Qed.
End Listing.


Section Creation.
Context {num : Type} {NUM : JsNumber num}.


Lemma existsb_In (x : Z) (l : list Z) : In x l -> existsb (Z.eqb x) l = true.
Proof.
  intros Hin. apply existsb_exists. exists x. split; [assumption | apply Z.eqb_refl].
Qed.

Lemma branch_stored (s : Store num) (bid : Z) :
  In bid (map branch_id (branches s)) ->
  existsb (fun b => (branch_id b =? bid)%Z) (branches s) = true.
Proof.
  intros Hin. apply in_map_iff in Hin as (b & <- & Hb).
  apply existsb_exists. exists b. split; [assumption | apply Z.eqb_refl].
Qed.

(** X10.  The handler does not check the quantity of a requested item; the
    only check is the one of the column type.  A caller with an id who is
    a row of the users table and not a chef asks for one available item
    at a branch that the store has, on a store that rejects no call of its
    own accord.  For every quantity that is a 32-bit integer, zero and
    negative ones included, the order is created with that quantity and
    with the total 0 + price * quantity; for a quantity outside that range
    the store rejects the order, the answer is 500 and nothing is
    written. *)
Theorem any_quantity_is_accepted (user : User) (bid qty : Z) (m : MenuItem num)
    (s : Store num) :
  user_id user <> 0 ->
  user_role user <> CHEF ->
  In (user_id user) (userIds s) ->
  bid <> 0 ->
  In bid (map branch_id (branches s)) ->
  find_menuItem s (menu_id m) = Some m ->
  menu_isAvailable m = true ->
  let request :=
    {| body_branchId := Some bid;
       body_items := [{| req_menuItemId := menu_id m; req_quantity := qty |}];
       body_deliveryAddress := None;
       body_customerId := None |} in
  (int4 qty = true ->
   exists o its w',
     createOrder user request (reliable s) = (respond 201 (CreatedOrder o its), w')
     /\ order_totalAmount o = nadd nzero (nmul (menu_price m) (of_int qty))
     /\ map (@item_quantity num) its = [qty]
     /\ In o (orders (db w')))
  /\ (int4 qty = false ->
      createOrder user request (reliable s) = (handleError, reliable s)).
Proof.
  intros Hid Hrole Huser Hbid Hbranch Hm Hav request.
  assert (Hrun : exists o its w',
            createOrder user request (reliable s)
            = (if int4 qty then (respond 201 (CreatedOrder o its), w')
               else (handleError, reliable s))
            /\ order_totalAmount o = nadd nzero (nmul (menu_price m) (of_int qty))
            /\ map (@item_quantity num) its = [qty]
            /\ In o (orders (db w'))).
  { subst request. unfold createOrder, try_catch.
    assert (Hu : truthy_int (Some (user_id user)) = true).
    { simpl. destruct (Z.eqb_spec (user_id user) 0); [contradiction | reflexivity]. }
    rewrite Hu. cbn [negb].
    assert (Hcust : actualCustomerId (user_role user) None (user_id user)
                    = Some (user_id user)).
    { destruct (user_role user); try reflexivity. contradiction. }
    cbn [body_customerId body_items]. rewrite Hcust.
    unfold bind at 1. unfold assignBranch. cbn [body_deliveryAddress body_branchId].
    unfold ret at 1.
    assert (Ht : truthy_int (Some bid) = true).
    { simpl. destruct (Z.eqb_spec bid 0); [contradiction | reflexivity]. }
    rewrite Ht. cbn [negb].
    unfold bind at 1. cbn [priceItems].
    unfold bind at 1. unfold menuItem_findUnique, store_read.
    rewrite store_call_reliable. cbn [req_menuItemId]. rewrite Hm, Hav.
    cbn [negb]. unfold ret at 1. unfold bind at 1.
    unfold order_create. rewrite store_call_reliable. unfold order_accepted.
    cbn [data_branchId data_customerId data_items app forallb draft_menuItemId
         draft_quantity req_menuItemId req_quantity or_else].
    assert (Hb : (if (bid =? 0)%Z then 0%Z else bid) = bid)
      by (destruct (Z.eqb_spec bid 0); [contradiction | reflexivity]).
    rewrite ?Hb, (branch_stored _ _ Hbranch), (existsb_In _ _ Huser), Hm.
    cbn [andb]. rewrite Bool.andb_true_r.
    destruct (int4 qty).
    - unfold ret. eexists _, _, _. split; [reflexivity|].
      simpl. repeat split. apply in_or_app. right. now left.
    - exists {| order_id := 0; order_status := PENDING;
                order_totalAmount := nadd nzero (nmul (menu_price m) (of_int qty));
                order_createdAt := 0; order_deliveryAddress := None;
                order_customerId := 0; order_branchId := 0 |},
             [{| item_id := 0; item_quantity := qty; item_unitPrice := nzero;
                 item_subtotal := nzero; item_orderId := 0; item_menuItemId := 0 |}].
      eexists (reliable (with_orders s [_])). split; [reflexivity|].
      simpl. repeat split. now left. }
  destruct Hrun as (o & its & w' & Hrun & Htotal & Hqty & Hin).
  rewrite Hrun. split; intros ->; [|reflexivity].
  exists o, its, w'. repeat split; assumption.
Qed.
End Creation.

(** ** Reading payments and receipts *)

Section Receipts_read.
Context {num : Type} {NUM : JsNumber num}.

Lemma role_and_run {A : Type} (user : User) (role : Role) (order : option A)
    (test : A -> bool) (w : World num) :
  @role_and num A user role order test w =
  if Role_eqb (user_role user) role
  then match order with
       | Some o => (Resolved (test o), w)
       | None => (Rejected, w)
       end
  else (Resolved false, w).
Proof.
  unfold role_and. destruct (Role_eqb (user_role user) role); [|reflexivity].
  destruct order; reflexivity.
Qed.

Lemma find_over_app {A : Type} (f : A -> bool) (l l' : list A) :
  find f (l ++ l')%list
  = match find f l with
    | Some x => Some x
    | None => find f l'
    end.
Proof.
  induction l as [|x l IH]; simpl; [reflexivity|].
  destruct (f x); [reflexivity | exact IH].
Qed.

Lemma Role_eqb_eq (a b : Role) : Role_eqb a b = true <-> a = b.
Proof. destruct a, b; simpl; split; (reflexivity || discriminate). Qed.

Lemma differs_false (a : Z) (b : option Z) : differs a b = false <-> b = Some a.
Proof.
  unfold differs. destruct b as [x|]; [|split; discriminate].
  rewrite Bool.negb_false_iff, Z.eqb_eq. split; [now intros -> | now intros [= ->]].
Qed.

(** Every way through [getPayment], under any schedule. *)
Lemma getPayment_inv (user : User) (orderId : Z) (w w' : World num)
    (r : ReceiptResponse num) :
  getPayment user orderId w = (r, w') ->
  db w' = db w
  /\ (receipt_code r = 200 ->
      exists p,
        payment_of (db w) orderId = Some p
        /\ r = receipt 200
                 (PaymentDetails p
                    (option_map owner_of (find_order (db w) (payment_orderId p))))
        /\ (user_role user = CUSTOMER ->
            exists o, find_order (db w) (payment_orderId p) = Some o
                      /\ order_customerId o = user_id user)
        /\ (user_role user = CASHIER ->
            exists o, find_order (db w) (payment_orderId p) = Some o
                      /\ user_branchId user = Some (order_branchId o))).
Proof.
  unfold getPayment, attempt, payment_findUnique_orderId, store_read.
  unfold bind at 1. rewrite store_call_run. intros Hrun.
  destruct (nth 0 (faults w) false).
  { injection Hrun as <- <-. split; [reflexivity | discriminate]. }
  destruct (payment_of (db w) orderId) as [p|] eqn:Hp.
  2:{ injection Hrun as <- <-. split; [reflexivity | discriminate]. }
  cbn beta iota zeta in Hrun.
  unfold bind at 1 in Hrun. rewrite role_and_run in Hrun.
  destruct (Role_eqb (user_role user) CUSTOMER) eqn:Hcust.
  - apply Role_eqb_eq in Hcust.
    destruct (find_order (db w) (payment_orderId p)) as [o|] eqn:Ho;
      cbn [option_map] in Hrun.
    2:{ injection Hrun as <- <-. split; [reflexivity | discriminate]. }
    cbn beta iota zeta in Hrun. cbn [owner_of owner_customerId] in Hrun.
    destruct (order_customerId o =? user_id user)%Z eqn:Hown; cbn [negb] in Hrun.
    2:{ injection Hrun as <- <-. split; [reflexivity | discriminate]. }
    unfold bind at 1 in Hrun. rewrite role_and_run in Hrun.
    rewrite Hcust in Hrun. cbn [Role_eqb] in Hrun.
    injection Hrun as <- <-. split; [reflexivity|]. intros _.
    exists p. split; [reflexivity|]. split; [now rewrite Ho|]. split.
    + intros _. exists o. split; [exact Ho | now apply Z.eqb_eq].
    + rewrite Hcust. discriminate.
  - cbn beta iota zeta in Hrun.
    unfold bind at 1 in Hrun. rewrite role_and_run in Hrun.
    destruct (Role_eqb (user_role user) CASHIER) eqn:Hcash.
    + destruct (find_order (db w) (payment_orderId p)) as [o|] eqn:Ho;
        cbn [option_map] in Hrun.
      2:{ injection Hrun as <- <-. split; [reflexivity | discriminate]. }
      cbn beta iota zeta in Hrun. cbn [owner_of owner_branchId] in Hrun.
      destruct (differs (order_branchId o) (user_branchId user)) eqn:Hd.
      { injection Hrun as <- <-. split; [reflexivity | discriminate]. }
      injection Hrun as <- <-. split; [reflexivity|]. intros _.
      exists p. split; [reflexivity|]. split; [now rewrite Ho|]. split.
      * intros Hc. apply Role_eqb_eq in Hc. congruence.
      * intros _. exists o. split; [exact Ho | now apply differs_false].
    + cbn beta iota zeta in Hrun.
      injection Hrun as <- <-. split; [reflexivity|]. intros _.
      exists p. split; [reflexivity|]. split; [reflexivity|]. split.
      * intros Hc. apply Role_eqb_eq in Hc. congruence.
      * intros Hc. apply Role_eqb_eq in Hc. congruence.
Qed.

(** X11.  Whom [getPayment] shows a payment.  When the handler answers 200,
    under any schedule of store failures, the body holds the payment row of
    the order asked for, with the customer and the branch of that order;
    for a CUSTOMER the order is the caller's own, and for a CASHIER it is
    an order of the caller's branch. *)
Theorem payment_view_is_scoped (user : User) (orderId : Z) (w w' : World num)
    (r : ReceiptResponse num) :
  getPayment user orderId w = (r, w') ->
  receipt_code r = 200 ->
  exists p,
    receipt_body r
    = PaymentDetails p (option_map owner_of (find_order (db w) orderId))
    /\ payment_of (db w) orderId = Some p
    /\ (user_role user = CUSTOMER ->
        exists o, find_order (db w) orderId = Some o
                  /\ order_customerId o = user_id user)
    /\ (user_role user = CASHIER ->
        exists o, find_order (db w) orderId = Some o
                  /\ user_branchId user = Some (order_branchId o)).
Proof.
  intros Hrun Hcode.
  destruct (getPayment_inv _ _ _ Hrun) as [_ H].
  destruct (H Hcode) as (p & Hp & -> & Hcust & Hcash).
  destruct (payment_of_found _ _ Hp) as [Hid _]. rewrite Hid in *.
  exists p. repeat split; assumption.
Qed.

(** Every way through the lookup that [reprintReceipt] and [emailReceipt]
    share. *)
Lemma receipt_copy_inv (user : User) (paymentId : Z) (denied : string)
    (done : string) (w w' : World num) (r : ReceiptResponse num) :
  attempt
    (bind (payment_findUnique_id paymentId)
       (fun payment =>
          match payment with
          | None => ret (receipt_message 404 "Payment not found")
          | Some (p, order) =>
              bind (role_and user CASHIER order
                      (fun o => differs (order_branchId (lines_order o))
                                        (user_branchId user)))
                   (fun elsewhere =>
                      if elsewhere
                      then ret (receipt_message 403 denied)
                      else ret (receipt 200 (ReceiptCopy done p order)))
          end))
    receipt_handleError w = (r, w') ->
  db w' = db w
  /\ (receipt_code r = 200 ->
      exists p,
        find_payment (db w) paymentId = Some p
        /\ r = receipt 200
                 (ReceiptCopy done p
                    (option_map (lines_of (db w))
                       (find_order (db w) (payment_orderId p))))
        /\ (user_role user = CASHIER ->
            exists o, find_order (db w) (payment_orderId p) = Some o
                      /\ user_branchId user = Some (order_branchId o))).
Proof.
  unfold attempt, payment_findUnique_id, store_read.
  unfold bind at 1. rewrite store_call_run. intros Hrun.
  destruct (nth 0 (faults w) false).
  { injection Hrun as <- <-. split; [reflexivity | discriminate]. }
  destruct (find_payment (db w) paymentId) as [p|] eqn:Hp.
  2:{ injection Hrun as <- <-. split; [reflexivity | discriminate]. }
  cbn beta iota zeta in Hrun.
  unfold bind at 1 in Hrun. rewrite role_and_run in Hrun.
  destruct (Role_eqb (user_role user) CASHIER) eqn:Hcash.
  - destruct (find_order (db w) (payment_orderId p)) as [o|] eqn:Ho;
      cbn [option_map] in Hrun.
    2:{ injection Hrun as <- <-. split; [reflexivity | discriminate]. }
    cbn beta iota zeta in Hrun. cbn [lines_of lines_order] in Hrun.
    destruct (differs (order_branchId o) (user_branchId user)) eqn:Hd.
    { injection Hrun as <- <-. split; [reflexivity | discriminate]. }
    injection Hrun as <- <-. split; [reflexivity|]. intros _.
    exists p. split; [reflexivity|]. split; [now rewrite Ho|].
    intros _. exists o. split; [exact Ho | now apply differs_false].
  - cbn beta iota zeta in Hrun.
    injection Hrun as <- <-. split; [reflexivity|]. intros _.
    exists p. split; [reflexivity|]. split; [reflexivity|].
    intros Hc. apply Role_eqb_eq in Hc. congruence.
Qed.

Lemma emailReceipt_inv (user : User) (paymentId : Z) (email : option string)
    (w w' : World num) (r : ReceiptResponse num) :
  emailReceipt user paymentId email w = (r, w') ->
  db w' = db w
  /\ (receipt_code r = 200 ->
      exists p address,
        email = Some address /\ address <> ""
        /\ find_payment (db w) paymentId = Some p
        /\ r = receipt 200
                 (ReceiptCopy ("Receipt emailed successfully to " ++ address) p
                    (option_map (lines_of (db w))
                       (find_order (db w) (payment_orderId p))))
        /\ (user_role user = CASHIER ->
            exists o, find_order (db w) (payment_orderId p) = Some o
                      /\ user_branchId user = Some (order_branchId o))).
Proof.
  unfold emailReceipt. destruct email as [address|].
  2:{ unfold attempt, ret. intros [= <- <-]. split; [reflexivity | discriminate]. }
  unfold truthy_str. rewrite Bool.negb_involutive.
  destruct (String.eqb_spec address "") as [->|Hne].
  { unfold attempt, ret. intros [= <- <-]. split; [reflexivity | discriminate]. }
  intros Hrun. apply receipt_copy_inv in Hrun as [Hdb H].
  split; [assumption|]. intros Hcode.
  destruct (H Hcode) as (p & Hp & Hr & Hcash).
  exists p, address. repeat split; assumption.
Qed.

(** X12.  A CASHIER gets a copy of a receipt, printed or sent by e-mail,
    only for a payment of an order of the cashier's own branch; the copy
    holds the payment with the given id and its order, with one line for
    each item that the store holds for that order, in the order of the
    rows, each with the menu item that the store has under its id. *)
Theorem cashier_receipts_stay_in_branch (user : User) (paymentId : Z)
    (email : option string) (w w' : World num) (r : ReceiptResponse num) :
  user_role user = CASHIER ->
  reprintReceipt user paymentId w = (r, w')
  \/ emailReceipt user paymentId email w = (r, w') ->
  receipt_code r = 200 ->
  exists p o message copy,
    find_payment (db w) paymentId = Some p
    /\ find_order (db w) (payment_orderId p) = Some o
    /\ user_branchId user = Some (order_branchId o)
    /\ receipt_body r = ReceiptCopy message p (Some copy)
    /\ (message = "Receipt reprinted successfully"
        \/ exists address,
             email = Some address
             /\ message = "Receipt emailed successfully to " ++ address)
    /\ lines_order copy = o
    /\ map fst (lines_items copy) = items_of (db w) (order_id o)
    /\ Forall (fun line =>
                 snd line = find_menuItem (db w) (item_menuItemId (fst line)))
              (lines_items copy).
Proof.
  assert (Hlines : forall o : Order num,
             lines_order (lines_of (db w) o) = o
             /\ map fst (lines_items (lines_of (db w) o))
                = items_of (db w) (order_id o)
             /\ Forall (fun line =>
                          snd line
                          = find_menuItem (db w) (item_menuItemId (fst line)))
                       (lines_items (lines_of (db w) o))).
  { intros o. unfold lines_of. cbn [lines_order lines_items].
    split; [reflexivity|]. split.
    - rewrite map_map. cbn [fst]. apply map_id.
    - apply Forall_forall. intros line Hin.
      apply in_map_iff in Hin as (i & <- & _). reflexivity. }
  intros Hrole [Hrun | Hrun] Hcode.
  - unfold reprintReceipt in Hrun. apply receipt_copy_inv in Hrun as [_ H].
    destruct (H Hcode) as (p & Hp & -> & Hcash).
    destruct (Hcash Hrole) as (o & Ho & Hb).
    exists p, o, "Receipt reprinted successfully", (lines_of (db w) o).
    split; [exact Hp|]. split; [exact Ho|]. split; [exact Hb|].
    split; [simpl; now rewrite Ho|]. split; [now left|]. apply Hlines.
  - apply emailReceipt_inv in Hrun as [_ H].
    destruct (H Hcode) as (p & address & Hemail & _ & Hp & -> & Hcash).
    destruct (Hcash Hrole) as (o & Ho & Hb).
    exists p, o, ("Receipt emailed successfully to " ++ address),
      (lines_of (db w) o).
    split; [exact Hp|]. split; [exact Ho|]. split; [exact Hb|].
    split; [simpl; now rewrite Ho|]. split; [right; now exists address|].
    apply Hlines.
Qed.

(** X13.  A payment can be read back.  When [processPayment] answers 201 for
    a caller, under any schedule, [getPayment] by the same caller for the
    same order, its one store call answered, returns the payment that was
    created, with the customer and the branch of the order it pays. *)
Theorem paid_order_shows_its_payment (user : User) (orderId : Z)
    (amount : option num) (method : option string) (w w' : World num)
    (r : Response num) :
  processPayment user orderId amount method w = (r, w') ->
  code r = 201 ->
  exists p o,
    body r = PaymentProcessed "Payment processed successfully" p
    /\ find_order (db w) orderId = Some o
    /\ getPayment user orderId (reliable (db w'))
       = (receipt 200 (PaymentDetails p (Some (owner_of o))), reliable (db w')).
Proof.
  intros Hrun Hcode.
  destruct (fields_present amount method) eqn:Hf.
  2:{ rewrite (processPayment_missing _ _ _ _ _ Hf) in Hrun.
      injection Hrun as <- <-. discriminate. }
  apply fields_present_inv in Hf as (a & m & -> & -> & Ha & Hm).
  destruct (nth 0 (faults w) false) eqn:H0.
  { destruct (@processPayment_no_order _ _ user orderId a m w Ha Hm (or_introl H0))
      as (r0 & Heq & Hc).
    rewrite Heq in Hrun. injection Hrun as <- <-.
    destruct Hc as [Hc | Hc]; rewrite Hc in Hcode; discriminate. }
  destruct (find_order (db w) orderId) as [o|] eqn:Ho.
  2:{ destruct (@processPayment_no_order _ _ user orderId a m w Ha Hm (or_intror Ho))
        as (r0 & Heq & Hc).
      rewrite Heq in Hrun. injection Hrun as <- <-.
      destruct Hc as [Hc | Hc]; rewrite Hc in Hcode; discriminate. }
  rewrite (@processPayment_checks _ _ user orderId a m w o Ha Hm H0 Ho) in Hrun.
  cbn zeta in Hrun.
  destruct (Role_eqb (user_role user) CUSTOMER
            && negb (order_customerId o =? user_id user)%Z) eqn:Hcust;
    [injection Hrun as <- <-; discriminate|].
  destruct (Role_eqb (user_role user) CASHIER
            && differs (order_branchId o) (user_branchId user)) eqn:Hcash;
    [injection Hrun as <- <-; discriminate|].
  destruct (payment_of (db w) orderId) eqn:Hnone;
    [injection Hrun as <- <-; discriminate|].
  destruct (ngt (nabs (nsub a (order_totalAmount o))) hundredth);
    [injection Hrun as <- <-; discriminate|].
  apply payment_create_run in Hrun as [[-> _] | (p & -> & _ & Hid & _ & Hpay & Hord)];
    [discriminate|].
  cbn [db] in Hpay, Hord.
  exists p, o. split; [reflexivity|]. split; [reflexivity|].
  assert (Hp : payment_of (db w') orderId = Some p).
  { unfold payment_of in *. rewrite Hpay, find_over_app, Hnone. simpl.
    now rewrite Hid, Z.eqb_refl. }
  assert (Ho' : find_order (db w') orderId = Some o).
  { unfold find_order in *. now rewrite Hord. }
  unfold getPayment, attempt, payment_findUnique_orderId, store_read.
  unfold bind at 1. rewrite store_call_reliable, Hp, Hid, Ho'.
  cbn beta iota zeta. cbn [option_map].
  unfold bind at 1. rewrite role_and_run.
  cbn [owner_of owner_customerId owner_branchId].
  destruct (Role_eqb (user_role user) CUSTOMER).
  - cbn [andb] in Hcust. rewrite Hcust. cbn beta iota zeta.
    unfold bind at 1. rewrite role_and_run.
    cbn [owner_of owner_customerId owner_branchId].
    destruct (Role_eqb (user_role user) CASHIER).
    + cbn [andb] in Hcash. rewrite Hcash. reflexivity.
    + reflexivity.
  - cbn beta iota zeta.
    unfold bind at 1. rewrite role_and_run.
    cbn [owner_of owner_customerId owner_branchId].
    destruct (Role_eqb (user_role user) CASHIER).
    + cbn [andb] in Hcash. rewrite Hcash. reflexivity.
    + reflexivity.
Qed.
End Receipts_read.

(** ** The cart *)

Section Cart_sync.
Context {num : Type} {NUM : JsNumber num}.

Lemma find_map_kept {A : Type} (P : A -> bool) (g : A -> A) (l : list A) :
  (forall x, P (g x) = P x) ->
  find P (map g l) = option_map g (find P l).
Proof.
  intros Hg. induction l as [|x l IH]; simpl; [reflexivity|].
  rewrite Hg. destruct (P x); [reflexivity | exact IH].
Qed.

Lemma cart_rows_of_order (menu : list (MenuItem num)) (orderId : Z)
    (items : list CartItem) :
  forall next,
    filter (fun i => (item_orderId i =? orderId)%Z)
           (cart_rows menu orderId next items)
    = cart_rows menu orderId next items.
Proof.
  induction items as [|item rest IH]; intros next; simpl; [reflexivity|].
  now rewrite Z.eqb_refl, IH.
Qed.

Lemma cart_rows_read (menu : list (MenuItem num)) (orderId : Z)
    (items : list CartItem) :
  forall next,
    map (fun item => {| cart_id := item_menuItemId item;
                        cart_quantity := item_quantity item |})
        (cart_rows menu orderId next items)
    = items.
Proof.
  induction items as [|[id quantity] rest IH]; intros next; simpl; [reflexivity|].
  now rewrite IH.
Qed.

Lemma others_removed (orderId : Z) (l : list (OrderItem num)) :
  filter (fun i => (item_orderId i =? orderId)%Z)
         (filter (fun i => negb (item_orderId i =? orderId)%Z) l) = [].
Proof.
  induction l as [|i l IH]; simpl; [reflexivity|].
  destruct (item_orderId i =? orderId)%Z eqn:E; simpl; [exact IH|].
  now rewrite E.
Qed.

Lemma listed_price (s : Store num) (item : CartItem) (m : MenuItem num) :
  find_menuItem s (cart_id item) = Some m ->
  cart_price (menuItems s) item = menu_price m
  /\ listed (menuItems s) item = true.
Proof.
  unfold find_menuItem, cart_price, listed. intros ->. now split.
Qed.

Lemma listed_found (s : Store num) (item : CartItem) :
  listed (menuItems s) item = true ->
  exists m, find_menuItem s (cart_id item) = Some m.
Proof.
  unfold find_menuItem, listed.
  destruct (find (fun m => (menu_id m =? cart_id item)%Z) (menuItems s)) as [m|];
    [eauto | discriminate].
Qed.

Lemma unlisted_not_found (s : Store num) (item : CartItem) :
  listed (menuItems s) item = false ->
  find_menuItem s (cart_id item) = None.
Proof.
  unfold find_menuItem, listed.
  destruct (find (fun m => (menu_id m =? cart_id item)%Z) (menuItems s));
    [discriminate | reflexivity].
Qed.

(** The loop of the sync, when every one of its calls is answered: every
    item was in the catalog. *)
Lemma addCartItems_inv (orderId : Z) (items : list CartItem) :
  forall (total : num) (w w' : World num) (t : num),
    addCartItems orderId items total w = (Resolved t, w') ->
    t = cart_total (menuItems (db w)) items total
    /\ orders (db w') = orders (db w)
    /\ orderItems (db w')
       = (orderItems (db w)
          ++ cart_rows (menuItems (db w)) orderId (nextItemId (db w)) items)%list
    /\ menuItems (db w') = menuItems (db w)
    /\ payments (db w') = payments (db w)
    /\ branches (db w') = branches (db w)
    /\ forallb (listed (menuItems (db w))) items = true
    /\ forallb in_range items = true.
Proof.
  induction items as [|item rest IH]; intros total w w' t.
  - simpl. unfold ret. intros [= <- <-]. simpl. rewrite app_nil_r. tauto.
  - cbn [addCartItems]. unfold menuItem_findUnique, store_read.
    unfold bind at 1. rewrite store_call_run.
    destruct (nth 0 (faults w) false); [discriminate|].
    cbn beta iota zeta.
    unfold bind at 1. unfold orderItem_create. rewrite store_call_run.
    cbn [db faults].
    destruct (nth 0 (tl (faults w)) false); [discriminate|].
    destruct (find_order (db w) orderId); [|discriminate].
    destruct (find_menuItem (db w) (cart_id item)) as [m|] eqn:Hm; [|discriminate].
    destruct (int4 (cart_quantity item)) eqn:Hq; [|discriminate].
    cbn beta iota zeta. intros Hrest.
    apply IH in Hrest as (-> & Hord & Hitems & Hmenu & Hpay & Hbr & Hall & Hrange).
    cbn [db with_orderItems orders orderItems menuItems payments branches nextItemId]
      in Hord, Hitems, Hmenu, Hpay, Hbr, Hall |- *.
    destruct (listed_price _ _ Hm) as [Hprice Hl].
    unfold cart_total. cbn [fold_left cart_rows forallb]. rewrite Hprice, Hl.
    unfold in_range at 1. rewrite Hq.
    repeat split; try assumption.
    rewrite Hitems, <- app_assoc. reflexivity.
Qed.

Lemma addCartItems_reliable (orderId : Z) (items : list CartItem) :
  forall (total : num) (s : Store num) (o : Order num),
    find_order s orderId = Some o ->
    forallb (listed (menuItems s)) items = true ->
    forallb in_range items = true ->
    exists w',
      addCartItems orderId items total (reliable s)
      = (Resolved (cart_total (menuItems s) items total), w')
      /\ faults w' = [].
Proof.
  induction items as [|item rest IH]; intros total s o Ho Hall Hrange.
  - exists (reliable s). split; reflexivity.
  - cbn [forallb] in Hall, Hrange.
    apply andb_prop in Hall as [Hl Hall]. apply andb_prop in Hrange as [Hq Hrange].
    destruct (listed_found _ _ Hl) as (m & Hm).
    cbn [addCartItems]. unfold menuItem_findUnique, store_read.
    unfold bind at 1. rewrite store_call_reliable.
    unfold bind at 1. unfold orderItem_create. rewrite store_call_reliable.
    unfold in_range in Hq. rewrite Ho, Hm, Hq.
    match goal with
    | |- context [addCartItems orderId rest ?t (reliable ?s1)] =>
        destruct (IH t s1 o Ho Hall Hrange) as (w' & Heq & Hf)
    end.
    exists w'. split; [|exact Hf]. rewrite Heq.
    unfold cart_total. cbn [fold_left].
    destruct (listed_price _ _ Hm) as [-> _]. reflexivity.
Qed.

(** The loop of the sync stops at the first item that the catalog does
    not have: the rows of the items before it are written. *)
Lemma addCartItems_stops (orderId : Z) (bad : CartItem) (rest : list CartItem)
    (known : list CartItem) :
  forall (total : num) (s : Store num) (o : Order num),
    find_order s orderId = Some o ->
    forallb (listed (menuItems s)) known = true ->
    forallb in_range known = true ->
    listed (menuItems s) bad = false ->
    exists w',
      addCartItems orderId (known ++ bad :: rest) total (reliable s) = (Rejected, w')
      /\ orders (db w') = orders s
      /\ orderItems (db w')
         = (orderItems s ++ cart_rows (menuItems s) orderId (nextItemId s) known)%list
      /\ menuItems (db w') = menuItems s.
Proof.
  induction known as [|item known IH]; intros total s o Ho Hall Hrange Hbad.
  - cbn [app addCartItems]. unfold menuItem_findUnique, store_read.
    unfold bind at 1. rewrite store_call_reliable.
    unfold bind at 1. unfold orderItem_create. rewrite store_call_reliable.
    rewrite Ho, (unlisted_not_found _ _ Hbad).
    eexists. split; [reflexivity|]. simpl. rewrite app_nil_r. tauto.
  - cbn [forallb] in Hall, Hrange.
    apply andb_prop in Hall as [Hl Hall]. apply andb_prop in Hrange as [Hq Hrange].
    destruct (listed_found _ _ Hl) as (m & Hm).
    cbn [app addCartItems]. unfold menuItem_findUnique, store_read.
    unfold bind at 1. rewrite store_call_reliable.
    unfold bind at 1. unfold orderItem_create. rewrite store_call_reliable.
    unfold in_range in Hq. rewrite Ho, Hm, Hq.
    match goal with
    | |- context [addCartItems orderId _ ?t (reliable ?s1)] =>
        destruct (IH t s1 o Ho Hall Hrange Hbad)
          as (w' & Heq & Hord & Hitems & Hmenu)
    end.
    exists w'. split; [exact Heq|].
    cbn [with_orderItems orders orderItems menuItems nextItemId] in Hord, Hitems, Hmenu.
    cbn [cart_rows]. destruct (listed_price _ _ Hm) as [-> _].
    repeat split; try assumption.
    rewrite Hitems, <- app_assoc. reflexivity.
Qed.

(** The loop of the sync is rejected whenever an item of the list is not in
    the catalog. *)
Lemma addCartItems_unlisted (orderId : Z) (bad : CartItem) (rest : list CartItem)
    (known : list CartItem) :
  forall (total : num) (s : Store num) (o : Order num),
    find_order s orderId = Some o ->
    forallb (listed (menuItems s)) known = true ->
    listed (menuItems s) bad = false ->
    exists w',
      addCartItems orderId (known ++ bad :: rest) total (reliable s) = (Rejected, w').
Proof.
  induction known as [|item known IH]; intros total s o Ho Hall Hbad.
  - cbn [app addCartItems]. unfold menuItem_findUnique, store_read.
    unfold bind at 1. rewrite store_call_reliable.
    unfold bind at 1. unfold orderItem_create. rewrite store_call_reliable.
    rewrite Ho, (unlisted_not_found _ _ Hbad). eexists. reflexivity.
  - cbn [forallb] in Hall. apply andb_prop in Hall as [Hl Hall].
    destruct (listed_found _ _ Hl) as (m & Hm).
    cbn [app addCartItems]. unfold menuItem_findUnique, store_read.
    unfold bind at 1. rewrite store_call_reliable.
    unfold bind at 1. unfold orderItem_create. rewrite store_call_reliable.
    rewrite Ho, Hm. destruct (int4 (cart_quantity item)).
    + match goal with
      | |- context [addCartItems orderId _ ?t (reliable ?s1)] =>
          destruct (IH t s1 o Ho Hall Hbad) as (w' & Heq)
      end.
      exists w'. exact Heq.
    + eexists. reflexivity.
Qed.

(** What a sync does once it has its order: the old rows of the order are
    deleted, the new rows are written and the total is stored. *)
Lemma cart_fill_inv (orderId : Z) (items : list CartItem) (w w' : World num)
    (r : CartResponse) :
  bind (orderItem_deleteMany orderId)
    (fun _ =>
       bind (addCartItems orderId items nzero)
         (fun totalAmount =>
            bind (order_update_total orderId totalAmount)
              (fun _ => ret (cart 200 CartSynced)))) w
  = (Resolved r, w') ->
  r = cart 200 CartSynced
  /\ orders (db w')
     = map (fun o => if (order_id o =? orderId)%Z
                     then set_order_total
                            (cart_total (menuItems (db w)) items nzero) o
                     else o)
           (orders (db w))
  /\ orderItems (db w')
     = (filter (fun i => negb (item_orderId i =? orderId)%Z) (orderItems (db w))
        ++ cart_rows (menuItems (db w)) orderId (nextItemId (db w)) items)%list
  /\ menuItems (db w') = menuItems (db w)
  /\ payments (db w') = payments (db w)
  /\ branches (db w') = branches (db w)
  /\ forallb (listed (menuItems (db w))) items = true
  /\ forallb in_range items = true.
Proof.
  unfold bind at 1. unfold orderItem_deleteMany. rewrite store_call_run.
  destruct (nth 0 (faults w) false); [discriminate|].
  cbn beta iota zeta. unfold bind at 1.
  match goal with
  | |- context [addCartItems orderId items nzero ?w1] =>
      destruct (addCartItems orderId items nzero w1) as [[t|] w2] eqn:Hadd
  end; [|discriminate].
  apply addCartItems_inv in Hadd
    as (-> & Hord & Hitems & Hmenu & Hpay & Hbr & Hall & Hrange).
  cbn [db with_orderItems orders orderItems menuItems payments branches nextItemId]
    in Hord, Hitems, Hmenu, Hpay, Hbr, Hall.
  unfold bind at 1. unfold order_update_total. rewrite store_call_run.
  destruct (nth 0 (faults w2) false); [discriminate|].
  destruct (find_order (db w2) orderId); [|discriminate].
  unfold ret. intros [= <- <-].
  cbn [db with_orders orders orderItems menuItems payments branches].
  rewrite Hord. repeat split; assumption.
Qed.

Lemma cart_fill_reliable (orderId : Z) (items : list CartItem) (s : Store num)
    (o : Order num) :
  find_order s orderId = Some o ->
  forallb (listed (menuItems s)) items = true ->
  forallb in_range items = true ->
  exists w',
    bind (orderItem_deleteMany orderId)
      (fun _ =>
         bind (addCartItems orderId items nzero)
           (fun totalAmount =>
              bind (order_update_total orderId totalAmount)
                (fun _ => ret (cart 200 CartSynced)))) (reliable s)
    = (Resolved (cart 200 CartSynced), w')
    /\ faults w' = [].
Proof.
  intros Ho Hall Hrange.
  unfold bind at 1. unfold orderItem_deleteMany. rewrite store_call_reliable.
  unfold bind at 1.
  match goal with
  | |- context [addCartItems orderId items nzero (reliable ?s1)] =>
      destruct (@addCartItems_reliable orderId items nzero s1 o Ho Hall Hrange)
        as (w2 & Hadd & Hf);
      pose proof (addCartItems_inv _ _ _ _ Hadd) as (_ & Hord & _)
  end.
  rewrite Hadd. cbn [db reliable with_orderItems orders] in Hord.
  unfold bind at 1. unfold order_update_total. rewrite store_call_run, Hf.
  cbn [nth]. unfold find_order in *. rewrite Hord, Ho.
  eexists. split; reflexivity.
Qed.

Lemma cart_fill_stops (orderId : Z) (known : list CartItem) (bad : CartItem)
    (rest : list CartItem) (s : Store num) (o : Order num) :
  find_order s orderId = Some o ->
  forallb (listed (menuItems s)) known = true ->
  forallb in_range known = true ->
  listed (menuItems s) bad = false ->
  exists w',
    bind (orderItem_deleteMany orderId)
      (fun _ =>
         bind (addCartItems orderId (known ++ bad :: rest) nzero)
           (fun totalAmount =>
              bind (order_update_total orderId totalAmount)
                (fun _ => ret (cart 200 CartSynced)))) (reliable s)
    = (Rejected, w')
    /\ orders (db w') = orders s
    /\ orderItems (db w')
       = (filter (fun i => negb (item_orderId i =? orderId)%Z) (orderItems s)
          ++ cart_rows (menuItems s) orderId (nextItemId s) known)%list.
Proof.
  intros Ho Hall Hrange Hbad.
  unfold bind at 1. unfold orderItem_deleteMany. rewrite store_call_reliable.
  unfold bind at 1.
  match goal with
  | |- context [addCartItems orderId _ nzero (reliable ?s1)] =>
      destruct (@addCartItems_stops orderId bad rest known nzero s1 o Ho Hall
                  Hrange Hbad)
        as (w2 & Hadd & Hord & Hitems & _)
  end.
  rewrite Hadd. exists w2. split; [reflexivity|]. split; assumption.
Qed.

Lemma cart_fill_fails (orderId : Z) (known : list CartItem) (bad : CartItem)
    (rest : list CartItem) (s : Store num) (o : Order num) :
  find_order s orderId = Some o ->
  forallb (listed (menuItems s)) known = true ->
  listed (menuItems s) bad = false ->
  exists w',
    bind (orderItem_deleteMany orderId)
      (fun _ =>
         bind (addCartItems orderId (known ++ bad :: rest) nzero)
           (fun totalAmount =>
              bind (order_update_total orderId totalAmount)
                (fun _ => ret (cart 200 CartSynced)))) (reliable s)
    = (Rejected, w').
Proof.
  intros Ho Hall Hbad.
  unfold bind at 1. unfold orderItem_deleteMany. rewrite store_call_reliable.
  unfold bind at 1.
  match goal with
  | |- context [addCartItems orderId _ nzero (reliable ?s1)] =>
      destruct (@addCartItems_unlisted orderId bad rest known nzero s1 o Ho Hall Hbad)
        as (w2 & Hadd)
  end.
  rewrite Hadd. exists w2. reflexivity.
Qed.

Lemma pending_of_found (s : Store num) (customerId : Z) (o : Order num) :
  pending_of s customerId = Some o ->
  find_order s (order_id o) <> None
  /\ order_customerId o = customerId
  /\ order_status o = PENDING.
Proof.
  unfold pending_of. intros H. apply find_some in H as [Hin Hp].
  apply andb_prop in Hp as [Hc Hs]. apply Z.eqb_eq in Hc.
  split; [|split; [exact Hc | destruct (order_status o); (reflexivity || discriminate)]].
  unfold find_order. intros Hnone.
  apply (find_none _ _ Hnone) in Hin. now rewrite Z.eqb_refl in Hin.
Qed.

Lemma cart_order_first (s : Store num) (customerId : Z) :
  find (fun o => (order_customerId o =? customerId)%Z
                 && OrderStatus_eqb (order_status o) PENDING)
       (cart_orders s customerId)
  = Some (cart_order s customerId).
Proof.
  unfold cart_orders, cart_order.
  destruct (pending_of s customerId) as [o|] eqn:Hp; [exact Hp|].
  rewrite find_over_app. unfold pending_of in Hp. rewrite Hp.
  simpl. now rewrite Z.eqb_refl.
Qed.

Lemma cart_order_stored (s : Store num) (customerId : Z) :
  exists o,
    find (fun o => (order_id o =? order_id (cart_order s customerId))%Z)
         (cart_orders s customerId) = Some o.
Proof.
  destruct (find (fun o => (order_id o =? order_id (cart_order s customerId))%Z)
                 (cart_orders s customerId)) as [o|] eqn:E; [eauto|].
  exfalso. pose proof (cart_order_first s customerId) as H.
  apply find_some in H as [Hin _].
  apply (find_none _ _ E) in Hin. now rewrite Z.eqb_refl in Hin.
Qed.

(** The store takes the empty order with which a sync opens a cart exactly
    when it has branch 1 and the customer. *)
Lemma cart_order_accepted (s : Store num) (customerId : Z) :
  order_accepted s
    {| data_branchId := 1;
       data_customerId := customerId;
       data_status := PENDING;
       data_totalAmount := nzero;
       data_deliveryAddress := None;
       data_items := [] |}
  = existsb (fun b => (branch_id b =? 1)%Z) (branches s)
    && existsb (Z.eqb customerId) (userIds s).
Proof. unfold order_accepted. simpl. apply Bool.andb_true_r. Qed.

(** Every way to a 200 of the sync, under any schedule. *)
Lemma syncCart_inv (user : User) (items : option (list CartItem))
    (w w' : World num) (r : CartResponse) :
  syncCart user items w = (r, w') ->
  cart_code r = 200 ->
  exists first more,
    items = Some (first :: more)
    /\ user_id user <> 0%Z
    /\ orders (db w')
       = map (with_cart_total (menuItems (db w))
                (order_id (cart_order (db w) (user_id user))) (first :: more))
             (cart_orders (db w) (user_id user))
    /\ orderItems (db w')
       = (filter (fun i => negb (item_orderId i
                                 =? order_id (cart_order (db w) (user_id user)))%Z)
                 (orderItems (db w))
          ++ cart_rows (menuItems (db w))
               (order_id (cart_order (db w) (user_id user)))
               (nextItemId (db w)) (first :: more))%list
    /\ menuItems (db w') = menuItems (db w)
    /\ payments (db w') = payments (db w)
    /\ branches (db w') = branches (db w)
    /\ forallb (listed (menuItems (db w))) (first :: more) = true
    /\ forallb in_range (first :: more) = true
    /\ cart_opens (db w) (user_id user) = true.
Proof.
  unfold syncCart, attempt. intros Hrun Hcode.
  destruct items as [[|first more]|];
    try (unfold ret in Hrun; injection Hrun as <- <-; discriminate).
  unfold truthy_int in Hrun. rewrite Bool.negb_involutive in Hrun.
  destruct (Z.eqb_spec (user_id user) 0) as [Hz|Hz];
    [unfold ret in Hrun; injection Hrun as <- <-; discriminate|].
  exists first, more. split; [reflexivity|]. split; [exact Hz|].
  unfold bind at 1 in Hrun. unfold order_findFirst_pending, store_read in Hrun.
  rewrite store_call_run in Hrun.
  destruct (nth 0 (faults w) false); [injection Hrun as <- <-; discriminate|].
  cbn beta iota zeta in Hrun.
  unfold cart_orders, cart_order, cart_opens.
  destruct (pending_of (db w) (user_id user)) as [o|] eqn:Hp.
  - unfold bind at 1 in Hrun. unfold ret at 1 in Hrun. cbn beta iota in Hrun.
    match type of Hrun with
    | match ?m with _ => _ end = _ => destruct m as [[r0|] w0] eqn:Hfill
    end; [|injection Hrun as <- <-; discriminate].
    injection Hrun as <- <-.
    apply cart_fill_inv in Hfill
      as (_ & Hord & Hitems & Hmenu & Hpay & Hbr & Hall & Hrange).
    cbn [db] in Hord, Hitems, Hmenu, Hpay, Hbr, Hall.
    repeat split; assumption.
  - unfold bind at 1 2 in Hrun. unfold order_create in Hrun.
    rewrite store_call_run in Hrun. cbn [db faults] in Hrun.
    destruct (nth 0 (tl (faults w)) false);
      [injection Hrun as <- <-; discriminate|].
    cbn zeta in Hrun. rewrite cart_order_accepted in Hrun.
    destruct (existsb (fun b => (branch_id b =? 1)%Z) (branches (db w))
              && existsb (Z.eqb (user_id user)) (userIds (db w)));
      [|injection Hrun as <- <-; discriminate].
    cbn beta iota zeta in Hrun. unfold ret at 1 in Hrun. cbn beta iota in Hrun.
    match type of Hrun with
    | match ?m with _ => _ end = _ => destruct m as [[r0|] w0] eqn:Hfill
    end; [|injection Hrun as <- <-; discriminate].
    injection Hrun as <- <-.
    apply cart_fill_inv in Hfill
      as (_ & Hord & Hitems & Hmenu & Hpay & Hbr & Hall & Hrange).
    cbn [db orders orderItems menuItems payments branches nextItemId fst
         order_id number_items data_items data_status data_totalAmount
         data_deliveryAddress data_customerId data_branchId List.length]
      in Hord, Hitems, Hmenu, Hpay, Hbr, Hall.
    rewrite app_nil_r, Z.add_0_r in Hitems.
    cbn [order_id]. repeat split; assumption.
Qed.
End Cart_sync.

Section Cart_properties.
Context {num : Type} {NUM : JsNumber num}.

Lemma with_cart_total_kept (menu : list (MenuItem num)) (orderId : Z)
    (items : list CartItem) (o : Order num) :
  order_id (with_cart_total menu orderId items o) = order_id o
  /\ order_customerId (with_cart_total menu orderId items o) = order_customerId o
  /\ order_status (with_cart_total menu orderId items o) = order_status o
  /\ order_branchId (with_cart_total menu orderId items o) = order_branchId o.
Proof.
  unfold with_cart_total. destruct (order_id o =? orderId)%Z; simpl; tauto.
Qed.

(** The cart that a sync leaves behind, whenever it answers 200. *)
Lemma synced_cart (user : User) (items : option (list CartItem))
    (w w' : World num) (r : CartResponse) :
  syncCart user items w = (r, w') ->
  cart_code r = 200 ->
  exists first more,
    items = Some (first :: more)
    /\ user_id user <> 0%Z
    /\ pending_of (db w') (user_id user)
       = Some (set_order_total
                 (cart_total (menuItems (db w)) (first :: more) nzero)
                 (cart_order (db w) (user_id user)))
    /\ items_of (db w') (order_id (cart_order (db w) (user_id user)))
       = cart_rows (menuItems (db w))
           (order_id (cart_order (db w) (user_id user)))
           (nextItemId (db w)) (first :: more)
    /\ List.length (orders (db w'))
       = List.length (cart_orders (db w) (user_id user))
    /\ menuItems (db w') = menuItems (db w)
    /\ payments (db w') = payments (db w).
Proof.
  intros Hrun Hcode.
  destruct (syncCart_inv _ _ _ Hrun Hcode)
    as (first & more & -> & Hz & Hord & Hitems & Hmenu & Hpay & _).
  exists first, more. split; [reflexivity|]. split; [exact Hz|].
  split; [|split; [|split; [|split; assumption]]].
  - unfold pending_of. rewrite Hord, find_map_kept.
    + rewrite cart_order_first. simpl. unfold with_cart_total.
      now rewrite Z.eqb_refl.
    + intros x.
      destruct (with_cart_total_kept (menuItems (db w))
                  (order_id (cart_order (db w) (user_id user))) (first :: more) x)
        as (_ & -> & -> & _).
      reflexivity.
  - unfold items_of. rewrite Hitems, filter_app, others_removed.
    apply cart_rows_of_order.
  - rewrite Hord. apply length_map.
Qed.

Lemma getCart_run (user : User) (w : World num) :
  user_id user <> 0%Z ->
  getCart user w =
  if nth 0 (faults w) false
  then (cart 500 (CartError "Failed to fetch cart"),
        {| db := db w; faults := tl (faults w) |})
  else (cart 200
          (CartItems
             (map (fun item => {| cart_id := item_menuItemId item;
                                  cart_quantity := item_quantity item |})
                  match pending_of (db w) (user_id user) with
                  | Some o => items_of (db w) (order_id o)
                  | None => []
                  end)),
        {| db := db w; faults := tl (faults w) |}).
Proof.
  intros Hz. unfold getCart, attempt, truthy_int.
  rewrite Bool.negb_involutive.
  destruct (Z.eqb_spec (user_id user) 0) as [E|_]; [contradiction|].
  unfold bind at 1. unfold order_findFirst_pending_items, store_read.
  rewrite store_call_run.
  destruct (nth 0 (faults w) false); [reflexivity|].
  destruct (pending_of (db w) (user_id user)) as [o|]; [|reflexivity].
  cbn beta iota zeta. destruct (items_of (db w) (order_id o)); reflexivity.
Qed.

(** The run of a sync up to the point where it has its order. *)
Lemma syncCart_reliable_run (user : User) (first : CartItem)
    (more : list CartItem) (s : Store num) :
  user_id user <> 0%Z ->
  cart_opens s (user_id user) = true ->
  exists s1 o,
    orders s1 = cart_orders s (user_id user)
    /\ orderItems s1 = orderItems s
    /\ menuItems s1 = menuItems s
    /\ nextItemId s1 = nextItemId s
    /\ find_order s1 (order_id (cart_order s (user_id user))) = Some o
    /\ syncCart user (Some (first :: more)) (reliable s)
       = attempt
           (bind (orderItem_deleteMany (order_id (cart_order s (user_id user))))
              (fun _ =>
                 bind (addCartItems (order_id (cart_order s (user_id user)))
                         (first :: more) nzero)
                   (fun totalAmount =>
                      bind (order_update_total
                              (order_id (cart_order s (user_id user))) totalAmount)
                        (fun _ => ret (cart 200 CartSynced)))))
           (cart 500 (CartError "Failed to sync cart")) (reliable s1).
Proof.
  intros Hz Hopens.
  destruct (cart_order_stored s (user_id user)) as (stored & Hstored).
  unfold syncCart, attempt, truthy_int. rewrite Bool.negb_involutive.
  destruct (Z.eqb_spec (user_id user) 0) as [E|_]; [contradiction|].
  unfold bind at 1. unfold order_findFirst_pending, store_read.
  rewrite store_call_reliable.
  unfold cart_orders, cart_order, cart_opens in *.
  destruct (pending_of s (user_id user)) as [o|] eqn:Hp.
  - exists s, stored. repeat split; try reflexivity. exact Hstored.
  - unfold bind at 1 2. unfold order_create. rewrite store_call_reliable.
    cbn zeta. rewrite cart_order_accepted, Hopens.
    cbn beta iota zeta. unfold ret at 1. cbn beta iota.
    cbn [fst order_id data_status data_totalAmount data_deliveryAddress
         data_customerId data_branchId data_items number_items List.length].
    eexists _, stored. split; [|split; [|split; [|split; [|split; [|reflexivity]]]]].
    + reflexivity.
    + cbn [orderItems]. apply app_nil_r.
    + reflexivity.
    + cbn [nextItemId]. apply Z.add_0_r.
    + exact Hstored.
Qed.

Lemma syncCart_reliable_ok (user : User) (first : CartItem)
    (more : list CartItem) (s : Store num) :
  user_id user <> 0%Z ->
  cart_opens s (user_id user) = true ->
  forallb (listed (menuItems s)) (first :: more) = true ->
  forallb in_range (first :: more) = true ->
  exists w', syncCart user (Some (first :: more)) (reliable s)
             = (cart 200 CartSynced, w').
Proof.
  intros Hz Hopens Hall Hrange.
  destruct (@syncCart_reliable_run user first more s Hz Hopens)
    as (s1 & o & _ & _ & Hmenu & _ & Ho & ->).
  rewrite <- Hmenu in Hall.
  destruct (@cart_fill_reliable _ _ _ (first :: more) s1 o Ho Hall Hrange)
    as (w' & Hfill & _).
  exists w'. unfold attempt. now rewrite Hfill.
Qed.

(** A sync that cannot have its order answers 500 and writes nothing. *)
Lemma syncCart_closed (user : User) (first : CartItem) (more : list CartItem)
    (s : Store num) :
  user_id user <> 0%Z ->
  cart_opens s (user_id user) = false ->
  exists w',
    syncCart user (Some (first :: more)) (reliable s)
    = (cart 500 (CartError "Failed to sync cart"), w')
    /\ db w' = s.
Proof.
  intros Hz Hopens.
  unfold syncCart, attempt, truthy_int. rewrite Bool.negb_involutive.
  destruct (Z.eqb_spec (user_id user) 0) as [E|_]; [contradiction|].
  unfold bind at 1. unfold order_findFirst_pending, store_read.
  rewrite store_call_reliable.
  unfold cart_opens in Hopens.
  destruct (pending_of s (user_id user)) as [o|]; [discriminate|].
  unfold bind at 1 2. unfold order_create. rewrite store_call_reliable.
  cbn zeta. rewrite cart_order_accepted, Hopens.
  eexists. split; reflexivity.
Qed.

(** X14.  The cart can be read back.  For a customer with at most one
    PENDING order: whenever the sync answers 200, under any schedule, the
    request carried a non-empty list of items, and reading the cart
    afterwards, the one store call answered, returns that list: the same
    ids and quantities, in the same order. *)
Theorem cart_round_trip (user : User) (items : option (list CartItem))
    (w w' : World num) (r : CartResponse) :
  (List.length (pending_orders (db w) (user_id user)) <= 1)%nat ->
  syncCart user items w = (r, w') ->
  cart_code r = 200 ->
  exists posted,
    items = Some posted
    /\ posted <> []
    /\ getCart user (reliable (db w'))
       = (cart 200 (CartItems posted), reliable (db w')).
Proof.
  intros _ Hrun Hcode.
  destruct (synced_cart _ _ _ Hrun Hcode)
    as (first & more & -> & Hz & Hp & Hitems & _).
  exists (first :: more). split; [reflexivity|]. split; [discriminate|].
  rewrite (getCart_run _ (reliable (db w')) Hz).
  cbn [reliable faults nth db tl]. rewrite Hp.
  cbn [set_order_total order_id]. rewrite Hitems, cart_rows_read. reflexivity.
Qed.

(** X15.  The sync looks at neither availability nor quantity; the only
    check on a quantity is the one of the column type.  A customer with an
    id and with at most one PENDING order syncs a non-empty list of items
    of the catalog with 32-bit quantities, on a store that rejects no call
    of its own accord and that can give the sync its order (the customer
    has a PENDING order, or the store has branch 1 and the customer).  The
    answer is 200, whether the items are available or not and whatever the
    sign of the quantities.  Afterwards the customer's PENDING order holds
    exactly one row per posted item, at the catalog price, and the total of
    those rows; it is the order that was PENDING before, or else a new
    order of branch 1. *)
Theorem sync_accepts_whatever_is_listed (user : User) (first : CartItem)
    (more : list CartItem) (s : Store num) :
  user_id user <> 0%Z ->
  (List.length (pending_orders s (user_id user)) <= 1)%nat ->
  cart_opens s (user_id user) = true ->
  forallb (listed (menuItems s)) (first :: more) = true ->
  forallb in_range (first :: more) = true ->
  exists w' o,
    syncCart user (Some (first :: more)) (reliable s)
    = (cart 200 CartSynced, w')
    /\ pending_of (db w') (user_id user) = Some o
    /\ order_totalAmount o = cart_total (menuItems s) (first :: more) nzero
    /\ items_of (db w') (order_id o)
       = cart_rows (menuItems s) (order_id o) (nextItemId s) (first :: more)
    /\ match pending_of s (user_id user) with
       | Some before =>
           order_id o = order_id before
           /\ List.length (orders (db w')) = List.length (orders s)
       | None =>
           order_id o = nextOrderId s
           /\ order_branchId o = 1%Z
           /\ List.length (orders (db w')) = S (List.length (orders s))
       end.
Proof.
  intros Hz _ Hopens Hall Hrange.
  destruct (@syncCart_reliable_ok user first more s Hz Hopens Hall Hrange)
    as (w' & Hrun).
  destruct (synced_cart _ _ _ Hrun eq_refl)
    as (f & m & [= <- <-] & _ & Hp & Hitems & Hlen & _).
  cbn [reliable db] in Hp, Hitems, Hlen.
  eexists w', _. split; [exact Hrun|]. split; [exact Hp|].
  cbn [set_order_total order_totalAmount order_id order_branchId].
  split; [reflexivity|]. split; [exact Hitems|].
  rewrite Hlen. unfold cart_orders, cart_order.
  destruct (pending_of s (user_id user)).
  - split; reflexivity.
  - rewrite length_app, Nat.add_comm. repeat split; reflexivity.
Qed.

(** X16.  An item that the catalog does not have wrecks the cart.  The
    sync prices such an item 0 and sends its row to the store, which
    rejects it for its foreign key: the sync answers 500.  When the sync
    could have its order (the customer has a PENDING order, or the store
    has branch 1 and the customer) and the quantities before the unknown
    item are 32-bit integers, the old rows of the cart are deleted by then
    and the rows of the items before the unknown one are written: the cart
    holds those rows only, and the total of the order is not updated. *)
Theorem unknown_item_wrecks_the_cart (user : User) (known : list CartItem)
    (bad : CartItem) (rest : list CartItem) (s : Store num) :
  user_id user <> 0%Z ->
  forallb (listed (menuItems s)) known = true ->
  listed (menuItems s) bad = false ->
  exists w',
    syncCart user (Some (known ++ bad :: rest)%list) (reliable s)
    = (cart 500 (CartError "Failed to sync cart"), w')
    /\ (cart_opens s (user_id user) = true ->
        forallb in_range known = true ->
        items_of (db w') (order_id (cart_order s (user_id user)))
        = cart_rows (menuItems s) (order_id (cart_order s (user_id user)))
            (nextItemId s) known
        /\ orders (db w') = cart_orders s (user_id user)).
Proof.
  intros Hz Hall Hbad.
  destruct (known ++ bad :: rest)%list as [|first more] eqn:E.
  { destruct known; discriminate. }
  destruct (cart_opens s (user_id user)) eqn:Hopens.
  - destruct (@syncCart_reliable_run user first more s Hz Hopens)
      as (s1 & o & Hord & Hitems & Hmenu & Hnext & Ho & ->).
    rewrite <- E. rewrite <- Hmenu in Hall, Hbad.
    destruct (forallb in_range known) eqn:Hrange.
    + destruct (@cart_fill_stops _ _ _ known bad rest s1 o Ho Hall Hrange Hbad)
        as (w' & Hfill & Hord' & Hitems').
      exists w'. unfold attempt. rewrite Hfill. split; [reflexivity|].
      intros _ _. split.
      * unfold items_of.
        rewrite Hitems', filter_app, others_removed, Hmenu, Hnext.
        apply cart_rows_of_order.
      * now rewrite Hord'.
    + destruct (@cart_fill_fails _ _ _ known bad rest s1 o Ho Hall Hbad)
        as (w' & Hfill).
      exists w'. unfold attempt. rewrite Hfill. split; [reflexivity|].
      intros _ [=].
  - destruct (@syncCart_closed user first more s Hz Hopens) as (w' & Hrun & _).
    exists w'. split; [exact Hrun|]. intros [=].
Qed.

(** X23.  The first cart of a customer is an order of branch 1.  A
    customer without a PENDING order syncs a cart on a store that has no
    branch 1: the order that the sync tries to open is rejected for its
    foreign key, whatever the items; the sync answers 500 and writes
    nothing. *)
Theorem first_cart_needs_branch_1 (user : User) (first : CartItem)
    (more : list CartItem) (s : Store num) :
  user_id user <> 0%Z ->
  pending_of s (user_id user) = None ->
  existsb (fun b => (branch_id b =? 1)%Z) (branches s) = false ->
  exists w',
    syncCart user (Some (first :: more)) (reliable s)
    = (cart 500 (CartError "Failed to sync cart"), w')
    /\ db w' = s.
Proof.
  intros Hz Hnone Hbranch.
  apply syncCart_closed; [exact Hz|].
  unfold cart_opens. now rewrite Hnone, Hbranch.
Qed.
End Cart_properties.

Section Cart_and_orders.
Context {num : Type} {NUM : JsNumber num}.

(** X17.  The sync works on placed orders.  A customer without a PENDING
    order places an order with [createOrder]; a later sync of items of the
    catalog with 32-bit quantities, on a store that rejects no call of its
    own accord, opens no cart of its own: it takes the order just placed,
    which stays PENDING at its branch, replaces its items by the rows of
    the cart and its total by the total of the cart. *)
Theorem sync_rewrites_a_placed_order (user : User) (b : OrderBody)
    (w w1 : World num) (r : Response num) (o : Order num)
    (its : list (OrderItem num)) (first : CartItem) (more : list CartItem) :
  user_role user = CUSTOMER ->
  pending_of (db w) (user_id user) = None ->
  createOrder user b w = (r, w1) ->
  body r = CreatedOrder o its ->
  forallb (listed (menuItems (db w1))) (first :: more) = true ->
  forallb in_range (first :: more) = true ->
  exists w2 o',
    syncCart user (Some (first :: more)) (reliable (db w1))
    = (cart 200 CartSynced, w2)
    /\ pending_of (db w2) (user_id user) = Some o'
    /\ order_id o' = order_id o
    /\ order_status o' = PENDING
    /\ order_customerId o' = user_id user
    /\ order_branchId o' = order_branchId o
    /\ order_deliveryAddress o' = order_deliveryAddress o
    /\ order_totalAmount o'
       = cart_total (menuItems (db w1)) (first :: more) nzero
    /\ items_of (db w2) (order_id o)
       = cart_rows (menuItems (db w1)) (order_id o) (nextItemId (db w1))
           (first :: more)
    /\ List.length (orders (db w2)) = List.length (orders (db w1)).
Proof.
  intros Hrole Hnone Hrun Hbody Hall Hrange.
  assert (Hz : user_id user <> 0%Z).
  { intros E. unfold createOrder, try_catch in Hrun.
    unfold truthy_int in Hrun. rewrite E in Hrun. cbn in Hrun.
    injection Hrun as <- <-. discriminate. }
  assert (Hp : pending_of (db w1) (user_id user) = Some o).
  { destruct (createOrder_inv _ _ _ Hrun)
      as [(_ & _ & msg & [Hb | Hb])
         | (customer & branchId & wa & wb & ds & total & o' & its' & Hcust & _
            & Hassign & _ & Hprice & Hcreate & ->)];
      try (rewrite Hb in Hbody; discriminate).
    injection Hbody as <- <-.
    rewrite Hrole in Hcust. injection Hcust as <-.
    apply assignBranch_db in Hassign.
    apply priceItems_run in Hprice as [Hdb _].
    apply order_create_resolved in Hcreate as (_ & -> & _ & Hord & _).
    unfold pending_of in *.
    rewrite Hord, find_over_app, Hdb, Hassign, Hnone. simpl.
    now rewrite Z.eqb_refl. }
  assert (Hopens : cart_opens (db w1) (user_id user) = true).
  { unfold cart_opens. now rewrite Hp. }
  destruct (pending_of_found _ _ Hp) as (_ & Hcustomer & Hstatus).
  destruct (@syncCart_reliable_ok _ _ user first more (db w1) Hz Hopens Hall Hrange)
    as (w2 & Hsync).
  destruct (synced_cart _ _ _ Hsync eq_refl)
    as (f & m & [= <- <-] & _ & Hp2 & Hitems & Hlen & _).
  cbn [reliable db] in Hp2, Hitems, Hlen.
  unfold cart_orders in Hlen. unfold cart_order in Hp2, Hitems.
  rewrite Hp in Hp2, Hitems, Hlen.
  eexists w2, _. split; [exact Hsync|]. split; [exact Hp2|].
  cbn [set_order_total order_id order_status order_customerId order_branchId
       order_deliveryAddress order_totalAmount].
  repeat split; assumption.
Qed.

(** X18.  The sync is not one step.  The old rows of the cart are deleted
    before the new ones are priced: when the store rejects the call that
    follows the deletion, the sync answers 500 and the customer's PENDING
    order is left with no items and with its old total. *)
Theorem interrupted_sync_empties_the_cart (user : User) (first : CartItem)
    (more : list CartItem) (w : World num) (o : Order num) (rest : list bool) :
  user_id user <> 0%Z ->
  pending_of (db w) (user_id user) = Some o ->
  faults w = false :: false :: true :: rest ->
  exists w',
    syncCart user (Some (first :: more)) w
    = (cart 500 (CartError "Failed to sync cart"), w')
    /\ items_of (db w') (order_id o) = []
    /\ orders (db w') = orders (db w)
    /\ getCart user (reliable (db w'))
       = (cart 200 (CartItems []), reliable (db w')).
Proof.
  intros Hz Hp Hf.
  unfold syncCart, attempt, truthy_int. rewrite Bool.negb_involutive.
  destruct (Z.eqb_spec (user_id user) 0) as [E|_]; [contradiction|].
  unfold bind at 1. unfold order_findFirst_pending, store_read.
  rewrite store_call_run, Hf, Hp. cbn [nth tl db].
  unfold bind at 1. unfold ret at 1. cbn beta iota.
  unfold bind at 1. unfold orderItem_deleteMany.
  rewrite store_call_run. cbn [nth tl db faults].
  unfold bind at 1. cbn [addCartItems].
  unfold bind at 1. unfold menuItem_findUnique, store_read.
  rewrite store_call_run. cbn [nth tl db faults].
  eexists. split; [reflexivity|]. cbn [db with_orderItems orders].
  assert (Hempty : items_of
                     (with_orderItems (db w)
                        (filter (fun i => negb (item_orderId i =? order_id o)%Z)
                                (orderItems (db w)))
                        (nextItemId (db w))) (order_id o) = []).
  { unfold items_of. cbn [with_orderItems orderItems]. apply others_removed. }
  split; [exact Hempty|]. split; [reflexivity|].
  rewrite (getCart_run _ _ Hz). cbn [reliable faults nth db tl].
  unfold pending_of in *. cbn [with_orderItems orders]. rewrite Hp, Hempty.
  reflexivity.
Qed.

(** X19.  The reading handlers write nothing: whatever the schedule of
    store failures and whatever they answer, [getPayment],
    [reprintReceipt], [emailReceipt], the cart read and [getOrders] leave
    every table as it was. *)
Theorem reading_writes_nothing (user : User) (id : Z) (email : option string)
    (q : OrderQuery) (w : World num) :
  db (snd (getPayment user id w)) = db w
  /\ db (snd (reprintReceipt user id w)) = db w
  /\ db (snd (emailReceipt user id email w)) = db w
  /\ db (snd (getCart user w)) = db w
  /\ db (snd (getOrders user q w)) = db w.
Proof.
  repeat split.
  - destruct (getPayment user id w) as [r w'] eqn:H.
    now apply getPayment_inv in H.
  - destruct (reprintReceipt user id w) as [r w'] eqn:H.
    unfold reprintReceipt in H. now apply receipt_copy_inv in H.
  - destruct (emailReceipt user id email w) as [r w'] eqn:H.
    now apply emailReceipt_inv in H.
  - destruct (Z.eqb_spec (user_id user) 0) as [E|Hz].
    + unfold getCart, attempt, truthy_int. rewrite E. reflexivity.
    + rewrite (getCart_run _ _ Hz). now destruct (nth 0 (faults w) false).
  - destruct (getOrders user q w) as [r w'] eqn:H.
    now apply getOrders_inv in H.
Qed.
End Cart_and_orders.

(** ** The token in front of the handlers *)

Section Tokens.
Context {num : Type} {NUM : JsNumber num}.
Variable verify : string -> Verification.

Lemma parse_role_name (v : JsValue) (r : Role) :
  parse_role v = Some r -> v = JsString (role_name r).
Proof.
  destruct v as [| | | | | | |s]; try discriminate. unfold parse_role.
  repeat match goal with
         | |- context [String.eqb s ?x] =>
             destruct (String.eqb_spec s x); [subst; intros [= <-]; reflexivity |]
         end.
  discriminate.
Qed.

Lemma split_spaces_word (word rest : string) :
  (forall c, In c (list_ascii_of_string word) -> c <> " "%char) ->
  split_spaces (word ++ String " " rest) = word :: split_spaces rest.
Proof.
  induction word as [|c word IH]; intros Hword.
  - reflexivity.
  - cbn [String.append split_spaces].
    destruct (Ascii.eqb_spec c " ") as [E|_].
    + exfalso. apply (Hword c); [left; reflexivity | exact E].
    + rewrite IH; [reflexivity|].
      intros c' Hin. apply Hword. right. exact Hin.
Qed.

Lemma parse_role_of_name (r : Role) :
  parse_role (JsString (role_name r)) = Some r
  /\ js_falsy (JsString (role_name r)) = false.
Proof. destruct r; split; reflexivity. Qed.

(** X20.  What the middleware lets through.  [authenticateToken] calls the
    next handler exactly when the header has a second word, [jwt.verify]
    accepts that word, the [userId] claim is a finite number other than 0
    (an integer or not) and the [role] claim names one of the six roles.
    Then [req.user] is read off the claims: the id is the [userId] claim,
    the role is the [role] claim, and the branch is the [branchId] claim
    when that is truthy and is absent otherwise. *)
Theorem request_user_comes_from_the_token (authHeader : option string)
    (user : RequestUser) :
  authenticateToken verify authHeader = inr user <->
  exists header token decoded,
    authHeader = Some header
    /\ nth_error (split_spaces header) 1 = Some token
    /\ token <> ""
    /\ verify token = Verified decoded
    /\ ru_id user = jwt_userId decoded
    /\ ((exists n, jwt_userId decoded = JsNum n /\ n <> 0%Z)
        \/ (exists q, jwt_userId decoded = JsFraction q /\ Qeq_bool q 0 = false))
    /\ jwt_role decoded = JsString (role_name (ru_role user))
    /\ ru_branchId user
       = match jwt_branchId decoded with
         | JsUndefined | JsNull | JsNaN | JsBool false => None
         | JsNum n => if (n =? 0)%Z then None else Some (JsNum n)
         | JsFraction q => if Qeq_bool q 0 then None else Some (JsFraction q)
         | JsString str => if str =? "" then None else Some (JsString str)
         | JsBool true => Some (JsBool true)
         | JsInfinity => Some JsInfinity
         end.
Proof.
  assert (Hbranch : forall claim,
             (if js_falsy claim then None else Some claim)
             = match claim with
               | JsUndefined | JsNull | JsNaN | JsBool false => None
               | JsNum n => if (n =? 0)%Z then None else Some (JsNum n)
               | JsFraction q => if Qeq_bool q 0 then None else Some (JsFraction q)
               | JsString str => if str =? "" then None else Some (JsString str)
               | JsBool true => Some (JsBool true)
               | JsInfinity => Some JsInfinity
               end).
  { intros [| |[|]|n|q| | |str]; reflexivity. }
  unfold authenticateToken. split.
  - intros Hauth.
    destruct authHeader as [header|]; [|discriminate].
    destruct (nth_error (split_spaces header) 1) as [token|] eqn:Htoken;
      [|discriminate].
    unfold truthy_str in Hauth. rewrite Bool.negb_involutive in Hauth.
    destruct (String.eqb_spec token "") as [_|Hne]; [discriminate|].
    destruct (verify token) as [decoded|message] eqn:Hverify; [|discriminate].
    cbn zeta in Hauth.
    destruct (js_falsy (jwt_userId decoded)
              || negb (js_is_number (jwt_userId decoded))
              || js_isNaN (jwt_userId decoded)
              || negb (js_isFinite (jwt_userId decoded))) eqn:Hid;
      [discriminate|].
    destruct (js_falsy (jwt_role decoded)); [discriminate|].
    destruct (parse_role (jwt_role decoded)) as [r|] eqn:Hrole; [|discriminate].
    injection Hauth as <-. cbn [ru_id ru_role ru_branchId].
    exists header, token, decoded.
    split; [reflexivity|]. split; [exact Htoken|]. split; [exact Hne|].
    split; [exact Hverify|]. split; [reflexivity|]. split.
    { destruct (jwt_userId decoded) as [| |[|]|n|q| | |str]; try discriminate.
      - left. exists n. split; [reflexivity|]. intros ->. discriminate.
      - right. exists q. split; [reflexivity|]. cbn in Hid.
        now destruct (Qeq_bool q 0).
      - cbn in Hid. destruct (str =? ""); discriminate. }
    split; [now apply parse_role_name | exact (Hbranch (jwt_branchId decoded))].
  - intros (header & token & decoded & -> & -> & Hne & -> & Hid & Hnum & Hrole & Hb).
    unfold truthy_str. rewrite Bool.negb_involutive.
    destruct (String.eqb_spec token "") as [E|_]; [contradiction|].
    cbn zeta.
    assert (Hpass : js_falsy (jwt_userId decoded)
                    || negb (js_is_number (jwt_userId decoded))
                    || js_isNaN (jwt_userId decoded)
                    || negb (js_isFinite (jwt_userId decoded)) = false).
    { destruct Hnum as [(n & -> & Hn) | (q & -> & Hq)]; cbn.
      - destruct (Z.eqb_spec n 0); [contradiction | reflexivity].
      - now rewrite Hq. }
    rewrite Hpass, Hrole.
    destruct (parse_role_of_name (ru_role user)) as [-> ->].
    rewrite Hbranch, <- Hb, <- Hid. now destruct user.
Qed.

(** X21.  The scheme of the header is not looked at.  The token is the
    second word of the header, whatever the first word is: a header with
    any space-free word in the place of [Bearer] is treated as the header
    with [Bearer]. *)
Theorem any_scheme_is_accepted (scheme rest : string) :
  (forall c, In c (list_ascii_of_string scheme) -> c <> " "%char) ->
  authenticateToken verify (Some (scheme ++ String " " rest))
  = authenticateToken verify (Some ("Bearer" ++ String " " rest)).
Proof.
  intros Hscheme. unfold authenticateToken.
  rewrite (split_spaces_word scheme rest Hscheme).
  rewrite (split_spaces_word "Bearer" rest); [reflexivity|].
  intros c Hin. simpl in Hin.
  repeat (destruct Hin as [<- | Hin]; [discriminate|]). contradiction.
Qed.

Lemma createOrder_unauthenticated (user : User) (b : OrderBody)
    (w w' : World num) (r : Response num) :
  createOrder user b w = (r, w') -> code r = 401%Z -> user_id user = 0%Z.
Proof.
  unfold createOrder, try_catch. intros Hrun Hcode.
  change (truthy_int (Some (user_id user)))
    with (negb (user_id user =? 0)%Z) in Hrun.
  destruct (Z.eqb_spec (user_id user) 0) as [E|_]; [exact E|]. exfalso.
  cbn [negb] in Hrun.
  destruct (actualCustomerId (user_role user) (body_customerId b) (user_id user))
    as [customer|];
    [|injection Hrun as <- <-; discriminate].
  destruct (body_items b) as [|i0 items0];
    [injection Hrun as <- <-; discriminate|].
  unfold bind at 1 in Hrun.
  destruct (assignBranch b w) as [[[r1 | branchId]|] w1] eqn:Hassign.
  - injection Hrun as <- <-.
    unfold assignBranch in Hassign.
    destruct (body_deliveryAddress b) as [addr|]; [|discriminate].
    destruct (negb (truthy_int (body_branchId b)) && truthy_str (Some addr));
      [|discriminate].
    unfold bind, branch_findMany, store_read in Hassign.
    rewrite store_call_run in Hassign.
    destruct (nth 0 (faults w) false); [discriminate|].
    cbn beta iota zeta in Hassign.
    destruct (branches (db w)); [|discriminate].
    injection Hassign as <- _. discriminate.
  - destruct (truthy_int branchId); cbn [negb] in Hrun;
      [|injection Hrun as <- <-; discriminate].
    unfold bind at 1 in Hrun.
    destruct (priceItems (i0 :: items0) [] nzero w1) as [[[r2 | [ds total]]|] w2]
      eqn:Hprice;
      pose proof (priceItems_run _ _ _ _ Hprice) as [_ Hout].
    + injection Hrun as <- <-. destruct Hout as [[Hc | Hc] _];
        rewrite Hc in Hcode; discriminate.
    + unfold bind at 1 in Hrun.
      match type of Hrun with
      | context [order_create ?d w2] =>
          destruct (order_create d w2) as [[[o its]|] w3]
      end; injection Hrun as <- <-; discriminate.
    + injection Hrun as <- <-. discriminate.
  - injection Hrun as <- <-. discriminate.
Qed.

Lemma authenticated_id (authHeader : option string) (user : User) :
  authenticateToken verify authHeader = inr (request_user user) ->
  user_id user <> 0%Z.
Proof.
  unfold authenticateToken. intros Hauth.
  destruct authHeader as [header|]; [|discriminate].
  destruct (nth_error (split_spaces header) 1) as [token|]; [|discriminate].
  destruct (negb (truthy_str (Some token))); [discriminate|].
  destruct (verify token) as [decoded|message]; [|discriminate].
  cbn zeta in Hauth.
  destruct (js_falsy (jwt_userId decoded) || negb (js_is_number (jwt_userId decoded))
            || js_isNaN (jwt_userId decoded)
            || negb (js_isFinite (jwt_userId decoded))) eqn:Hid;
    [discriminate|].
  destruct (if js_falsy (jwt_role decoded) then None
            else parse_role (jwt_role decoded)); [|discriminate].
  injection Hauth as Hn _ _. rewrite Hn in Hid. cbn in Hid.
  intros E. rewrite E in Hid. discriminate.
Qed.

(** X22.  Behind the middleware the handlers do not answer 401.  For a
    [req.user] that [authenticateToken] let through, with an integer id
    and branch as the handlers have them, [createOrder] and the
    cart read never answer 401, whatever the request and whatever the
    store does. *)
Theorem token_bearers_are_not_asked_again (authHeader : option string)
    (user : User) (b : OrderBody) (w : World num) :
  authenticateToken verify authHeader = inr (request_user user) ->
  code (fst (createOrder user b w)) <> 401%Z
  /\ cart_code (fst (getCart user w)) <> 401%Z.
Proof.
  intros Hauth.
  pose proof (authenticated_id _ Hauth) as Hz.
  split.
  - destruct (createOrder user b w) as [r w'] eqn:Hrun. cbn [fst].
    intros Hcode. apply Hz. exact (createOrder_unauthenticated _ _ _ Hrun Hcode).
  - rewrite (getCart_run _ _ Hz). now destruct (nth 0 (faults w) false).
Qed.
End Tokens.

(** * The further properties, on the scenarios *)

Import Evening.

(** The chef of branch 1 starts order 6, which is PENDING. *)
Lemma accepted_transition_advances_witness :
  let run := updateOrderStatus chef_of_elm 6 "PREPARING" (reliable busy) in
  find_order busy 6 = Some order6
  /\ code (fst run) = 200
  /\ exists o',
       find_order (db (snd run)) 6 = Some o'
       /\ "PREPARING" = status_name (order_status o')
       /\ (rank (order_status order6) < rank (order_status o'))%nat.
Proof.
  cbn zeta. split; [reflexivity|]. split; [reflexivity|].
  exact (@accepted_transition_advances Q chef_of_elm 6 "PREPARING" (reliable busy)
           _ _ order6 eq_refl (surjective_pairing _) eq_refl).
Defined.

(** The same request leaves the rest of order 6, and orders 5 and 8, as
    they were. *)
Lemma accepted_transition_frame_witness :
  let run := updateOrderStatus chef_of_elm 6 "PREPARING" (reliable busy) in
  find_order busy 6 = Some order6
  /\ code (fst run) = 200
  /\ (exists o',
        find_order (db (snd run)) 6 = Some o'
        /\ order_totalAmount o' = 20%Q
        /\ order_customerId o' = 7
        /\ order_branchId o' = 1)
  /\ find_order (db (snd run)) 5 = Some order5
  /\ find_order (db (snd run)) 8 = Some order8
  /\ orderItems (db (snd run)) = [item_of_order5].
Proof.
  cbn zeta.
  destruct (@accepted_transition_frame Q chef_of_elm 6 "PREPARING" (reliable busy)
              _ _ order6 eq_refl (surjective_pairing _) eq_refl)
    as ((o' & Ho' & Htotal & Hcust & Hbranch & _) & Hothers & Hitems & _).
  split; [reflexivity|]. split; [reflexivity|]. split.
  { exists o'. repeat split; assumption. }
  split; [apply Hothers; discriminate|].
  split; [apply Hothers; discriminate | exact Hitems].
Defined.

(** The cashier of branch 2 cancels order 5, which is paid: the payment of
    order 5 is the only row that changes.  The chef's request changes no
    row. *)
Lemma transition_leaves_payments_witness :
  let cancelled := updateOrderStatus cashier_of_oak 5 "CANCELLED" (reliable busy) in
  let started := updateOrderStatus chef_of_elm 6 "PREPARING" (reliable busy) in
  Forall2 (fun p p' => p' = p \/ p' = set_payment_status PaymentStatus.REFUNDED p)
          (payments busy) (payments (db (snd cancelled)))
  /\ payments (db (snd started)) = payments busy.
Proof.
  cbn zeta. split.
  - exact (proj1 (@transition_leaves_payments Q cashier_of_oak 5 "CANCELLED"
                    (reliable busy) _ _ (surjective_pairing _))).
  - apply (proj2 (@transition_leaves_payments Q chef_of_elm 6 "PREPARING"
                    (reliable busy) _ _ (surjective_pairing _))).
    discriminate.
Defined.

(** The admin deletes order 6: the rows of the items and of the payments
    are the ones that were there. *)
Lemma deletion_leaves_items_and_payments_witness :
  let run := deleteOrder admin 6 (reliable busy) in
  code (fst run) = 200
  /\ find_order (db (snd run)) 6 = None
  /\ orderItems (db (snd run)) = [item_of_order5]
  /\ map (@payment_orderId Q) (payments (db (snd run))) = [5; 8].
Proof.
  cbn zeta.
  destruct (@deletion_leaves_items_and_payments Q admin 6 (reliable busy) _ _
              (surjective_pairing _)) as (Hitems & _ & _ & Horders).
  split; [reflexivity|]. split; [reflexivity|].
  split; [exact Hitems | exact Horders].
Defined.


(** The busy store has one payment per order, and keeps it so when
    customer 7 pays order 6 and when order 5 is cancelled. *)
Lemma one_payment_per_order_kept_witness :
  one_payment_per_order busy
  /\ one_payment_per_order
       (db (snd (processPayment customer7 6 (Some 20%Q) (Some "CASH")
                   (reliable busy))))
  /\ one_payment_per_order
       (db (snd (updateOrderStatus cashier_of_oak 5 "CANCELLED" (reliable busy)))).
Proof.
  assert (H : one_payment_per_order busy).
  { unfold one_payment_per_order. simpl.
    constructor; [simpl; intros [E | []]; discriminate|].
    constructor; [simpl; tauto | constructor]. }
  split; [exact H|].
  destruct (@one_payment_per_order_kept Q QNumber (reliable busy) H)
    as (Hpay & Hupdate & _).
  split.
  - exact (Hpay _ _ _ _ _ _ (surjective_pairing _)).
  - exact (Hupdate _ _ _ _ _ (surjective_pairing _)).
Defined.

(** The admin lists everything: the three orders, the newest first. *)
Lemma listing_newest_first_witness :
  let run := getOrders admin everything (reliable busy) in
  exists listed,
    body (fst run) = OrderList listed
    /\ map (@view_order Q) listed = [order8; order6; order5]
    /\ StronglySorted not_older (map (@view_order Q) listed)
    /\ db (snd run) = busy.
Proof.
  cbn zeta. eexists. split; [reflexivity|]. split; [reflexivity|].
  destruct (@listing_newest_first Q admin everything (reliable busy) _ _ _
              (surjective_pairing _) eq_refl) as (Hdb & Hsorted & _).
  split; [exact Hsorted | exact Hdb].
Defined.

(** The chef of branch 1 lists everything and sees orders of branch 1
    only; customer 9 sees their own. *)
Lemma listing_is_scoped_witness :
  let kitchen := getOrders chef_of_elm everything (reliable busy) in
  let own := getOrders customer9 everything (reliable busy) in
  exists listed listed',
    body (fst kitchen) = OrderList listed
    /\ map (@view_order Q) listed = [order8; order6]
    /\ (forall v, In v listed -> order_branchId (view_order v) = 1)
    /\ body (fst own) = OrderList listed'
    /\ map (@view_order Q) listed' = [order8]
    /\ (forall v, In v listed' -> order_customerId (view_order v) = 9).
Proof.
  cbn zeta. eexists _, _. split; [reflexivity|]. split; [reflexivity|]. split.
  - exact (proj2 (@listing_is_scoped Q chef_of_elm everything (reliable busy) _ _ _
                    (surjective_pairing _) eq_refl)
             1 (or_introl eq_refl) eq_refl ltac:(discriminate)).
  - split; [reflexivity|]. split; [reflexivity|].
    exact (proj1 (@listing_is_scoped Q customer9 everything (reliable busy) _ _ _
                    (surjective_pairing _) eq_refl) eq_refl).
Defined.

(** The admin asks for the orders of branch 1. *)
Lemma admin_listing_filters_witness :
  let run := getOrders admin of_branch_1 (reliable busy) in
  exists listed,
    body (fst run) = OrderList listed
    /\ map (@view_order Q) listed = [order8; order6]
    /\ forall o, In o (map (@view_order Q) listed) <->
                 In o (orders busy) /\ (order_branchId o =? 1)%Z = true.
Proof.
  cbn zeta. eexists. split; [reflexivity|]. split; [reflexivity|].
  destruct (@admin_listing_filters Q admin of_branch_1 (reliable busy) _ _ _
              (or_introl eq_refl) (surjective_pairing _) eq_refl)
    as (f & Hf & Hlisted).
  injection Hf as <-. intros o. rewrite (Hlisted o). simpl. tauto.
Defined.


(** Customer 7 orders minus three steaks, and then 2147483648 steaks. *)
Lemma any_quantity_is_accepted_witness :
  (exists o its w',
     createOrder customer7
       {| body_branchId := Some 1;
          body_items := [{| req_menuItemId := 3; req_quantity := -3 |}];
          body_deliveryAddress := None;
          body_customerId := None |}
       (reliable opening)
     = (respond 201 (CreatedOrder o its), w')
     /\ order_totalAmount o = nadd nzero (nmul 10%Q (of_int (-3)))
     /\ map (@item_quantity Q) its = [-3]
     /\ In o (orders (db w')))
  /\ In 7 (userIds opening)
  /\ In 1 (map branch_id (branches opening))
  /\ int4 (-3) = true
  /\ int4 2147483648 = false
  /\ createOrder customer7
       {| body_branchId := Some 1;
          body_items := [{| req_menuItemId := 3; req_quantity := 2147483648 |}];
          body_deliveryAddress := None;
          body_customerId := None |}
       (reliable opening)
     = (respond 500 (Error "Internal server error"), reliable opening).
Proof.
  split.
  - exact (proj1 (@any_quantity_is_accepted Q QNumber customer7 1 (-3) steak opening
                    ltac:(discriminate) ltac:(discriminate) (or_introl eq_refl)
                    ltac:(discriminate) (or_introl eq_refl) eq_refl eq_refl)
             eq_refl).
  - split; [now left|]. split; [now left|].
    split; [reflexivity|]. split; [reflexivity|].
    exact (proj2 (@any_quantity_is_accepted Q QNumber customer7 1 2147483648 steak
                    opening
                    ltac:(discriminate) ltac:(discriminate) (or_introl eq_refl)
                    ltac:(discriminate) (or_introl eq_refl) eq_refl eq_refl)
             eq_refl).
Defined.

(** Customer 7 reads the payment of order 5, which is theirs; the cashier
    of branch 2 reads it too. *)
Lemma payment_view_is_scoped_witness :
  let own := getPayment customer7 5 (reliable busy) in
  let till := getPayment cashier_of_oak 5 (reliable busy) in
  receipt_code (fst own) = 200
  /\ receipt_body (fst own)
     = PaymentDetails payment_of_order5
         (Some {| owner_customerId := 7; owner_branchId := 2 |})
  /\ (exists o, find_order busy 5 = Some o /\ order_customerId o = 7)
  /\ receipt_code (fst till) = 200
  /\ (exists o, find_order busy 5 = Some o /\ Some 2 = Some (order_branchId o)).
Proof.
  cbn zeta.
  destruct (@payment_view_is_scoped Q customer7 5 (reliable busy) _ _
              (surjective_pairing _) eq_refl) as (p & Hbody & _ & Hcust & _).
  destruct (@payment_view_is_scoped Q cashier_of_oak 5 (reliable busy) _ _
              (surjective_pairing _) eq_refl) as (p' & _ & _ & _ & Hcash).
  split; [reflexivity|]. split; [reflexivity|].
  split; [exact (Hcust eq_refl)|]. split; [reflexivity | exact (Hcash eq_refl)].
Defined.

(** The cashier of branch 2 reprints the receipt of payment 1, which pays
    order 5 of branch 2, and has it sent by e-mail: the copy carries the
    one row of order 5 with the steak. *)
Lemma cashier_receipts_stay_in_branch_witness :
  let printed := reprintReceipt cashier_of_oak 1 (reliable busy) in
  let sent := emailReceipt cashier_of_oak 1 (Some "guest@example.org")
                (reliable busy) in
  receipt_code (fst printed) = 200
  /\ receipt_code (fst sent) = 200
  /\ receipt_body (fst printed)
     = ReceiptCopy "Receipt reprinted successfully" payment_of_order5
         (Some {| lines_order := order5;
                  lines_items := [(item_of_order5, Some steak)] |})
  /\ (exists p o message copy,
        find_payment busy 1 = Some p
        /\ find_order busy (payment_orderId p) = Some o
        /\ user_branchId cashier_of_oak = Some (order_branchId o)
        /\ receipt_body (fst printed) = ReceiptCopy message p (Some copy)
        /\ (message = "Receipt reprinted successfully"
            \/ exists address,
                 None = Some address
                 /\ message = "Receipt emailed successfully to " ++ address)
        /\ lines_order copy = o
        /\ map fst (lines_items copy) = items_of busy (order_id o)
        /\ Forall (fun line =>
                     snd line = find_menuItem busy (item_menuItemId (fst line)))
                  (lines_items copy))
  /\ (exists p o message copy,
        find_payment busy 1 = Some p
        /\ find_order busy (payment_orderId p) = Some o
        /\ user_branchId cashier_of_oak = Some (order_branchId o)
        /\ receipt_body (fst sent) = ReceiptCopy message p (Some copy)
        /\ (message = "Receipt reprinted successfully"
            \/ exists address,
                 Some "guest@example.org" = Some address
                 /\ message = "Receipt emailed successfully to " ++ address)
        /\ lines_order copy = o
        /\ map fst (lines_items copy) = items_of busy (order_id o)
        /\ Forall (fun line =>
                     snd line = find_menuItem busy (item_menuItemId (fst line)))
                  (lines_items copy)).
Proof.
  cbn zeta. split; [reflexivity|]. split; [reflexivity|].
  split; [reflexivity|]. split.
  - exact (@cashier_receipts_stay_in_branch Q cashier_of_oak 1 None (reliable busy)
             _ _ eq_refl (or_introl (surjective_pairing _)) eq_refl).
  - exact (@cashier_receipts_stay_in_branch Q cashier_of_oak 1
             (Some "guest@example.org") (reliable busy)
             _ _ eq_refl (or_intror (surjective_pairing _)) eq_refl).
Defined.

(** Customer 7 pays order 6 and reads the payment back. *)
Lemma paid_order_shows_its_payment_witness :
  let paid := processPayment customer7 6 (Some 20%Q) (Some "CASH") (reliable busy) in
  code (fst paid) = 201
  /\ exists p o,
       body (fst paid) = PaymentProcessed "Payment processed successfully" p
       /\ find_order busy 6 = Some o
       /\ getPayment customer7 6 (reliable (db (snd paid)))
          = (receipt 200 (PaymentDetails p (Some (owner_of o))), reliable (db (snd paid))).
Proof.
  cbn zeta. split; [reflexivity|].
  exact (@paid_order_shows_its_payment Q QNumber customer7 6 (Some 20%Q)
           (Some "CASH") (reliable busy) _ _ (surjective_pairing _) eq_refl).
Defined.

(** Customer 7, whose one PENDING order is order 6, syncs two steaks and a
    soup, and reads the cart back. *)
Lemma cart_round_trip_witness :
  let synced := syncCart customer7 (Some listed_cart) (reliable supper) in
  pending_orders supper 7 = [order6]
  /\ cart_code (fst synced) = 200
  /\ exists posted,
       Some listed_cart = Some posted
       /\ posted <> []
       /\ getCart customer7 (reliable (db (snd synced)))
          = (cart 200 (CartItems posted), reliable (db (snd synced))).
Proof.
  cbn zeta. split; [reflexivity|]. split; [reflexivity|].
  exact (@cart_round_trip Q QNumber customer7 (Some listed_cart) (reliable supper)
           _ _ (le_n 1) (surjective_pairing _) eq_refl).
Defined.

(** Customer 9, who has no PENDING order, syncs two steaks and a soup: the
    soup is not available; the new order is order 9 of branch 1 and totals
    2 x 10.00 + 1 x 5.50. *)
Lemma sync_accepts_whatever_is_listed_witness :
  pending_orders supper 9 = []
  /\ cart_opens supper 9 = true
  /\ menu_isAvailable soup = false
  /\ exists w' o,
       syncCart customer9 (Some listed_cart) (reliable supper)
       = (cart 200 CartSynced, w')
       /\ pending_of (db w') 9 = Some o
       /\ (order_totalAmount o == 51 # 2)%Q
       /\ map (@item_unitPrice Q) (items_of (db w') (order_id o))
          = [10%Q; (11 # 2)%Q]
       /\ map (@item_quantity Q) (items_of (db w') (order_id o)) = [2; 1]
       /\ order_id o = 9
       /\ order_branchId o = 1.
Proof.
  split; [reflexivity|]. split; [reflexivity|]. split; [reflexivity|].
  destruct (@sync_accepts_whatever_is_listed Q QNumber customer9 two_steaks_in_cart
              [a_soup_in_cart] supper ltac:(discriminate) (le_S 0 0 (le_n 0))
              eq_refl eq_refl eq_refl)
    as (w' & o & Hrun & Hp & Htotal & Hitems & Hid & Hbranch & _).
  exists w', o. split; [exact Hrun|]. split; [exact Hp|].
  split; [rewrite Htotal; reflexivity|].
  rewrite Hitems. repeat split; assumption.
Defined.

(** Customer 9 orders two steaks, then syncs two steaks and a soup: the
    order just placed is the one that the sync fills, and its total goes
    from 20.00 to 25.50. *)
Lemma sync_rewrites_a_placed_order_witness :
  let placed := createOrder customer9 two_steaks (reliable supper) in
  pending_of supper 9 = None
  /\ exists o its w2 o',
       body (fst placed) = CreatedOrder o its
       /\ map (@item_menuItemId Q) its = [3]
       /\ (order_totalAmount o == 20)%Q
       /\ syncCart customer9 (Some listed_cart) (reliable (db (snd placed)))
          = (cart 200 CartSynced, w2)
       /\ pending_of (db w2) 9 = Some o'
       /\ order_id o' = order_id o
       /\ order_status o' = PENDING
       /\ (order_totalAmount o' == 51 # 2)%Q
       /\ map (@item_menuItemId Q) (items_of (db w2) (order_id o)) = [3; 4]
       /\ List.length (orders (db w2)) = List.length (orders (db (snd placed))).
Proof.
  cbn zeta. split; [reflexivity|].
  destruct (@sync_rewrites_a_placed_order Q QNumber customer9 two_steaks
              (reliable supper) _ _ _ _ two_steaks_in_cart [a_soup_in_cart]
              eq_refl eq_refl (surjective_pairing _) eq_refl eq_refl eq_refl)
    as (w2 & o' & Hrun & Hp & Hid & Hstatus & _ & _ & _ & Htotal & Hitems & Hlen).
  eexists _, _, w2, o'. split; [reflexivity|]. split; [reflexivity|].
  split; [reflexivity|].
  split; [exact Hrun|]. split; [exact Hp|]. split; [exact Hid|].
  split; [exact Hstatus|]. split; [rewrite Htotal; reflexivity|].
  split; [|exact Hlen].
  rewrite Hitems. reflexivity.
Defined.

(** Customer 7 has a row in the cart; the store rejects the first lookup
    of the catalog. *)
Lemma interrupted_sync_empties_the_cart_witness :
  items_of supper 6 = [item_of_order6]
  /\ pending_of supper 7 = Some order6
  /\ exists w',
       syncCart customer7 (Some listed_cart)
         {| db := supper; faults := [false; false; true] |}
       = (cart 500 (CartError "Failed to sync cart"), w')
       /\ items_of (db w') 6 = []
       /\ orders (db w') = orders supper
       /\ getCart customer7 (reliable (db w'))
          = (cart 200 (CartItems []), reliable (db w')).
Proof.
  split; [reflexivity|]. split; [reflexivity|].
  exact (@interrupted_sync_empties_the_cart Q QNumber customer7 two_steaks_in_cart
           [a_soup_in_cart] {| db := supper; faults := [false; false; true] |}
           order6 [] ltac:(discriminate) eq_refl eq_refl).
Defined.

(** Customer 7 syncs two steaks, a soup and five of an item that the
    catalog does not have: the row that was in the cart is gone, the rows
    of the steaks and of the soup are written, and order 6 still totals
    20.00. *)
Lemma unknown_item_wrecks_the_cart_witness :
  items_of supper 6 = [item_of_order6]
  /\ cart_opens supper 7 = true
  /\ exists w',
       syncCart customer7 (Some mixed_cart) (reliable supper)
       = (cart 500 (CartError "Failed to sync cart"), w')
       /\ map (@item_menuItemId Q) (items_of (db w') 6) = [3; 4]
       /\ find_order (db w') 6 = Some order6.
Proof.
  split; [reflexivity|]. split; [reflexivity|].
  destruct (@unknown_item_wrecks_the_cart Q QNumber customer7 listed_cart
              five_unknown [] supper ltac:(discriminate) eq_refl eq_refl)
    as (w' & Hrun & Hrest).
  destruct (Hrest eq_refl eq_refl) as (Hitems & Horders).
  exists w'. split; [exact Hrun|].
  change (order_id (cart_order supper (user_id customer7))) with 6 in Hitems.
  rewrite Hitems. split; [reflexivity|].
  unfold find_order. rewrite Horders. reflexivity.
Defined.

(** Customer 9 syncs a salad on the store that has branch 2 only: no
    order is opened and no row is written. *)
Lemma first_cart_needs_branch_1_witness :
  map branch_id (branches oak_alone) = [2]
  /\ listed (menuItems oak_alone) a_salad_in_cart = true
  /\ in_range a_salad_in_cart = true
  /\ cart_opens oak_alone 9 = false
  /\ exists w',
       syncCart customer9 (Some [a_salad_in_cart]) (reliable oak_alone)
       = (cart 500 (CartError "Failed to sync cart"), w')
       /\ db w' = oak_alone
       /\ orders (db w') = []
       /\ orderItems (db w') = [].
Proof.
  split; [reflexivity|]. split; [reflexivity|]. split; [reflexivity|].
  split; [reflexivity|].
  destruct (@first_cart_needs_branch_1 Q QNumber customer9 a_salad_in_cart []
              oak_alone ltac:(discriminate) eq_refl eq_refl)
    as (w' & Hrun & Hdb).
  exists w'. split; [exact Hrun|]. split; [exact Hdb|].
  rewrite Hdb. split; reflexivity.
Defined.

(** The token of the cashier carries the branch 2, and the request user
    has it; the token of the chef carries the branch 0, and the request
    user has no branch; the token with the id 7.5 is let through. *)
Lemma request_user_comes_from_the_token_witness :
  authenticateToken known_tokens (Some "Bearer cashier-token")
  = inr {| ru_id := JsNum 13; ru_role := CASHIER; ru_branchId := Some (JsNum 2) |}
  /\ authenticateToken known_tokens (Some "Bearer chef-token")
     = inr {| ru_id := JsNum 11; ru_role := CHEF; ru_branchId := None |}
  /\ authenticateToken known_tokens (Some "Bearer half-token")
     = inr {| ru_id := JsFraction (15 # 2); ru_role := CUSTOMER;
              ru_branchId := None |}
  /\ exists header token decoded,
       Some "Bearer cashier-token" = Some header
       /\ nth_error (split_spaces header) 1 = Some token
       /\ known_tokens token = Verified decoded
       /\ jwt_userId decoded = JsNum 13
       /\ jwt_role decoded = JsString "CASHIER"
       /\ jwt_branchId decoded = JsNum 2.
Proof.
  split.
  { apply (proj2 (@request_user_comes_from_the_token known_tokens
                    (Some "Bearer cashier-token")
                    {| ru_id := JsNum 13; ru_role := CASHIER;
                       ru_branchId := Some (JsNum 2) |})).
    exists "Bearer cashier-token", "cashier-token",
      {| jwt_userId := JsNum 13; jwt_role := JsString "CASHIER";
         jwt_branchId := JsNum 2 |}.
    repeat split; try discriminate.
    left. exists 13. split; [reflexivity | discriminate]. }
  split; [reflexivity|]. split; [reflexivity|].
  destruct (proj1 (@request_user_comes_from_the_token known_tokens
                     (Some "Bearer cashier-token")
                     {| ru_id := JsNum 13; ru_role := CASHIER;
                        ru_branchId := Some (JsNum 2) |}) eq_refl)
    as (header & token & decoded & Hheader & Htoken & _ & Hverify & Hid & _
        & Hrole & Hbranch).
  exists header, token, decoded.
  split; [exact Hheader|]. split; [exact Htoken|]. split; [exact Hverify|].
  split; [now rewrite <- Hid|]. split; [exact Hrole|].
  cbn [ru_branchId] in Hbranch.
  destruct (jwt_branchId decoded) as [| |[|]|n|q| | |str]; try discriminate.
  - destruct (n =? 0)%Z; [discriminate | now injection Hbranch as <-].
  - destruct (Qeq_bool q 0); discriminate.
  - destruct (str =? ""); discriminate.
Defined.

(** A header that says [Basic] is read as one that says [Bearer]. *)
Lemma any_scheme_is_accepted_witness :
  authenticateToken known_tokens (Some "Basic customer-token")
  = authenticateToken known_tokens (Some "Bearer customer-token")
  /\ authenticateToken known_tokens (Some "Basic customer-token")
     = inr {| ru_id := JsNum 7; ru_role := CUSTOMER; ru_branchId := None |}.
Proof.
  split; [|reflexivity].
  apply (@any_scheme_is_accepted known_tokens "Basic" "customer-token").
  intros c Hin. simpl in Hin.
  repeat (destruct Hin as [<- | Hin]; [discriminate|]). contradiction.
Defined.

(** Customer 7, let through by the middleware, orders and reads the cart. *)
Lemma token_bearers_are_not_asked_again_witness :
  authenticateToken known_tokens (Some "Bearer customer-token")
  = inr {| ru_id := JsNum 7; ru_role := CUSTOMER; ru_branchId := None |}
  /\ request_user customer7
     = {| ru_id := JsNum 7; ru_role := CUSTOMER; ru_branchId := None |}
  /\ code (fst (createOrder customer7 two_steaks (reliable opening))) <> 401
  /\ cart_code (fst (getCart customer7 (reliable opening))) <> 401.
Proof.
  split; [reflexivity|]. split; [reflexivity|].
  exact (@token_bearers_are_not_asked_again Q QNumber known_tokens
           (Some "Bearer customer-token") customer7 two_steaks (reliable opening)
           eq_refl).
Defined.
